(** * HEX-AVG: a shallow embedding of the scanning pipeline

    The development follows the layout of the Python sources.  Part I embeds
    the code, one module per source file:

    - [py]                : the fragment of Python the sources rely on
                            (exceptions, dictionaries, truthiness, [pathlib]);
    - [config]            : the process-wide settings object;
    - [file_traversal]    : [src/core/file_traversal.py];
    - [multithreading]    : [src/core/multithreading.py];
    - [hasher]            : hashing and integrity check of [src/core/hasher.py];
    - [scanner]           : [src/core/scanner.py];
    - [signature]         : [src/detection/signature.py];
    - [advanced_heuristic]: [src/detection/advanced_heuristic.py];
    - [ml_scoring]        : [src/detection/ml_scoring.py];
    - [cloud_sync]        : [src/cloud/cloud_sync.py];
    - [cli]               : the [scan] command of [src/cli.py];
    - [hex_avg]           : the [scan] and [benchmark] commands of [hex_avg.py].

    Part II holds sample data and the notions the statements are phrased
    with; Part III states and proves the properties, one module per source
    module.

    Conventions.  Python [int] is [Z] (counters that only ever grow from 0 are
    [nat]); Python [float] is idealised as a real number [R]; [str] is
    [string]; [bytes] is [list byte]; a dictionary whose keys matter is a
    [gmap string _]; a raised exception is the [Raise] branch of [result].
    Mutable objects are threaded explicitly as state. *)

From Stdlib Require Import ZArith List String Ascii Strings.Byte Bool Lia Reals Lra Permutation.
From stdpp Require Import gmap strings list pretty.
Import ListNotations.
Local Open Scope string_scope.
Set Warnings "-register-all".

(* ===================================================================== *)
(** * Part I: the embedding                                              *)
(* ===================================================================== *)

(** ** Python preliminaries *)
Module py.

(** The exception classes the sources raise or catch. *)
Inductive exn : Type :=
| FileNotFoundError (msg : string)
| ValueError (msg : string)
| KeyError (key : string)
| TypeError (msg : string)
| PermissionError
| OSError (msg : string)
| IntegrityError (msg : string)
| OverflowError (msg : string)
| Exception (msg : string).

(** [str(e)] for an exception [e]: the text a handler captures. *)
Definition str_exn (e : exn) : string :=
  match e with
  | FileNotFoundError m | ValueError m | TypeError m
  | OSError m | IntegrityError m | OverflowError m | Exception m => m
  | KeyError k => "'" ++ k ++ "'"
  | PermissionError => "Permission denied"
  end.

(** [except (PermissionError, OSError)]: [PermissionError] and
    [FileNotFoundError] are subclasses of [OSError]. *)
Definition is_OSError (e : exn) : bool :=
  match e with
  | PermissionError | OSError _ | FileNotFoundError _ => true
  | _ => false
  end.

(** A call either returns a value or raises. *)
Inductive result (A : Type) : Type :=
| Return (a : A)
| Raise (e : exn).
Arguments Return {A} a.
Arguments Raise {A} e.

Definition bind {A B} (m : result A) (k : A -> result B) : result B :=
  match m with
  | Return a => k a
  | Raise e => Raise e
  end.

(** Python values as they occur in result dictionaries and JSON documents. *)
Inductive value : Type :=
| VNone
| VBool (b : bool)
| VInt (z : Z)
| VStr (s : string)
| VList (l : list value)
| VDict (d : gmap string value).

(** Truth-value testing: [None], [False], [0], [''], [[]] and [{}] are false. *)
Definition truthy (v : value) : bool :=
  match v with
  | VNone => false
  | VBool b => b
  | VInt z => negb (z =? 0)%Z
  | VStr s => negb (String.eqb s "")
  | VList l => match l with [] => false | _ => true end
  | VDict d => negb (bool_decide (d = ∅))
  end.

(** [d[k]]: subscription raises [KeyError] on a missing key. *)
Definition getitem (d : gmap string value) (k : string) : result value :=
  match d !! k with
  | Some v => Return v
  | None => Raise (KeyError k)
  end.

(** [x == 'literal'] for a value [x] and a string literal. *)
Definition eq_str (v : value) (s : string) : bool :=
  match v with
  | VStr s' => String.eqb s' s
  | _ => false
  end.

(** [x or d] on an optional integer: [None] and [0] are both false. *)
Definition or_int (x : option Z) (d : Z) : Z :=
  match x with
  | Some v => if (v =? 0)%Z then d else v
  | None => d
  end.

(** *** Strings *)

Definition lower_ascii (c : ascii) : ascii :=
  let n := nat_of_ascii c in
  if (65 <=? n)%nat && (n <=? 90)%nat then ascii_of_nat (n + 32) else c.

(** [str.lower()] on ASCII text. *)
Fixpoint lower (s : string) : string :=
  match s with
  | EmptyString => EmptyString
  | String c s' => String (lower_ascii c) (lower s')
  end.

(** [s.lstrip('.')]. *)
Fixpoint lstrip_dot (s : string) : string :=
  match s with
  | String "."%char s' => lstrip_dot s'
  | _ => s
  end.

(** [s.startswith(p)]. *)
Definition startswith (s p : string) : bool := String.prefix p s.

(** [s.rfind('.')], [None] standing for [-1]. *)
Fixpoint rfind_dot (s : string) : option nat :=
  match s with
  | EmptyString => None
  | String c s' =>
      match rfind_dot s' with
      | Some i => Some (S i)
      | None => if Ascii.eqb c "."%char then Some 0%nat else None
      end
  end.

(** *** [pathlib] *)

(** A path is the list of its [parts]. *)
Definition Path : Type := list string.

(** [Path.name]: the final component. *)
Definition name (p : Path) : string := List.last p "".

(** [Path.suffix]: [name[i:]] for [i = name.rfind('.')] when
    [0 < i < len(name) - 1], and [''] otherwise. *)
Definition suffix (p : Path) : string :=
  let n := name p in
  match rfind_dot n with
  | Some i =>
      if (0 <? i)%nat && (i <? String.length n - 1)%nat
      then String.substring i (String.length n - i) n
      else ""
  | None => ""
  end.

(** [root / name]. *)
Definition joinpath (p : Path) (n : string) : Path := (p ++ [n])%list.

(** [str(path)] in POSIX flavour. *)
Definition str_path (p : Path) : string :=
  match p with
  | "/" :: rest => "/" ++ String.concat "/" rest
  | _ => String.concat "/" p
  end.

(** [s[:n]] where [s] is a [set]: sets support no subscription, whatever
    they hold. *)
Definition subscript_set {A : Type} (s : list A) : result (list A) :=
  Raise (TypeError "'set' object is not subscriptable").

(** *** [bytes] *)

Definition b (s : string) : list Byte.byte := list_byte_of_string s.

(** [data.startswith(prefix)]. *)
Fixpoint bytes_startswith (data prefix : list Byte.byte) : bool :=
  match prefix, data with
  | [], _ => true
  | p :: prefix', d :: data' => Byte.eqb p d && bytes_startswith data' prefix'
  | _ :: _, [] => false
  end.

(** [needle in data]. *)
Fixpoint bytes_contains (data needle : list Byte.byte) : bool :=
  bytes_startswith data needle ||
  match data with
  | [] => false
  | _ :: data' => bytes_contains data' needle
  end.

(** [f.read(n)]: at most the first [n] bytes. *)
Fixpoint read_upto (n : N) (data : list Byte.byte) : list Byte.byte :=
  match data with
  | [] => []
  | x :: data' => if (n =? 0)%N then [] else x :: read_upto (N.pred n) data'
  end.

(** *** The file system

    A finite tree.  An entry is classified the way [os.DirEntry] and
    [pathlib] report it: a regular file, a directory, or anything else (a
    socket or device, which exists, or a dangling link, which does not).
    An entry may also be out of reach ([Inaccessible]): the directory that
    holds it can be listed but grants no search permission, so a listing
    still tells whether the entry is a directory, while [stat], [open] and
    every other access to it are refused with [EACCES]. *)
Inductive node : Type :=
| RegularFile (readable : bool) (content : list Byte.byte)
| Directory (listable : bool) (entries : list (string * node))
| Special (exists_ : bool)
| Inaccessible (dir : bool).

(** [entry.is_dir()] and [entry.is_file()] of [os.DirEntry]: answered from
    the listing, without a [stat]. *)
Definition is_dir (n : node) : bool :=
  match n with Directory _ _ => true | Inaccessible d => d | _ => false end.

Definition is_file (n : node) : bool :=
  match n with RegularFile _ _ => true | Inaccessible d => negb d | _ => false end.

(** Whether [os.stat(path)] succeeds. *)
Definition stat_succeeds (n : node) : bool :=
  match n with Special e => e | Inaccessible _ => false | _ => true end.

(** [Path.exists()]: [False] where nothing is there; a refused [stat] is
    not answered but raised, as [pathlib] lets every error but [ENOENT],
    [ENOTDIR], [EBADF] and [ELOOP] through. *)
Definition exists_ (n : node) : result bool :=
  match n with
  | Inaccessible _ => Raise PermissionError
  | _ => Return (stat_succeeds n)
  end.

(** Resolution of a path relative to a directory node.  What lies below an
    entry that is out of reach is out of reach as well. *)
Fixpoint resolve (n : node) (rel : list string) : option node :=
  match rel with
  | [] => Some n
  | x :: rel' =>
      match n with
      | Directory _ es =>
          match List.find (fun e => String.eqb (fst e) x) es with
          | Some (_, c) => resolve c rel'
          | None => None
          end
      | Inaccessible _ => Some (Inaccessible false)
      | _ => None
      end
  end.

(** The part of an absolute path below the root. *)
Definition relative (p : Path) : list string :=
  match p with
  | "/" :: rel => rel
  | rel => rel
  end.

(** The entry an absolute path denotes in the file system [fs] (the root
    directory); [Special false] where nothing is there. *)
Definition lookup (fs : node) (p : Path) : node :=
  default (Special false) (resolve fs (relative p)).

(** [path.stat().st_size].  Only the size of a regular file is modelled. *)
Definition st_size (n : node) : result Z :=
  match n with
  | RegularFile _ content => Return (Z.of_nat (length content))
  | Directory _ _ => Return 0%Z
  | Special true => Return 0%Z
  | Special false => Raise (FileNotFoundError "No such file or directory")
  | Inaccessible _ => Raise PermissionError
  end.

(** [open(path, 'rb').read()]. *)
Definition read_bytes (n : node) : result (list Byte.byte) :=
  match n with
  | RegularFile true content => Return content
  | RegularFile false _ => Raise PermissionError
  | Directory _ _ => Raise (OSError "Is a directory")
  | Special true => Raise (OSError "Not a regular file")
  | Special false => Raise (FileNotFoundError "No such file or directory")
  | Inaccessible _ => Raise PermissionError
  end.

Definition replace_entry (x : string) (c : node) (es : list (string * node))
    : list (string * node) :=
  List.map (fun e => if String.eqb (fst e) x then (x, c) else e) es.

(** [path.write_text(content)], on the path [rel] below the directory [n]:
    the file is created in an existing directory or overwritten.  Write
    permissions are not modelled. *)
Fixpoint write_text (rel : list string) (content : list Byte.byte) (n : node)
    : result node :=
  match rel, n with
  | [], RegularFile r _ => Return (RegularFile r content)
  | [], Directory _ _ => Raise (OSError "Is a directory")
  | [], Special _ => Raise (OSError "Not a regular file")
  | _, Inaccessible _ => Raise PermissionError
  | x :: rel', Directory l es =>
      match List.find (fun e => String.eqb (fst e) x) es, rel' with
      | Some (_, c), _ =>
          bind (write_text rel' content c) (fun c' =>
            Return (Directory l (replace_entry x c' es)))
      | None, [] => Return (Directory l (es ++ [(x, RegularFile true content)])%list)
      | None, _ :: _ => Raise (FileNotFoundError "No such file or directory")
      end
  | _ :: _, _ => Raise (OSError "Not a directory")
  end.

(** [path.unlink()]. *)
Fixpoint unlink (rel : list string) (n : node) : result node :=
  match rel, n with
  | _, Inaccessible _ => Raise PermissionError
  | [x], Directory l es =>
      match List.find (fun e => String.eqb (fst e) x) es with
      | Some (_, Directory _ _) => Raise (OSError "Is a directory")
      | Some (_, Inaccessible _) => Raise PermissionError
      | Some _ =>
          Return (Directory l (List.filter (fun e => negb (String.eqb (fst e) x)) es))
      | None => Raise (FileNotFoundError "No such file or directory")
      end
  | x :: rel', Directory l es =>
      match List.find (fun e => String.eqb (fst e) x) es with
      | Some (_, c) =>
          bind (unlink rel' c) (fun c' => Return (Directory l (replace_entry x c' es)))
      | None => Raise (FileNotFoundError "No such file or directory")
      end
  | _, _ => Raise (FileNotFoundError "No such file or directory")
  end.

(** *** Whitespace, ranges and slices *)

(** [c.isspace()] on ASCII text. *)
Definition is_space (c : ascii) : bool :=
  let n := nat_of_ascii c in
  ((9 <=? n)%nat && (n <=? 13)%nat) || ((28 <=? n)%nat && (n <=? 32)%nat).

(** [s.lstrip()], [s.rstrip()] and [s.strip()]. *)
Fixpoint lstrip (s : string) : string :=
  match s with
  | EmptyString => EmptyString
  | String c s' => if is_space c then lstrip s' else s
  end.

Fixpoint rstrip (s : string) : string :=
  match s with
  | EmptyString => EmptyString
  | String c s' =>
      match rstrip s' with
      | EmptyString => if is_space c then EmptyString else String c EmptyString
      | r => String c r
      end
  end.

Definition strip (s : string) : string := rstrip (lstrip s).

(** [all(pred(c) for c in s)]. *)
Fixpoint all_chars (pred : ascii -> bool) (s : string) : bool :=
  match s with
  | EmptyString => true
  | String c s' => pred c && all_chars pred s'
  end.

(** [range(start, stop, step)], as the list of its elements: a step of
    zero is refused, and the number of elements is
    [(stop - start + step - 1) // step] for a positive step,
    [(start - stop - step - 1) // -step] for a negative one, or none. *)
Definition range (start stop step : Z) : result (list Z) :=
  if (step =? 0)%Z then Raise (ValueError "range() arg 3 must not be zero")
  else
    let n := if (0 <? step)%Z then ((stop - start + step - 1) / step)%Z
             else ((start - stop - step - 1) / (- step))%Z in
    Return (List.map (fun k => (start + Z.of_nat k * step)%Z) (seq 0 (Z.to_nat n))).

(** [l[i:j]] for indices [0 <= i <= j]. *)
Definition slice {A : Type} (l : list A) (i j : Z) : list A :=
  firstn (Z.to_nat (j - i)) (skipn (Z.to_nat i) l).

End py.

(** ** Configuration *)
Module config.

(** Modelled from the spec: [config.py] (class [HEXAVGConfig]) is not among
    the sources.  The settings the embedded code reads are the fields of this
    record; their values are parameters of the development. *)
Record HEXAVGConfig : Type := {
  VERSION : string;
  IS_WINDOWS : bool;
  IS_LINUX : bool;
  MIN_THREADS : Z;
  MAX_THREADS : Z;
  DEFAULT_THREADS : Z;
  MAX_SCAN_FILE_SIZE : Z;
  QUICK_SCAN_SKIP_EXTENSIONS : list string;
  HASH_ALGORITHMS : list string;
  BASE_DIR : py.Path
}.

(** Modelled from the spec: the canonical EICAR test string
    ([HEXAVGConfig.EICAR_STRING]), reproduced from its section 6. *)
Definition EICAR_STRING : string :=
  "X5O!P%@AP[4\PZX54(P^)7CC)7}$EICAR-STANDARD-ANTIVIRUS-TEST-FILE!$H+H*".

End config.

(** ** [src/core/file_traversal.py] *)
Module file_traversal.
Import py config.

(** [self.stats]: the running counters. *)
Record Stats : Type := {
  files_scanned : nat;
  files_skipped : nat;
  dirs_scanned : nat;
  dirs_skipped : nat;
  permission_errors : nat
}.

Definition zero_stats : Stats :=
  {| files_scanned := 0; files_skipped := 0; dirs_scanned := 0;
     dirs_skipped := 0; permission_errors := 0 |}.

Definition inc_files_scanned (s : Stats) : Stats :=
  {| files_scanned := S (files_scanned s); files_skipped := files_skipped s;
     dirs_scanned := dirs_scanned s; dirs_skipped := dirs_skipped s;
     permission_errors := permission_errors s |}.

Definition inc_files_skipped (s : Stats) : Stats :=
  {| files_scanned := files_scanned s; files_skipped := S (files_skipped s);
     dirs_scanned := dirs_scanned s; dirs_skipped := dirs_skipped s;
     permission_errors := permission_errors s |}.

Definition inc_dirs_scanned (s : Stats) : Stats :=
  {| files_scanned := files_scanned s; files_skipped := files_skipped s;
     dirs_scanned := S (dirs_scanned s); dirs_skipped := dirs_skipped s;
     permission_errors := permission_errors s |}.

Definition inc_dirs_skipped (s : Stats) : Stats :=
  {| files_scanned := files_scanned s; files_skipped := files_skipped s;
     dirs_scanned := dirs_scanned s; dirs_skipped := S (dirs_skipped s);
     permission_errors := permission_errors s |}.

Definition inc_permission_errors (s : Stats) : Stats :=
  {| files_scanned := files_scanned s; files_skipped := files_skipped s;
     dirs_scanned := dirs_scanned s; dirs_skipped := dirs_skipped s;
     permission_errors := S (permission_errors s) |}.

(** The attributes [__init__] fixes; [stats] is threaded separately. *)
Record FileTraversal : Type := {
  skip_hidden : bool;
  skip_system : bool;
  max_depth : option Z;
  system_dirs : gset string;
  hidden_prefixes : list string
}.

Definition _get_system_directories (cfg : HEXAVGConfig) : gset string :=
  if IS_WINDOWS cfg then
    {[ "Windows"; "$Recycle.Bin"; "System Volume Information";
       "ProgramData"; "AppData"; "Temporary Internet Files" ]}
  else if IS_LINUX cfg then
    {[ "proc"; "sys"; "dev"; "run"; "tmp"; "var/run"; "var/lock"; "var/tmp" ]}
  else ∅.

Definition __init__ (cfg : HEXAVGConfig)
    (skip_hidden skip_system : bool) (max_depth : option Z) : FileTraversal :=
  {| skip_hidden := skip_hidden;
     skip_system := skip_system;
     max_depth := max_depth;
     system_dirs := _get_system_directories cfg;
     hidden_prefixes := if skip_hidden then ["."; "$"] else [] |}.

Definition _is_hidden (self : FileTraversal) (path : Path) : bool :=
  if negb (skip_hidden self) then false
  else existsb (fun prefix => startswith (name path) prefix) (hidden_prefixes self).

Definition _is_system_dir (self : FileTraversal) (path : Path) : bool :=
  if negb (skip_system self) then false
  else existsb (fun part => bool_decide (part ∈ system_dirs self)) path.

(** [_should_skip(path, is_dir)]; [n] is the entry [path] denotes.  The
    last test calls [path.exists()], which raises when the entry is out of
    reach. *)
Definition _should_skip (self : FileTraversal) (path : Path) (n : node)
    (is_dir : bool) : result bool :=
  if _is_hidden self path then Return true
  else if is_dir && _is_system_dir self path then Return true
  else bind (exists_ n) (fun found => Return (negb found)).

(** [os.access(path, os.R_OK)], which answers [False] where it is refused. *)
Definition _can_read (n : node) : bool :=
  match n with
  | RegularFile r _ => r
  | Directory l _ => l
  | Special _ => false
  | Inaccessible _ => false
  end.

(** [[ext.lower().lstrip('.') for ext in exts]] when [exts] is true. *)
Definition normalize (exts : option (list string)) : option (list string) :=
  match exts with
  | Some ((_ :: _) as l) => Some (List.map (fun ext => lstrip_dot (lower ext)) l)
  | other => other
  end.

(** Truth value of an optional list. *)
Definition given (exts : option (list string)) : bool :=
  match exts with
  | Some (_ :: _) => true
  | _ => false
  end.

Definition members (exts : option (list string)) : list string :=
  match exts with Some l => l | None => [] end.

(** [path.suffix.lstrip('.').lower()]. *)
Definition ext_of (path : Path) : string := lower (lstrip_dot (suffix path)).

Definition mem (x : string) (l : list string) : bool :=
  existsb (String.eqb x) l.

(** The recursion guard of [traverse]:
    [self.max_depth is None or
     len(entry_path.parts) < len(Path(root_path).parts) + self.max_depth]. *)
Definition within_depth (self : FileTraversal) (root_path entry_path : Path) : bool :=
  match max_depth self with
  | None => true
  | Some d => (Z.of_nat (length entry_path) <? Z.of_nat (length root_path) + d)%Z
  end.

(** [traverse(root_path, extensions_filter, skip_extensions)].

    [root] is the entry [root_path] denotes ([Special false] when nothing is
    there).  The generator is run to its end: the result holds the paths it
    yields in order, the counters afterwards and the exception that ended it,
    if any.  The validation of [root_path] comes before the [try]; an
    exception raised while the entries are examined is counted by the
    handler of the listing and raised again. *)
Fixpoint traverse (self : FileTraversal) (root_path : Path) (root : node)
    (extensions_filter skip_extensions : option (list string)) (st : Stats)
    {struct root} : list Path * Stats * option exn :=
  match root with
  | Special false =>
      ([], st, Some (FileNotFoundError "Path not found"))
  | Special true | RegularFile _ _ =>
      ([], st, Some (ValueError "Path is not a directory"))
  | Inaccessible _ =>
      (* root_path.exists() raises *)
      ([], st, Some PermissionError)
  | Directory listable entries =>
      let extensions_filter := normalize extensions_filter in
      let skip_extensions := normalize skip_extensions in
      if negb listable then
        (* os.scandir raises; the handler counts it and re-raises *)
        ([], inc_permission_errors st, Some PermissionError)
      else
        (fix loop (es : list (string * node)) (st : Stats)
             : list Path * Stats * option exn :=
           match es with
           | [] => ([], st, None)
           | (nm, entry) :: es' =>
               let entry_path := joinpath root_path nm in
               match _should_skip self entry_path entry (is_dir entry) with
               | Raise err =>
                   (* raised inside the try: counted when the handler
                      catches it, and raised again *)
                   if is_OSError err then ([], inc_permission_errors st, Some err)
                   else ([], st, Some err)
               | Return true =>
                   loop es' (if is_dir entry then inc_dirs_skipped st
                             else inc_files_skipped st)
               | Return false =>
                   if is_dir entry then
                     let st := inc_dirs_scanned st in
                     if within_depth self root_path entry_path then
                       let '(ys, st, e) :=
                         traverse self entry_path entry
                                  extensions_filter skip_extensions st in
                       match e with
                       | None =>
                           let '(zs, st, e') := loop es' st in
                           ((ys ++ zs)%list, st, e')
                       | Some err =>
                           if is_OSError err then
                             let '(zs, st, e') := loop es' (inc_permission_errors st) in
                             ((ys ++ zs)%list, st, e')
                           else (ys, st, Some err)
                       end
                     else loop es' st
                   else if is_file entry then
                     if negb (_can_read entry) then
                       loop es' (inc_files_skipped (inc_permission_errors st))
                     else if given extensions_filter
                             && negb (mem (ext_of entry_path)
                                        (members extensions_filter)) then
                       loop es' (inc_files_skipped st)
                     else if given skip_extensions
                             && mem (ext_of entry_path) (members skip_extensions) then
                       loop es' (inc_files_skipped st)
                     else
                       let '(zs, st, e') := loop es' (inc_files_scanned st) in
                       (entry_path :: zs, st, e')
                   else
                     loop es' (inc_files_skipped st)
               end
           end) entries st
  end.

(** [get_files_list]: [list(self.traverse(...))]. *)
Definition get_files_list (self : FileTraversal) (root_path : Path) (root : node)
    (extensions_filter skip_extensions : option (list string)) (st : Stats)
    : result (list Path) * Stats :=
  let '(ys, st, e) := traverse self root_path root extensions_filter skip_extensions st in
  match e with
  | None => (Return ys, st)
  | Some err => (Raise err, st)
  end.

End file_traversal.

(** ** [src/core/multithreading.py] *)
Module multithreading.
Import py config.

(** [self.stats] of the thread manager. *)
Record Stats : Type := {
  total_tasks : nat;
  completed_tasks : nat;
  failed_tasks : nat;
  active_threads : nat
}.

Definition zero_stats : Stats :=
  {| total_tasks := 0; completed_tasks := 0; failed_tasks := 0; active_threads := 0 |}.

Record ThreadManager : Type := {
  max_workers : Z;
  stats : Stats
}.

(** [ThreadManager.__init__(max_workers)]: the [or] fallback, then the clamp.
    The timeout and the executor play no part in the size of the pool. *)
Definition __init__ (cfg : HEXAVGConfig) (max_workers : option Z) : ThreadManager :=
  let max_workers := or_int max_workers (DEFAULT_THREADS cfg) in
  {| max_workers := Z.max (MIN_THREADS cfg) (Z.min max_workers (MAX_THREADS cfg));
     stats := zero_stats |}.

(** A result dictionary, as the scan functions build them. *)
Definition Dict : Type := gmap string value.

(** The synthetic result [scan_files] substitutes for a task that raised. *)
Definition error_result (file_path : Path) (e : exn) : Dict :=
  {[ "file_path" := VStr (str_path file_path);
     "error" := VStr (str_exn e);
     "status" := VStr "error" ]}.

Definition inc_completed (s : Stats) : Stats :=
  {| total_tasks := total_tasks s; completed_tasks := S (completed_tasks s);
     failed_tasks := failed_tasks s; active_threads := active_threads s |}.

Definition inc_failed (s : Stats) : Stats :=
  {| total_tasks := total_tasks s; completed_tasks := completed_tasks s;
     failed_tasks := S (failed_tasks s); active_threads := active_threads s |}.

Definition set_total (n : nat) (s : Stats) : Stats :=
  {| total_tasks := n; completed_tasks := completed_tasks s;
     failed_tasks := failed_tasks s; active_threads := active_threads s |}.

(** The body of the collection loop of [scan_files], run over the futures in
    the order [as_completed] hands them over.  [scanned] is the local
    counter; the progress callback may itself raise, inside the [try]. *)
Fixpoint collect (scan_func : Path -> result Dict)
    (progress_callback : option (nat -> nat -> Path -> option exn))
    (total_files : nat) (completed : list Path)
    (results : list Dict) (scanned : nat) (st : Stats) : list Dict * Stats :=
  match completed with
  | [] => (results, st)
  | file_path :: rest =>
      match scan_func file_path with
      | Return r =>
          let results := (results ++ [r])%list in
          let st := inc_completed st in
          let scanned := S scanned in
          match progress_callback with
          | Some cb =>
              match cb scanned total_files file_path with
              | None =>
                  collect scan_func progress_callback total_files rest results scanned st
              | Some e =>
                  collect scan_func progress_callback total_files rest
                          (results ++ [error_result file_path e])%list scanned (inc_failed st)
              end
          | None =>
              collect scan_func progress_callback total_files rest results scanned st
          end
      | Raise e =>
          collect scan_func progress_callback total_files rest
                  (results ++ [error_result file_path e])%list scanned (inc_failed st)
      end
  end.

(** [scan_files(file_paths, scan_func, progress_callback)].

    One task is submitted per path; [as_completed] then yields the futures
    in the order the workers finish, which the program does not determine:
    [completion] is that order, a rearrangement of [file_paths].  The wait
    is assumed to end within the configured timeout. *)
Definition scan_files (self : ThreadManager) (file_paths : list Path)
    (scan_func : Path -> result Dict)
    (progress_callback : option (nat -> nat -> Path -> option exn))
    (completion : list Path) : list Dict * ThreadManager :=
  let total_files := length file_paths in
  let st := set_total total_files (stats self) in
  let '(results, st) :=
    collect scan_func progress_callback total_files completion [] 0 st in
  (results, {| max_workers := max_workers self; stats := st |}).

Section Pool.

(** The items handed to the pool and the results of the tasks. *)
Context {A B : Type}.

(** The collection loop of [map_tasks], run over the futures in the order
    [as_completed] hands them over: the result of a task, [None] for a task
    that raised. *)
Fixpoint gather (func : A -> result B) (completed : list A)
    (results : list (option B)) (st : Stats) : list (option B) * Stats :=
  match completed with
  | [] => (results, st)
  | item :: rest =>
      match func item with
      | Return r => gather func rest (results ++ [Some r])%list (inc_completed st)
      | Raise _ => gather func rest (results ++ [None])%list (inc_failed st)
      end
  end.

(** [map_tasks(func, items)], the progress display aside; [completion] is
    the order in which the tasks finish, as in [scan_files]. *)
Definition map_tasks (self : ThreadManager) (func : A -> result B)
    (items completion : list A) : list (option B) * ThreadManager :=
  let total := length items in
  let st := set_total total (stats self) in
  let '(results, st) := gather func completion [] st in
  (results, {| max_workers := max_workers self; stats := st |}).

(** The loop of [batch_process] over [range(0, total_items, batch_size)].
    The callback is called outside any [try]: an exception it raises ends
    the call. *)
Fixpoint batch_loop (func : A -> result B) (items : list A) (total_items : nat)
    (batch_size : Z) (callback : option (nat -> nat -> option exn))
    (completion_order : list A -> list A) (offsets : list Z)
    (results : list (option B)) (processed : nat) (self : ThreadManager)
    : result (list (option B)) * ThreadManager :=
  match offsets with
  | [] => (Return results, self)
  | i :: rest =>
      let batch := slice items i (i + batch_size) in
      let '(batch_results, self) := map_tasks self func batch (completion_order batch) in
      let results := (results ++ batch_results)%list in
      let processed := (processed + length batch)%nat in
      match callback with
      | Some cb =>
          match cb processed total_items with
          | Some e => (Raise e, self)
          | None =>
              batch_loop func items total_items batch_size callback completion_order
                         rest results processed self
          end
      | None =>
          batch_loop func items total_items batch_size callback completion_order
                     rest results processed self
      end
  end.

(** [batch_process(func, items, batch_size, callback)]. *)
Definition batch_process (self : ThreadManager) (func : A -> result B)
    (items : list A) (batch_size : Z) (callback : option (nat -> nat -> option exn))
    (completion_order : list A -> list A)
    : result (list (option B)) * ThreadManager :=
  let total_items := length items in
  match range 0 (Z.of_nat total_items) batch_size with
  | Raise e => (Raise e, self)
  | Return offsets =>
      batch_loop func items total_items batch_size callback completion_order
                 offsets [] 0 self
  end.

End Pool.

End multithreading.

(** ** [src/core/hasher.py] *)
Module hasher.
Import py config.

Section FileHasher.

(** [hashlib.new(algo)]: the digest function of a known algorithm, as
    lowercase hexadecimal text; [None] for a name [hashlib] rejects. *)
Variable hashlib_new : string -> option (list Byte.byte -> string).

(** [{algo: hashlib.new(algo) for algo in algorithms}]. *)
Fixpoint new_hashers (algorithms : list string)
    : result (list (string * (list Byte.byte -> string))) :=
  match algorithms with
  | [] => Return []
  | algo :: rest =>
      match hashlib_new algo with
      | None => Raise (ValueError ("unsupported hash type " ++ algo))
      | Some h => bind (new_hashers rest) (fun hs => Return ((algo, h) :: hs))
      end
  end.

(** [hash_file(file_path, algorithms)]; [n] is the entry at [file_path].
    Reading in chunks feeds every hasher the whole content. *)
Definition hash_file (cfg : HEXAVGConfig) (file_path : Path) (n : node)
    (algorithms : option (list string)) : result (list (string * string)) :=
  bind (exists_ n) (fun found =>
  if negb found then Raise (FileNotFoundError "File not found")
  else if negb (is_file n) then Raise (ValueError "Path is not a file")
  else
    let algorithms :=
      match algorithms with None => HASH_ALGORITHMS cfg | Some l => l end in
    bind (new_hashers algorithms) (fun hashers =>
      match n with
      | RegularFile true content =>
          Return (List.map (fun ah => (fst ah, snd ah content)) hashers)
      | _ => Raise PermissionError
      end)).

(** [hashes[algorithm]] on the dictionary [hash_file] returns. *)
Definition digest_of (hashes : list (string * string)) (algorithm : string)
    : result string :=
  match List.find (fun ah => String.eqb (fst ah) algorithm) hashes with
  | Some (_, d) => Return d
  | None => Raise (KeyError algorithm)
  end.

(** [hash_file_single(file_path, algorithm)]. *)
Definition hash_file_single (cfg : HEXAVGConfig) (file_path : Path) (n : node)
    (algorithm : string) : result string :=
  bind (hash_file cfg file_path n (Some [algorithm])) (fun hashes =>
    digest_of hashes algorithm).

(** [expected_lengths.get(algorithm)]. *)
Definition expected_lengths (algorithm : string) : option nat :=
  if String.eqb algorithm "md5" then Some 32%nat
  else if String.eqb algorithm "sha1" then Some 40%nat
  else if String.eqb algorithm "sha256" then Some 64%nat
  else None.

(** [compare_hashes(hash1, hash2, algorithm)]; [algorithm] is [None] or a
    string. *)
Definition compare_hashes (hash1 hash2 : string) (algorithm : option string) : bool :=
  let hash1 := strip (lower hash1) in
  let hash2 := strip (lower hash2) in
  let wrong_length :=
    match algorithm with
    | Some a =>
        match expected_lengths a with
        | Some expected_length =>
            negb (String.length hash1 =? expected_length)%nat
            || negb (String.length hash2 =? expected_length)%nat
        | None => false
        end
    | None => false
    end in
  if wrong_length then false else String.eqb hash1 hash2.

(** [verify_file_integrity(file_path, expected_hash, algorithm)]: any
    exception makes the answer [False]. *)
Definition verify_file_integrity (cfg : HEXAVGConfig) (file_path : Path) (n : node)
    (expected_hash algorithm : string) : bool :=
  match hash_file_single cfg file_path n algorithm with
  | Return actual_hash => compare_hashes actual_hash expected_hash (Some algorithm)
  | Raise _ => false
  end.

End FileHasher.

End hasher.

(** ** [src/detection/signature.py] *)
Module signature.
Import py config.

(** A row of the [signatures] table.  A cell holds what was bound to its
    column: text or [NULL]. *)
Record Row : Type := {
  id : Z;
  name : string;
  md5 : option string;
  sha1 : option string;
  sha256 : option string;
  type_ : option string;
  severity : option string;
  description : option string;
  created_at : Z
}.

(** The SQLite database behind [self.connection]: the rows in insertion
    order and the AUTOINCREMENT counter. *)
Record SignatureDetector : Type := {
  rows : list Row;
  last_id : Z
}.

(** An empty database file. *)
Definition empty_db : SignatureDetector := {| rows := []; last_id := 0 |}.

(** What the driver binds a SQL parameter from, and what a column of text
    affinity then holds: [NULL] for [None], the text itself for a string,
    the decimal text for an integer that fits a 64-bit SQLite [INTEGER]
    ([True] and [False] are the integers 1 and 0).  A larger integer is
    refused with [OverflowError], a list or a dictionary as an unsupported
    type. *)
Definition bind_text (v : value) : result (option string) :=
  match v with
  | VNone => Return None
  | VStr s => Return (Some s)
  | VInt z =>
      if (- 2 ^ 63 <=? z)%Z && (z <? 2 ^ 63)%Z then Return (Some (pretty z))
      else Raise (OverflowError "Python int too large to convert to SQLite INTEGER")
  | VBool b => Return (Some (if b then "1" else "0"))
  | VList _ | VDict _ => Raise (Exception "Error binding parameter")
  end.

(** The [INSERT] of [add_signature]; the [name] column is [NOT NULL]. *)
Definition insert (self : SignatureDetector) (now : Z)
    (name md5 sha1 sha256 sig_type severity description : value)
    : result SignatureDetector :=
  bind (bind_text name) (fun name =>
  bind (bind_text md5) (fun md5 =>
  bind (bind_text sha1) (fun sha1 =>
  bind (bind_text sha256) (fun sha256 =>
  bind (bind_text sig_type) (fun sig_type =>
  bind (bind_text severity) (fun severity =>
  bind (bind_text description) (fun description =>
    match name with
    | None => Raise (IntegrityError "NOT NULL constraint failed: signatures.name")
    | Some name =>
        let i := (last_id self + 1)%Z in
        Return {| rows := (rows self ++
                    [{| id := i; name := name; md5 := md5; sha1 := sha1;
                        sha256 := sha256; type_ := sig_type; severity := severity;
                        description := description; created_at := now |}])%list;
                  last_id := i |}
    end))))))).

(** [add_signature(...)]: [True] and the grown store, or [False] and the
    store as it was. *)
Definition add_signature (self : SignatureDetector) (now : Z)
    (name md5 sha1 sha256 sig_type severity description : value)
    : bool * SignatureDetector :=
  match insert self now name md5 sha1 sha256 sig_type severity description with
  | Return self' => (true, self')
  | Raise _ => (false, self)
  end.

(** [d.get(k)] and [d.get(k, default)]. *)
Definition get (d : gmap string value) (k : string) (default : value) : value :=
  match d !! k with Some v => v | None => default end.

(** The loop of [_load_eicar_signature]: every optional field is read with
    [sig.get(key)], the name with [sig['name']].  The rows added before an
    exception stay. *)
Fixpoint load_each (self : SignatureDetector) (now : Z) (sigs : list value)
    : SignatureDetector * option exn :=
  match sigs with
  | [] => (self, None)
  | VDict sig :: rest =>
      match sig !! "name" with
      | None => (self, Some (KeyError "name"))
      | Some name =>
          let '(_, self) :=
            add_signature self now name
              (get sig "md5" VNone) (get sig "sha1" VNone) (get sig "sha256" VNone)
              (get sig "type" VNone) (get sig "severity" VNone)
              (get sig "description" VNone) in
          load_each self now rest
      end
  | _ :: _ => (self, Some (TypeError "signature entry is not an object"))
  end.

(** [data.get('signatures', [])], as the [for] loop iterates it: the
    elements of a list, the characters of a string, the keys of a dictionary
    (they are strings, so the loop body fails on the first of them, whichever
    it is).  Anything else is not iterable, and a document that is not an
    object has no [get]. *)
Definition signatures_of (data : value) : result (list value) :=
  match data with
  | VDict d =>
      match get d "signatures" (VList []) with
      | VList l => Return l
      | VStr s =>
          Return (List.map (fun c => VStr (String c EmptyString)) (list_ascii_of_string s))
      | VDict keyed => Return (List.map (fun kv => VStr (fst kv)) (map_to_list keyed))
      | VNone | VBool _ | VInt _ => Raise (TypeError "object is not iterable")
      end
  | _ => Raise (Exception "object has no attribute 'get'")
  end.

(** [_load_eicar_signature]; [eicar_json] is the parsed [eicar.json], [None]
    when the file is absent.  A failure is printed and swallowed. *)
Definition _load_eicar_signature (self : SignatureDetector) (now : Z)
    (eicar_json : option value) : SignatureDetector :=
  match eicar_json with
  | None => self
  | Some data =>
      match signatures_of data with
      | Return sigs => fst (load_each self now sigs)
      | Raise _ => self
      end
  end.

(** [SignatureDetector()]: [CREATE TABLE IF NOT EXISTS] keeps what the
    database file [db] already holds, then the EICAR definitions are loaded. *)
Definition __init__ (db : SignatureDetector) (now : Z) (eicar_json : option value)
    : SignatureDetector :=
  _load_eicar_signature db now eicar_json.

(** The cell of the column named [algo]; no such column for other names. *)
Definition column (algo : string) (r : Row) : result (option string) :=
  if String.eqb algo "md5" then Return (md5 r)
  else if String.eqb algo "sha1" then Return (sha1 r)
  else if String.eqb algo "sha256" then Return (sha256 r)
  else Raise (Exception ("no such column: " ++ algo)).

(** [SELECT ... WHERE {algo} = ? LIMIT 1]: the first row whose cell equals
    the bound text ([NULL] equals nothing). *)
Definition select_by (self : SignatureDetector) (algo hash_value : string)
    : result (option Row) :=
  if String.eqb algo "md5" || String.eqb algo "sha1" || String.eqb algo "sha256" then
    Return (List.find (fun r =>
              match column algo r with
              | Return (Some h) => String.eqb h hash_value
              | _ => false
              end) (rows self))
  else Raise (Exception ("no such column: " ++ algo)).

Definition opt_text (o : option string) : value :=
  match o with Some s => VStr s | None => VNone end.

Definition not_detected : gmap string value :=
  {[ "detected" := VBool false; "name" := VNone; "severity" := VNone;
     "type" := VNone; "description" := VNone ]}.

(** [detect(file_path, hashes)]: the hashes are tried in the order the
    dictionary lists them; a database error ends the search. *)
Fixpoint detect_loop (self : SignatureDetector) (hashes : list (string * string))
    : gmap string value :=
  match hashes with
  | [] => not_detected
  | (algo, hash_value) :: rest =>
      if String.eqb hash_value "" then detect_loop self rest
      else
        match select_by self algo hash_value with
        | Raise _ => not_detected
        | Return None => detect_loop self rest
        | Return (Some row) =>
            {[ "detected" := VBool true;
               "name" := VStr (name row);
               "severity" := opt_text (severity row);
               "type" := opt_text (type_ row);
               "description" := opt_text (description row);
               "matched_hash" := VStr algo ]}
        end
  end.

Definition detect (self : SignatureDetector) (file_path : Path)
    (hashes : list (string * string)) : gmap string value :=
  detect_loop self hashes.

(** [get_signature_count()]: [SELECT COUNT( * )]. *)
Definition get_signature_count (self : SignatureDetector) : Z :=
  Z.of_nat (length (rows self)).

(** Insertion of a row into a list ordered by [created_at], newest first. *)
Fixpoint insert_desc (r : Row) (l : list Row) : list Row :=
  match l with
  | [] => [r]
  | x :: l' =>
      if (created_at x <? created_at r)%Z then r :: l
      else x :: insert_desc r l'
  end.

(** [ORDER BY created_at DESC]; SQL leaves the order of rows with equal
    timestamps open, here the later row comes first. *)
Definition order_desc (l : list Row) : list Row :=
  List.fold_right insert_desc [] l.

(** The [SELECT ... ORDER BY created_at DESC LIMIT ?] of [list_signatures].
    SQLite requires the bound limit to be an integer: binding [None] makes
    the statement fail with "datatype mismatch"; a negative limit means no
    limit. *)
Definition select_recent (self : SignatureDetector) (limit : option Z)
    : result (list Row) :=
  match limit with
  | None => Raise (IntegrityError "datatype mismatch")
  | Some n =>
      if (n <? 0)%Z then Return (order_desc (rows self))
      else Return (firstn (Z.to_nat n) (order_desc (rows self)))
  end.

(** The dictionary [list_signatures] builds from a row: seven keys, the
    [sha1] column is not among them. *)
Definition row_dict (r : Row) : value :=
  VDict {[ "name" := VStr (name r);
           "md5" := opt_text (md5 r);
           "sha256" := opt_text (sha256 r);
           "type" := opt_text (type_ r);
           "severity" := opt_text (severity r);
           "description" := opt_text (description r);
           "created_at" := VInt (created_at r) ]}.

(** [list_signatures(limit)]: a failing query is printed and yields [[]]. *)
Definition list_signatures (self : SignatureDetector) (limit : option Z)
    : list value :=
  match select_recent self limit with
  | Return rs => List.map row_dict rs
  | Raise _ => []
  end.

(** [export_signatures(output_file)]: the JSON document written to the
    file.  The listing is asked for with [limit=None]. *)
Definition export_signatures (cfg : HEXAVGConfig) (self : SignatureDetector)
    : bool * value :=
  let signatures := list_signatures self None in
  (true,
   VDict {[ "signatures" := VList signatures;
            "count" := VInt (Z.of_nat (length signatures));
            "exported_at" := VStr (VERSION cfg) ]}).

(** The loop of [import_signatures]: as [load_each], with the defaults
    ['unknown'], ['medium'] and [''] for an absent type, severity and
    description; [count] counts the successful insertions. *)
Fixpoint import_each (self : SignatureDetector) (now : Z) (sigs : list value)
    (count : nat) : SignatureDetector * nat * option exn :=
  match sigs with
  | [] => (self, count, None)
  | VDict sig :: rest =>
      match sig !! "name" with
      | None => (self, count, Some (KeyError "name"))
      | Some name =>
          let '(ok, self) :=
            add_signature self now name
              (get sig "md5" VNone) (get sig "sha1" VNone) (get sig "sha256" VNone)
              (get sig "type" (VStr "unknown")) (get sig "severity" (VStr "medium"))
              (get sig "description" (VStr "")) in
          import_each self now rest (if ok then S count else count)
      end
  | _ :: _ => (self, count, Some (TypeError "signature entry is not an object"))
  end.

(** [import_signatures(input_file)]; [data] is the parsed document. *)
Definition import_signatures (self : SignatureDetector) (now : Z) (data : value)
    : bool * SignatureDetector :=
  match signatures_of data with
  | Raise _ => (false, self)
  | Return sigs =>
      let '(self, _, e) := import_each self now sigs 0 in
      (match e with None => true | Some _ => false end, self)
  end.

(** [clear_signatures()]: [DELETE FROM signatures]. *)
Definition clear_signatures (self : SignatureDetector) : bool * SignatureDetector :=
  (true, {| rows := []; last_id := last_id self |}).

End signature.

(** ** [src/core/scanner.py] *)
Module scanner.
Import py config.

(** [self.scan_stats]; the wall-clock fields are left out. *)
Record ScanStats : Type := {
  files_scanned : nat;
  files_skipped : nat;
  threats_found : nat;
  threats : list (gmap string value)
}.

Definition zero_stats : ScanStats :=
  {| files_scanned := 0; files_skipped := 0; threats_found := 0; threats := [] |}.

(** The scanner object.  The three detector slots hold whatever object was
    assigned to them; the scanner only calls [detect], [analyze] and
    [scan] on them. *)
Record HEXAVGScanner : Type := {
  threads : Z;
  enable_heuristics : bool;
  enable_yara : bool;
  file_traversal : file_traversal.FileTraversal;
  traversal_stats : file_traversal.Stats;
  thread_manager : multithreading.ThreadManager;
  scan_stats : ScanStats;
  signature_detector : option (Path -> list (string * string) -> gmap string value);
  heuristic_detector : option (Path -> Z -> result (gmap string value));
  yara_detector : option (Path -> result (gmap string value))
}.

(** [HEXAVGScanner(threads, enable_heuristics, enable_yara)]. *)
Definition __init__ (cfg : HEXAVGConfig) (threads : option Z)
    (enable_heuristics enable_yara : bool) : HEXAVGScanner :=
  let threads := or_int threads (DEFAULT_THREADS cfg) in
  {| threads := threads;
     enable_heuristics := enable_heuristics;
     enable_yara := enable_yara && IS_LINUX cfg;
     file_traversal := file_traversal.__init__ cfg true true None;
     traversal_stats := file_traversal.zero_stats;
     thread_manager := multithreading.__init__ cfg (Some threads);
     scan_stats := zero_stats;
     signature_detector := None;
     heuristic_detector := None;
     yara_detector := None |}.

(** [result['threats'].extend(xs)]. *)
Definition extend_threats (result : gmap string value) (xs : list value)
    : gmap string value :=
  match result !! "threats" with
  | Some (VList l) => <["threats" := VList (l ++ xs)%list]> result
  | _ => result
  end.

(** The [except Exception as e] handler of [_scan_file]. *)
Definition failed (result : gmap string value) (e : exn) : gmap string value :=
  <["error" := VStr (str_exn e)]> (<["status" := VStr "error"]> result).

Definition hashes_dict (hashes : list (string * string)) : value :=
  VDict (list_to_map (List.map (fun ah => (fst ah, VStr (snd ah))) hashes)).

(** The three detection steps of [_scan_file].  Each returns the result
    dictionary as it stands when the step ends, and the exception that ended
    it, if any. *)
Definition signature_step (self : HEXAVGScanner) (file_path : Path)
    (hashes : list (string * string)) (result : gmap string value)
    : gmap string value * option exn :=
  match signature_detector self with
  | None => (result, None)
  | Some detect =>
      let signature_result := detect file_path hashes in
      match getitem signature_result "detected" with
      | Raise e => (result, Some e)
      | Return detected =>
          if truthy detected then
            let result := <["status" := VStr "infected"]> result in
            match getitem signature_result "name",
                  getitem signature_result "severity" with
            | Return nm, Return sev =>
                (extend_threats result
                   [VDict {[ "type" := VStr "signature"; "name" := nm;
                             "severity" := sev ]}], None)
            | Raise e, _ | _, Raise e => (result, Some e)
            end
          else (result, None)
      end
  end.

Definition heuristic_step (self : HEXAVGScanner) (file_path : Path)
    (file_size : Z) (result : gmap string value)
    : gmap string value * option exn :=
  match enable_heuristics self, heuristic_detector self with
  | true, Some analyze =>
      match analyze file_path file_size with
      | Raise e => (result, Some e)
      | Return heuristic_result =>
          match getitem heuristic_result "suspicious" with
          | Raise e => (result, Some e)
          | Return suspicious =>
              if truthy suspicious then
                let result := <["status" := VStr "suspicious"]> result in
                match getitem heuristic_result "threats" with
                | Return (VList ts) => (extend_threats result ts, None)
                | Return _ => (result, Some (TypeError "object is not iterable"))
                | Raise e => (result, Some e)
                end
              else (result, None)
          end
      end
  | _, _ => (result, None)
  end.

(** [for match in yara_result['matches']: ... match['rule'] ...]. *)
Fixpoint yara_threats (matches : list value) (result : gmap string value)
    : gmap string value * option exn :=
  match matches with
  | [] => (result, None)
  | VDict m :: rest =>
      match getitem m "rule" with
      | Return rule =>
          yara_threats rest
            (extend_threats result
               [VDict {[ "type" := VStr "yara"; "name" := rule;
                         "severity" := VStr "high" ]}])
      | Raise e => (result, Some e)
      end
  | _ :: _ => (result, Some (TypeError "match is not subscriptable"))
  end.

Definition yara_step (self : HEXAVGScanner) (file_path : Path)
    (result : gmap string value) : gmap string value * option exn :=
  match enable_yara self, yara_detector self with
  | true, Some scan =>
      match scan file_path with
      | Raise e => (result, Some e)
      | Return yara_result =>
          match getitem yara_result "matches" with
          | Raise e => (result, Some e)
          | Return matches =>
              if truthy matches then
                let result := <["status" := VStr "infected"]> result in
                match matches with
                | VList ms => yara_threats ms result
                | _ => (result, Some (TypeError "object is not iterable"))
                end
              else (result, None)
          end
      end
  | _, _ => (result, None)
  end.

Section Scan.

(** The environment of a scan: the settings, [hashlib], the file system and
    the clock reading [datetime.now().isoformat()]. *)
Variable cfg : HEXAVGConfig.
Variable hashlib_new : string -> option (list Byte.byte -> string).
Variable fs : node.
Variable now : string.

(** [_scan_file(file_path)].  Everything after the initial dictionary is
    inside one [try]; the handler turns any exception into an
    [error] status, so the call itself always returns. *)
Definition _scan_file (self : HEXAVGScanner) (file_path : Path)
    : gmap string value :=
  let result : gmap string value :=
    {[ "file_path" := VStr (str_path file_path);
       "status" := VStr "clean";
       "threats" := VList [];
       "hashes" := VDict ∅;
       "timestamp" := VStr now ]} in
  let n := lookup fs file_path in
  match st_size n with
  | Raise e => failed result e
  | Return file_size =>
      if (MAX_SCAN_FILE_SIZE cfg <? file_size)%Z then
        <["reason" := VStr ("File too large (" ++ pretty file_size ++ " bytes)")]>
          (<["status" := VStr "skipped"]> result)
      else
        match hasher.hash_file hashlib_new cfg file_path n None with
        | Raise e => failed result e
        | Return hashes =>
            let result := <["hashes" := hashes_dict hashes]> result in
            match signature_step self file_path hashes result with
            | (result, Some e) => failed result e
            | (result, None) =>
                match heuristic_step self file_path file_size result with
                | (result, Some e) => failed result e
                | (result, None) =>
                    match yara_step self file_path result with
                    | (result, Some e) => failed result e
                    | (result, None) => result
                    end
                end
            end
        end
  end.

Definition inc_files_scanned (s : ScanStats) : ScanStats :=
  {| files_scanned := S (files_scanned s); files_skipped := files_skipped s;
     threats_found := threats_found s; threats := threats s |}.

Definition inc_files_skipped (s : ScanStats) : ScanStats :=
  {| files_scanned := files_scanned s; files_skipped := S (files_skipped s);
     threats_found := threats_found s; threats := threats s |}.

Definition add_threat (r : gmap string value) (s : ScanStats) : ScanStats :=
  {| files_scanned := files_scanned s; files_skipped := files_skipped s;
     threats_found := S (threats_found s); threats := (threats s ++ [r])%list |}.

(** [_process_scan_results(results)]: the statistics as the loop leaves
    them, and the exception that ended it, if any. *)
Fixpoint _process_scan_results (results : list (gmap string value))
    (st : ScanStats) : ScanStats * option exn :=
  match results with
  | [] => (st, None)
  | result :: rest =>
      let st := inc_files_scanned st in
      match getitem result "status" with
      | Raise e => (st, Some e)
      | Return status =>
          let st :=
            if eq_str status "skipped" || eq_str status "error"
            then inc_files_skipped st else st in
          match getitem result "threats" with
          | Raise e => (st, Some e)
          | Return ts =>
              _process_scan_results rest
                (if truthy ts then add_threat result st else st)
          end
      end
  end.

Definition set_scan_stats (self : HEXAVGScanner) (st : ScanStats) : HEXAVGScanner :=
  {| threads := threads self; enable_heuristics := enable_heuristics self;
     enable_yara := enable_yara self; file_traversal := file_traversal self;
     traversal_stats := traversal_stats self;
     thread_manager := thread_manager self; scan_stats := st;
     signature_detector := signature_detector self;
     heuristic_detector := heuristic_detector self;
     yara_detector := yara_detector self |}.

Definition set_traversal_stats (self : HEXAVGScanner) (st : file_traversal.Stats)
    : HEXAVGScanner :=
  {| threads := threads self; enable_heuristics := enable_heuristics self;
     enable_yara := enable_yara self; file_traversal := file_traversal self;
     traversal_stats := st;
     thread_manager := thread_manager self; scan_stats := scan_stats self;
     signature_detector := signature_detector self;
     heuristic_detector := heuristic_detector self;
     yara_detector := yara_detector self |}.

Definition set_thread_manager (self : HEXAVGScanner)
    (tm : multithreading.ThreadManager) : HEXAVGScanner :=
  {| threads := threads self; enable_heuristics := enable_heuristics self;
     enable_yara := enable_yara self; file_traversal := file_traversal self;
     traversal_stats := traversal_stats self;
     thread_manager := tm; scan_stats := scan_stats self;
     signature_detector := signature_detector self;
     heuristic_detector := heuristic_detector self;
     yara_detector := yara_detector self |}.

(** The [ProgressCallback] the scanner installs when none is given: it
    prints and does not raise. *)
Definition ProgressCallback : nat -> nat -> Path -> option exn :=
  fun _ _ _ => None.

(** The order in which the workers of the pool finish their tasks. *)
Variable completion_order : list Path -> list Path.

(** [scan(scan_path, quick_scan, progress_callback)]: the returned
    statistics or the exception that escapes, and the scanner afterwards. *)
Definition scan (self : HEXAVGScanner) (scan_path : Path) (quick_scan : bool)
    (progress_callback : option (nat -> nat -> Path -> option exn))
    : result ScanStats * HEXAVGScanner :=
  let root := lookup fs scan_path in
  match exists_ root with
  | Raise e => (Raise e, self)
  | Return false => (Raise (FileNotFoundError "Scan path not found"), self)
  | Return true =>
    let skip_extensions :=
      if quick_scan then Some (QUICK_SCAN_SKIP_EXTENSIONS cfg) else None in
    let '(listed, tstats) :=
      file_traversal.get_files_list (file_traversal self) scan_path root
        None skip_extensions (traversal_stats self) in
    let self := set_traversal_stats self tstats in
    match listed with
    | Raise e => (Raise e, self)
    | Return file_paths =>
        let progress_callback :=
          match progress_callback with
          | None => Some ProgressCallback
          | some => some
          end in
        let '(scan_results, tm) :=
          multithreading.scan_files (thread_manager self) file_paths
            (fun p => Return (_scan_file self p)) progress_callback
            (completion_order file_paths) in
        let self := set_thread_manager self tm in
        let '(st, e) := _process_scan_results scan_results (scan_stats self) in
        let self := set_scan_stats self st in
        match e with
        | Some err => (Raise err, self)
        | None => (Return st, self)
        end
    end
  end.

(** [quick_scan(scan_path)] and [full_scan(scan_path)]. *)
Definition quick_scan (self : HEXAVGScanner) (scan_path : Path)
    : result ScanStats * HEXAVGScanner :=
  scan self scan_path true None.

Definition full_scan (self : HEXAVGScanner) (scan_path : Path)
    : result ScanStats * HEXAVGScanner :=
  scan self scan_path false None.

End Scan.

End scanner.

(** ** [hex_avg.py]: the [benchmark] and [scan] commands *)
Module hex_avg.
Import py config.

(** What the command prints after the self-test. *)
Inductive verdict : Type :=
| Detected       (* "EICAR test virus detected successfully!" *)
| NotDetected.   (* "Failed to detect EICAR test virus!" *)

Section Benchmark.

Variable cfg : HEXAVGConfig.
Variable hashlib_new : string -> option (list Byte.byte -> string).
Variable now : string.
Variable completion_order : list Path -> list Path.

(** [benchmark(test_eicar)] run on the file system [fs]: what the self-test
    printed ([None] when it was not asked for) or the exception that
    escapes the command, and the file system it leaves behind. *)
Definition benchmark (fs : node) (test_eicar : bool)
    : result (option verdict) * node :=
  if test_eicar then
    let eicar_file := joinpath (BASE_DIR cfg) "eicar.txt" in
    match write_text (relative eicar_file)
                     (list_byte_of_string EICAR_STRING) fs with
    | Raise e => (Raise e, fs)
    | Return fs =>
        let scanner := scanner.__init__ cfg None true false in
        match fst (scanner.scan cfg hashlib_new fs now completion_order
                     scanner eicar_file false None) with
        | Raise e => (Raise e, fs)
        | Return results =>
            let v := if (0 <? scanner.threats_found results)%nat
                     then Detected else NotDetected in
            match unlink (relative eicar_file) fs with
            | Raise e => (Raise e, fs)
            | Return fs => (Return (Some v), fs)
            end
        end
    end
  else (Return None, fs).

End Benchmark.

(** How a command ends: with one of the exit codes of [HEXAVGConfig] handed
    to [sys.exit], or with the usage error by which [click] refuses a [path]
    argument on which [os.stat] fails. *)
Inductive exit : Type :=
| EXIT_SUCCESS
| EXIT_THREATS_FOUND
| EXIT_ERROR
| UsageError.

Section Scan.

Variable cfg : HEXAVGConfig.
Variable hashlib_new : string -> option (list Byte.byte -> string).
Variable now : string.
Variable completion_order : list Path -> list Path.

(** The [scan] command run on the file system [fs], the keyboard interrupt
    aside. *)
Definition scan (fs : node) (path : Path) (quick full heuristic yara : bool)
    (threads : option Z) : exit :=
  if negb (stat_succeeds (lookup fs path)) then UsageError
  else
    let scan_path := path in
    let scanner := scanner.__init__ cfg threads (heuristic || true) yara in
    let results :=
      if quick then
        fst (scanner.quick_scan cfg hashlib_new fs now completion_order scanner scan_path)
      else if full then
        fst (scanner.full_scan cfg hashlib_new fs now completion_order scanner scan_path)
      else
        fst (scanner.scan cfg hashlib_new fs now completion_order
               scanner scan_path false None) in
    match results with
    | Return results =>
        if (0 <? scanner.threats_found results)%nat
        then EXIT_THREATS_FOUND else EXIT_SUCCESS
    | Raise _ => EXIT_ERROR
    end.

End Scan.

End hex_avg.

(** ** [src/detection/advanced_heuristic.py] *)
Module advanced_heuristic.
Import py.

(** A detection signal: the [score], [name] and [level] keys of the
    dictionaries the engine builds ([level] is absent from a zero signal).
    The free-text [details] and the explanation built from them are not
    modelled, except where evaluating them raises. *)
Record Signal : Type := {
  score : Z;
  name : string;
  level : option string
}.

(** What [analyze_file] returns: [risk_score] and [signals]. *)
Record Analysis : Type := {
  risk_score : Z;
  signals : list Signal
}.

Definition suspicious_strings : list string :=
  [ "VirtualAlloc"; "WriteProcessMemory"; "CreateRemoteThread"; "SetWindowsHookEx";
    "http://\d+\.\d+\.\d+\.\d+"; "ftp://.*@.*";
    "RegOpenKey"; "RegSetValue"; "RegDeleteValue";
    "base64"; "xor"; "rot13"; "eval\(";
    "IsDebuggerPresent"; "CheckRemoteDebuggerPresent"; "NtQueryInformationProcess";
    "AES\.encrypt"; "Rijndael"; "RC4"; "DES";
    "socket\("; "bind\("; "listen\("; "connect\(" ].

Definition packing_signatures : list (list Byte.byte * string) :=
  [ (b "UPX", "UPX Packer"); (b "PECompact", "PECompact"); (b "ASPack", "ASPack");
    (b "NSPack", "NSPack"); (b "Petite", "Petite"); (b "MEW", "MEW");
    (b "FSG", "FSG"); (b "MPRESS", "MPRESS"); (b "Themida", "Themida");
    (b "VMProtect", "VMProtect") ].

Definition file_signatures : list (list Byte.byte * string) :=
  [ (b "MZ", "exe");
    (x7f :: b "ELF", "elf");
    (b "PK" ++ [x03; x04], "zip");
    (b "PK" ++ [x05; x06], "zip");
    (b "PK" ++ [x07; x08], "zip");
    ([x1f; x8b], "gz");
    (b "BZh", "bz2");
    (b "Rar!", "rar");
    (xfd :: b "7zXZ" ++ [x00], "xz");
    (x89 :: b "PNG", "png");
    ([xff; xd8; xff], "jpg");
    (b "GIF8", "gif");
    (b "%PDF", "pdf");
    (b "%!PS-Adobe", "ps") ]%list.

Definition executable_extensions : gset string :=
  {[ ".exe"; ".dll"; ".sys"; ".scr"; ".com"; ".pif"; ".bat"; ".cmd";
     ".vbs"; ".js"; ".jar"; ".msi"; ".cpl"; ".app"; ".elf"; ".bin";
     ".sh"; ".bash"; ".py"; ".pl"; ".rb"; ".php"; ".ps1" ]}.

Definition benign_extensions : gset string :=
  {[ ".txt"; ".doc"; ".docx"; ".xls"; ".xlsx"; ".ppt"; ".pptx";
     ".pdf"; ".jpg"; ".jpeg"; ".png"; ".gif"; ".bmp"; ".mp3"; ".mp4";
     ".avi"; ".mkv"; ".zip"; ".rar"; ".7z"; ".tar"; ".gz"; ".log" ]}.

(** The 256 byte values, in order. *)
Definition byte_values : list Byte.byte := omap Byte.of_nat (seq 0 256).

(** [freq[byte]] after the counting loop. *)
Definition freq (data : list Byte.byte) (v : Byte.byte) : nat :=
  length (List.filter (Byte.eqb v) data).

Definition log2 (x : R) : R := (ln x / ln 2)%R.

(** The Shannon entropy loop of [_analyze_entropy]. *)
Definition shannon_entropy (data : list Byte.byte) : R :=
  let data_len := INR (length data) in
  List.fold_left
    (fun entropy count =>
       if (0 <? count)%nat then
         let probability := (INR count / data_len)%R in
         (entropy - probability * log2 probability)%R
       else entropy)
    (List.map (freq data) byte_values) 0%R.

Definition _analyze_entropy (data : list Byte.byte) : Signal :=
  if (length data <? 256)%nat then
    {| score := 0; name := "entropy"; level := None |}
  else
    let entropy := shannon_entropy data in
    if Rle_dec 7.5 entropy then
      {| score := 30; name := "entropy"; level := Some "CRITICAL" |}
    else if Rle_dec 7.0 entropy then
      {| score := 25; name := "entropy"; level := Some "HIGH" |}
    else if Rle_dec 6.5 entropy then
      {| score := 15; name := "entropy"; level := Some "MEDIUM" |}
    else if Rle_dec 5.5 entropy then
      {| score := 5; name := "entropy"; level := Some "LOW" |}
    else
      {| score := 0; name := "entropy"; level := Some "NONE" |}.

(** The magic-byte loop: the type of the first signature [data] starts with. *)
Definition actual_type_of (data : list Byte.byte) : option string :=
  match List.find (fun sig => bytes_startswith data (fst sig)) file_signatures with
  | Some (_, file_type) => Some file_type
  | None => None
  end.

Definition _check_extension_mismatch (file_path : Path) (data : list Byte.byte)
    : Signal :=
  let extension := lower (suffix file_path) in
  match actual_type_of data with
  | None => {| score := 0; name := "extension_mismatch"; level := None |}
  | Some actual_type =>
      if (String.eqb actual_type "exe" || String.eqb actual_type "elf")
         && bool_decide (extension ∈ benign_extensions) then
        {| score := 25; name := "extension_mismatch"; level := Some "CRITICAL" |}
      else if String.eqb actual_type "zip"
              && existsb (String.eqb extension) [".jpg"; ".jpeg"; ".png"; ".gif"] then
        {| score := 20; name := "extension_mismatch"; level := Some "HIGH" |}
      else if String.eqb actual_type "txt"
              && bool_decide (extension ∈ executable_extensions) then
        {| score := 10; name := "extension_mismatch"; level := Some "MEDIUM" |}
      else
        {| score := 0; name := "extension_mismatch"; level := None |}
  end.

Section Engine.

(** The regular-expression library: [findall pattern data] is
    [re.compile(pattern, re.IGNORECASE).findall(text)] for
    [text = data.decode('utf-8', errors='ignore')]. *)
Variable findall : string -> list Byte.byte -> list string.

(** The matching loop: at most three matches are kept per pattern. *)
Definition collect_matches (data : list Byte.byte) : list string :=
  List.flat_map (fun pattern => firstn 3 (findall pattern data)) suspicious_strings.

Definition _detect_suspicious_strings (data : list Byte.byte) : result Signal :=
  let matches := collect_matches data in
  match matches with
  | [] => Return {| score := 0; name := "suspicious_strings"; level := None |}
  | _ :: _ =>
      let match_count := length (remove_dups matches) in
      let '(score, level) :=
        if (10 <=? match_count)%nat then (25%Z, "CRITICAL")
        else if (5 <=? match_count)%nat then (20%Z, "HIGH")
        else if (3 <=? match_count)%nat then (15%Z, "MEDIUM")
        else if (1 <=? match_count)%nat then (10%Z, "LOW")
        else (5%Z, "LOW") in
      (* 'details': f'... {", ".join(set(matches)[:5])}' *)
      bind (subscript_set (remove_dups matches)) (fun _ =>
        Return {| score := score; name := "suspicious_strings";
                  level := Some level |})
  end.

Definition _detect_packer (data : list Byte.byte) : Signal :=
  match List.find (fun sig => bytes_contains (firstn 1024 data) (fst sig))
                  packing_signatures with
  | Some _ =>
      {| score := 20; name := "packer_detected"; level := Some "HIGH" |}
  | None =>
      if (20 <=? score (_analyze_entropy data))%Z then
        {| score := 15; name := "packer_detected"; level := Some "MEDIUM" |}
      else
        {| score := 0; name := "packer_detected"; level := None |}
  end.

(** [if r['score'] > 0: signals.append(r); total_score += r['score']]. *)
Definition record_signal (r : Signal) (acc : list Signal * Z) : list Signal * Z :=
  if (0 <? score r)%Z then ((fst acc ++ [r])%list, (snd acc + score r)%Z) else acc.

(** [analyze_file(file_path)]; [n] is the entry at [file_path].  The
    existence test stands before the [try]. *)
Definition analyze_file (file_path : Path) (n : node) : result Analysis :=
  bind (exists_ n) (fun found =>
  if negb found then Return {| risk_score := 0; signals := [] |}
  else
    match read_bytes n with
    | Raise e =>
        if is_OSError e then Return {| risk_score := 0; signals := [] |}
        else Raise e
    | Return content =>
        let file_data := read_upto (1024 * 1024) content in
        let acc := ([], 0%Z) in
        let acc := record_signal (_analyze_entropy file_data) acc in
        let acc := record_signal (_check_extension_mismatch file_path file_data) acc in
        bind (_detect_suspicious_strings file_data) (fun strings_result =>
          let acc := record_signal strings_result acc in
          let acc := record_signal (_detect_packer file_data) acc in
          let total_score := Z.min (snd acc) 100 in
          Return {| risk_score := total_score; signals := fst acc |})
    end).

End Engine.

End advanced_heuristic.

(** ** [src/detection/ml_scoring.py] *)
Module ml_scoring.
Import py.
Local Open Scope R_scope.

(** [self.thresholds]. *)
Record Thresholds : Type := {
  benign : R;
  suspicious : R;
  malicious : R
}.

Record MLThreatScorer : Type := {
  feature_weights : list (string * R);
  thresholds : Thresholds;
  entropy_threshold : R;
  suspicious_strings_threshold : Z;
  small_executable_threshold : Z;
  large_executable_threshold : Z;
  rare_extensions : gset string
}.

(** [MLThreatScorer()]. *)
Definition __init__ : MLThreatScorer :=
  {| feature_weights :=
       [ ("entropy", 0.25); ("suspicious_strings", 0.20);
         ("extension_mismatch", 0.20); ("packer_detected", 0.15);
         ("file_size_anomaly", 0.10); ("rare_extension", 0.10) ];
     thresholds := {| benign := 0.3; suspicious := 0.6; malicious := 0.8 |};
     entropy_threshold := 7.0;
     suspicious_strings_threshold := 5;
     small_executable_threshold := 1024;
     large_executable_threshold := 100 * 1024 * 1024;
     rare_extensions :=
       {[ ".vbs"; ".js"; ".wsf"; ".ps1"; ".bat"; ".cmd"; ".scr";
          ".pif"; ".com"; ".cpl"; ".msc"; ".jar"; ".hta" ]} |}.

(** What [score_file] returns; the explanation text is not modelled. *)
Record MLResult : Type := {
  ml_score : R;
  classification : string;
  confidence : R;
  experimental : bool;
  features : option (list (string * R))
}.

(** [features.get(feature_name, 0.0)]. *)
Definition get (features : list (string * R)) (feature_name : string) : R :=
  match List.find (fun kv => String.eqb (fst kv) feature_name) features with
  | Some (_, v) => v
  | None => 0.0
  end.

(** [next((s for s in signals if s['name'] == name), {'score': 0})['score']]. *)
Definition signal_score (signals : list advanced_heuristic.Signal)
    (name : string) : Z :=
  match List.find (fun s => String.eqb (advanced_heuristic.name s) name) signals with
  | Some s => advanced_heuristic.score s
  | None => 0%Z
  end.

(** [_extract_features(file_path, heuristic_result)]; [n] is the entry at
    [file_path]. *)
Definition _extract_features (self : MLThreatScorer) (file_path : Path) (n : node)
    (heuristic_result : advanced_heuristic.Analysis) : list (string * R) :=
  let signals := advanced_heuristic.signals heuristic_result in
  let file_size_anomaly :=
    match st_size n with
    | Return file_size =>
        if (file_size <? small_executable_threshold self)%Z then 0.8
        else if (large_executable_threshold self <? file_size)%Z then 0.6
        else 0.0
    | Raise _ => 0.0
    end in
  let extension := lower (suffix file_path) in
  [ ("entropy", IZR (signal_score signals "entropy") / 30.0);
    ("suspicious_strings", IZR (signal_score signals "suspicious_strings") / 25.0);
    ("extension_mismatch", IZR (signal_score signals "extension_mismatch") / 25.0);
    ("packer_detected", IZR (signal_score signals "packer_detected") / 20.0);
    ("file_size_anomaly", file_size_anomaly);
    ("rare_extension",
       if bool_decide (extension ∈ rare_extensions self) then 1.0 else 0.0) ].

Definition _sigmoid (x : R) : R := 1.0 / (1.0 + exp (- x)).

(** [_calculate_ml_score(features)]: the weighted sum, then the sigmoid. *)
Definition _calculate_ml_score (self : MLThreatScorer) (features : list (string * R))
    : R :=
  let score :=
    List.fold_left
      (fun score fw => score + get features (fst fw) * snd fw)
      (feature_weights self) 0.0 in
  _sigmoid score.

(** [_classify(ml_score, features)]. *)
Definition _classify (self : MLThreatScorer) (ml_score : R)
    (features : list (string * R)) : string * R :=
  let t := thresholds self in
  let '(classification, confidence) :=
    if Rle_dec (malicious t) ml_score then
      ("malicious"%string, (ml_score - malicious t) / (1.0 - malicious t))
    else if Rle_dec (suspicious t) ml_score then
      ("suspicious"%string, (ml_score - suspicious t) / (malicious t - suspicious t))
    else if Rle_dec (benign t) ml_score then
      ("suspicious"%string, (ml_score - benign t) / (suspicious t - benign t))
    else
      ("benign"%string, (benign t - ml_score) / benign t) in
  (classification, Rmax 0.0 (Rmin 1.0 confidence)).

(** [score_file(file_path, heuristic_result)]. *)
Definition score_file (self : MLThreatScorer) (file_path : Path) (n : node)
    (heuristic_result : advanced_heuristic.Analysis) : result MLResult :=
  bind (exists_ n) (fun found =>
  if negb found then
    Return {| ml_score := 0.0; classification := "unknown"; confidence := 0.0;
              experimental := true; features := None |}
  else
    let features := _extract_features self file_path n heuristic_result in
    let ml_score := _calculate_ml_score self features in
    let '(classification, confidence) := _classify self ml_score features in
    Return {| ml_score := ml_score; classification := classification;
              confidence := confidence; experimental := true;
              features := Some features |}).

End ml_scoring.

(** ** [src/cloud/cloud_sync.py] *)
Module cloud_sync.
Import py.

(** The client object.  [cache] is the dictionary [_load_cache] returned. *)
Record CloudSyncClient : Type := {
  enabled : bool;
  offline_mode : bool;
  cache : value
}.

(** What a call does besides computing its result. *)
Inductive event : Type :=
| ReadFile (file_path : Path)         (* the target file is opened and read *)
| Digest (algorithm : string)         (* a hash of its content is computed *)
| CacheLookup                         (* the in-memory cache is consulted *)
| CacheStore (key : string)           (* an entry is put into the cache *)
| CacheSave                           (* the cache is written to disk *)
| CloudQuery (sha256 : string).       (* the lookup service is queried *)

(** Methods of the client: they may raise, update the client and leave a
    trace of events. *)
Definition M (A : Type) : Type :=
  CloudSyncClient -> result A * CloudSyncClient * list event.

#[global] Instance M_ret : MRet M := fun A a self => (Return a, self, []).

#[global] Instance M_bind : MBind M := fun A B k m self =>
  match m self with
  | (Return a, self', t) =>
      let '(r, self'', t') := k a self' in (r, self'', (t ++ t')%list)
  | (Raise e, self', t) => (Raise e, self', t)
  end.

Definition emit (e : event) : M unit := fun self => (Return tt, self, [e]).
Definition this : M CloudSyncClient := fun self => (Return self, self, []).
Definition update (f : CloudSyncClient -> CloudSyncClient) : M unit :=
  fun self => (Return tt, f self, []).
Definition lift {A} (r : result A) : M A := fun self => (r, self, []).

(** [try: body except: handler] for a handler that catches everything. *)
Definition try_except {A} (body : M A) (handler : exn -> M A) : M A :=
  fun self =>
    match body self with
    | (Raise e, self', t) =>
        let '(r, self'', t') := handler e self' in (r, self'', (t ++ t')%list)
    | ok => ok
    end.

Definition default_cache : value :=
  VDict {[ "hashes" := VDict ∅; "last_sync" := VNone; "version" := VStr "1.0" ]}.

(** [_load_cache()]; [cache_file] is the parsed content of the cache file,
    [None] when it is absent or does not parse. *)
Definition _load_cache (cache_file : option value) : value :=
  match cache_file with
  | Some data => data
  | None => default_cache
  end.

(** [CloudSyncClient(enabled=False)]. *)
Definition __init__ (enabled : bool) (cache_file : option value) : CloudSyncClient :=
  {| enabled := enabled; offline_mode := false; cache := _load_cache cache_file |}.

(** The default construction, as [get_cloud_client()] performs it. *)
Definition get_cloud_client (cache_file : option value) : CloudSyncClient :=
  __init__ false cache_file.

Definition is_enabled (self : CloudSyncClient) : bool := enabled self.

(** [enable(show_notice)]; [consent] is the answer typed at the prompt. *)
Definition enable (show_notice : bool) (consent : string) (self : CloudSyncClient)
    : CloudSyncClient :=
  if show_notice
     && negb (existsb (String.eqb (lower consent)) ["yes"; "y"])
  then self
  else {| enabled := true; offline_mode := offline_mode self; cache := cache self |}.

Definition disable (self : CloudSyncClient) : CloudSyncClient :=
  {| enabled := false; offline_mode := offline_mode self; cache := cache self |}.

(** [self.cache['hashes']], which must be a dictionary to be searched. *)
Definition cache_hashes (self : CloudSyncClient) : result (gmap string value) :=
  match cache self with
  | VDict d =>
      match d !! "hashes" with
      | Some (VDict h) => Return h
      | Some _ => Raise (TypeError "cache['hashes'] is not a dictionary")
      | None => Raise (KeyError "hashes")
      end
  | _ => Raise (TypeError "cache is not a dictionary")
  end.

Section Client.

(** [hashlib.md5], [hashlib.sha1] and [hashlib.sha256], as hex digests. *)
Variables md5 sha1 sha256 : list Byte.byte -> string.

(** [_calculate_hashes(file_path)]; [n] is the entry at [file_path].  A
    failure to read leaves the three digests empty. *)
Definition _calculate_hashes (file_path : Path) (n : node)
    : M (string * string * string) :=
  try_except
    (_ ← emit (ReadFile file_path);
     content ← lift (read_bytes n);
     _ ← emit (Digest "md5");
     _ ← emit (Digest "sha1");
     _ ← emit (Digest "sha256");
     mret (md5 content, sha1 content, sha256 content))
    (fun _ => mret ("", "", "")).

(** The argument of [_query_cache]: a digest, or the [Path] the offline
    branch of [query_hash] passes. *)
Inductive key : Type :=
| KStr (hash_value : string)
| KPath (file_path : Path).

(** [_query_cache(hash_value)].  The keys of the cache are strings: a
    [Path] is never among them. *)
Definition _query_cache (hash_value : key) : M (gmap string value) :=
  _ ← emit CacheLookup;
  self ← this;
  hashes ← lift (cache_hashes self);
  match hash_value with
  | KStr h =>
      match hashes !! h with
      | Some r =>
          mret ({[ "status" := VStr "found"; "cached" := VBool true;
                   "result" := r ]} : gmap string value)
      | None =>
          mret ({[ "status" := VStr "not_found"; "cached" := VBool true;
                   "message" := VStr "Hash not found in local cache" ]}
                : gmap string value)
      end
  | KPath _ =>
      mret ({[ "status" := VStr "not_found"; "cached" := VBool true;
               "message" := VStr "Hash not found in local cache" ]}
            : gmap string value)
  end.

Definition known_malicious_hashes : gmap string value :=
  {[ "0000000000000000000000000000000000000000000000000000000000000001" :=
       VDict {[ "threat" := VStr "Trojan.GenericKD.12345";
                "severity" := VStr "high";
                "category" := VStr "trojan";
                "first_seen" := VStr "2024-01-01";
                "detection_rate" := VStr "95/100" ]};
     "0000000000000000000000000000000000000000000000000000000000000002" :=
       VDict {[ "threat" := VStr "Worm.AutoRun.67890";
                "severity" := VStr "critical";
                "category" := VStr "worm";
                "first_seen" := VStr "2024-01-15";
                "detection_rate" := VStr "98/100" ]} ]}.

Definition known_benign_hashes : gmap string value :=
  {[ "1111111111111111111111111111111111111111111111111111111111111111" :=
       VDict {[ "status" := VStr "benign";
                "category" := VStr "system";
                "first_seen" := VStr "2020-01-01" ]} ]}.

(** [_simulate_cloud_response(hash_value)]. *)
Definition _simulate_cloud_response (hash_value : string) : gmap string value :=
  match known_malicious_hashes !! hash_value with
  | Some threat => {[ "status" := VStr "malicious"; "threat" := threat ]}
  | None =>
      match known_benign_hashes !! hash_value with
      | Some info => {[ "status" := VStr "benign"; "info" := info ]}
      | None =>
          {[ "status" := VStr "unknown";
             "message" := VStr "Hash not found in cloud database" ]}
      end
  end.

(** [_query_cloud(hashes)]: the simulated lookup cannot fail, so the
    handler that would switch to offline mode never runs. *)
Definition _query_cloud (hashes : string * string * string)
    : M (gmap string value) :=
  let '(_, _, h256) := hashes in
  _ ← emit (CloudQuery h256);
  mret ({[ "status" := VStr "success"; "cloud" := VBool true;
           "result" := VDict (_simulate_cloud_response h256) ]}
        : gmap string value).

(** [_cache_hash(hash_value, result)], then [_save_cache()]. *)
Definition _cache_hash (hash_value : string) (r : gmap string value) : M unit :=
  self ← this;
  hashes ← lift (cache_hashes self);
  _ ← emit (CacheStore hash_value);
  _ ← update (fun self =>
         {| enabled := enabled self; offline_mode := offline_mode self;
            cache :=
              match cache self with
              | VDict d => VDict (<["hashes" := VDict (<[hash_value := VDict r]> hashes)]> d)
              | other => other
              end |});
  emit CacheSave.

Definition disabled_result : gmap string value :=
  {[ "status" := VStr "disabled";
     "message" := VStr "Cloud sync is disabled. Enable with: hex-avg cloud enable" ]}.

(** [query_hash(file_path)]; [n] is the entry at [file_path]. *)
Definition query_hash (file_path : Path) (n : node) : M (gmap string value) :=
  self ← this;
  if negb (enabled self) then mret disabled_result
  else if offline_mode self then _query_cache (KPath file_path)
  else
    hashes ← _calculate_hashes file_path n;
    let '(_, _, h256) := hashes in
    cache_result ← _query_cache (KStr h256);
    status ← lift (getitem cache_result "status");
    if eq_str status "found" then mret cache_result
    else
      cloud_result ← _query_cloud hashes;
      status ← lift (getitem cloud_result "status");
      _ ← (if eq_str status "success" then _cache_hash h256 cloud_result
           else mret tt);
      mret cloud_result.

End Client.

(** [set_offline_mode(offline)]. *)
Definition set_offline_mode (offline : bool) (self : CloudSyncClient) : CloudSyncClient :=
  {| enabled := enabled self; offline_mode := offline; cache := cache self |}.

(** [sum(1 for r in hashes.values()
         if isinstance(r, dict) and r.get('status') == status)]. *)
Definition count_status (hashes : gmap string value) (status : string) : Z :=
  Z.of_nat (length (List.filter
    (fun kv => match snd kv with
               | VDict r => match r !! "status" with
                            | Some v => eq_str v status
                            | None => false
                            end
               | _ => false
               end) (map_to_list hashes))).

(** [get_cache_stats()].  The entries of the returned dictionary are
    evaluated in order: [len(...)] fails on a value without a length,
    [.values()] on a list or a string (an [AttributeError], rendered here as
    a plain [Exception]), and [last_sync] is read last. *)
Definition get_cache_stats (self : CloudSyncClient) : result (gmap string value) :=
  match cache self with
  | VDict d =>
      match d !! "hashes" with
      | None => Raise (KeyError "hashes")
      | Some (VDict h) =>
          match d !! "last_sync" with
          | None => Raise (KeyError "last_sync")
          | Some last_sync =>
              Return {[ "total_cached_hashes" := VInt (Z.of_nat (size h));
                        "malicious_hashes" := VInt (count_status h "malicious");
                        "benign_hashes" := VInt (count_status h "benign");
                        "unknown_hashes" := VInt (count_status h "unknown");
                        "last_sync" := last_sync ]}
          end
      | Some (VList _) | Some (VStr _) =>
          Raise (Exception "object has no attribute 'values'")
      | Some _ => Raise (TypeError "object has no len()")
      end
  | _ => Raise (TypeError "cache is not a dictionary")
  end.

End cloud_sync.

(** ** [src/cli.py]: the [scan] command *)
Module cli.
Import py.

(** An entry of [results]: the dictionary appended for a flagged file. *)
Record Finding : Type := {
  file : Path;
  signature : gmap string value;
  heuristic : advanced_heuristic.Analysis;
  ml : option ml_scoring.MLResult;
  cloud : option (gmap string value)
}.

(** The [is_threat] expression of the loop body, as Python evaluates it: an
    [or] chain, left to right, stopping at the first true operand; the
    Boolean returned is the truth value the following [if] tests. *)
Definition is_threat (signature_result : gmap string value)
    (advanced_heuristic_result : advanced_heuristic.Analysis)
    (ml_result : option ml_scoring.MLResult)
    (cloud_result : option (gmap string value)) : result bool :=
  bind (getitem signature_result "threat_found") (fun threat_found =>
    if truthy threat_found then Return true
    else if (50 <=? advanced_heuristic.risk_score advanced_heuristic_result)%Z
    then Return true
    else if match ml_result with
            | Some r => if Rle_dec 0.7 (ml_scoring.ml_score r) then true else false
            | None => false
            end
    then Return true
    else
      match cloud_result with
      | None => Return false
      | Some d =>
          if truthy (VDict d) then
            bind (getitem d "is_malicious") (fun m => Return (truthy m))
          else Return false
      end).

Section Scan.

Variable findall : string -> list Byte.byte -> list string.
Variables md5 sha1 sha256 : list Byte.byte -> string.

(** [SignatureDatabase.check_file] and [HeuristicAnalyzer.analyze_file]:
    the command imports both classes, the sources define neither.  They are
    parameters; of the first only the [threat_found] key is read, the result
    of the second is not used. *)
Variable check_file : Path -> node -> result (gmap string value).
Variable heuristic_analyze_file : Path -> node -> result (gmap string value).

Variable fs : node.

(** The body of the [for file_path, threat in scanner.scan_directory(...)]
    loop for one file.  The state is the process-wide cloud client that
    [get_cloud_client()] hands out. *)
Definition scan_file (ml cloud : bool) (file_path : Path)
    : cloud_sync.M (option Finding) :=
  let n := lookup fs file_path in
  signature_result ← cloud_sync.lift (check_file file_path n);
  heuristic_result ← cloud_sync.lift (heuristic_analyze_file file_path n);
  advanced_heuristic_result ←
    cloud_sync.lift (advanced_heuristic.analyze_file findall file_path n);
  ml_result ←
    (if ml then
       r ← cloud_sync.lift (ml_scoring.score_file ml_scoring.__init__ file_path n
                              advanced_heuristic_result);
       mret (Some r)
     else mret None);
  cloud_client ← cloud_sync.this;
  cloud_result ←
    (if cloud && cloud_sync.is_enabled cloud_client then
       r ← cloud_sync.query_hash md5 sha1 sha256 file_path n; mret (Some r)
     else mret None);
  threat ← cloud_sync.lift
             (is_threat signature_result advanced_heuristic_result
                        ml_result cloud_result);
  mret (if threat : bool then
          Some {| file := file_path; signature := signature_result;
                  heuristic := advanced_heuristic_result;
                  ml := ml_result; cloud := cloud_result |}
        else None).

(** The loop over the files [scan_directory] yields: the flagged entries
    and the number of files scanned. *)
Fixpoint scan_loop (ml cloud : bool) (files : list Path)
    (results : list Finding) (files_scanned : nat)
    : cloud_sync.M (list Finding * nat) :=
  match files with
  | [] => mret (results, files_scanned)
  | file_path :: rest =>
      let files_scanned := S files_scanned in
      found ← scan_file ml cloud file_path;
      scan_loop ml cloud rest
        (match found with
         | Some f => (results ++ [f])%list
         | None => results
         end) files_scanned
  end.

Definition scan (ml cloud : bool) (files : list Path)
    : cloud_sync.M (list Finding * nat) :=
  scan_loop ml cloud files [] 0.

End Scan.

End cli.

(* ===================================================================== *)
(** * Part II: sample data and the notions the statements use         *)
(* ===================================================================== *)

(** ** Sample data for the examples *)
Module samples.
Import py config.

Definition sample_config : HEXAVGConfig :=
  {| VERSION := "1.0.0"; IS_WINDOWS := false; IS_LINUX := true;
     MIN_THREADS := 1; MAX_THREADS := 32; DEFAULT_THREADS := 4;
     MAX_SCAN_FILE_SIZE := 104857600;
     QUICK_SCAN_SKIP_EXTENSIONS := [".zip"; ".iso"];
     HASH_ALGORITHMS := ["md5"; "sha1"; "sha256"];
     BASE_DIR := ["/"; "home"; "user"; "hex-avg"] |}.

(** [/scan/a/b/c/f.txt], seen from [/scan]. *)
Definition nested_tree : node :=
  Directory true
    [("a", Directory true
       [("b", Directory true
          [("c", Directory true [("f.txt", RegularFile true [])])])])].

Definition scan_root : Path := ["/"; "scan"].

(** A root directory holding [/home/user/hex-avg/] and a clean text file. *)
Definition home_tree : node :=
  Directory true
    [("home", Directory true
       [("user", Directory true
          [("hex-avg", Directory true []);
           ("notes.txt", RegularFile true (b "hello"))])])].

Definition notes : Path := ["/"; "home"; "user"; "notes.txt"].

(** A stand-in for the regular-expression library on literal patterns: the
    pattern matches where its text occurs, letter case aside. *)
Definition literal_findall (pattern : string) (data : list Byte.byte) : list string :=
  let fold := List.map (fun c => byte_of_ascii (lower_ascii (ascii_of_byte c))) in
  if bytes_contains (fold data) (fold (b pattern)) then [pattern] else [].

(** Stand-ins for [hashlib]. *)
Definition sample_hashlib : string -> option (list Byte.byte -> string) :=
  fun algo => Some (fun _ => algo ++ ":digest").

(** The digest the simulated lookup service lists as malicious. *)
Definition known_bad_digest : string :=
  "0000000000000000000000000000000000000000000000000000000000000001".

(** An enabled cloud client in offline mode whose cache holds a verdict
    under that digest. *)
Definition primed_client : cloud_sync.CloudSyncClient :=
  {| cloud_sync.enabled := true;
     cloud_sync.offline_mode := true;
     cloud_sync.cache :=
       VDict {[ "hashes" :=
                  VDict {[ known_bad_digest :=
                             VDict {[ "status" := VStr "success";
                                      "cloud" := VBool true;
                                      "result" :=
                                        VDict {[ "status" := VStr "malicious" ]} ]} ]};
                "last_sync" := VNone;
                "version" := VStr "1.0" ]} |}.




(** A heuristic result with an entropy score far beyond the 30 points the
    heuristic engine ever gives. *)
Definition inflated_analysis : advanced_heuristic.Analysis :=
  {| advanced_heuristic.risk_score := 100;
     advanced_heuristic.signals :=
       [ {| advanced_heuristic.score := 600;
            advanced_heuristic.name := "entropy";
            advanced_heuristic.level := Some "CRITICAL" |} ] |}.

(** The result of the heuristic engine for a small executable that is
    packed and named like a picture. *)
Definition disguised_analysis : advanced_heuristic.Analysis :=
  {| advanced_heuristic.risk_score := 45;
     advanced_heuristic.signals :=
       [ {| advanced_heuristic.score := 25;
            advanced_heuristic.name := "extension_mismatch";
            advanced_heuristic.level := Some "CRITICAL" |};
         {| advanced_heuristic.score := 20;
            advanced_heuristic.name := "packer_detected";
            advanced_heuristic.level := Some "HIGH" |} ] |}.

(** Two paths and a scan function that raises on the first and reports the
    second as skipped. *)
Definition path_a : Path := ["/"; "a"].
Definition path_b : Path := ["/"; "b"].

Definition failing_scan (p : Path) : result (gmap string value) :=
  if bool_decide (p = path_a) then Raise (OSError "boom")
  else Return {[ "file_path" := VStr (str_path p);
                 "status" := VStr "skipped";
                 "threats" := VList [] ]}.



(** A directory holding a readable file, a file that cannot be read and a
    directory that cannot be listed. *)
Definition guarded_tree : node :=
  Directory true
    [("a.txt", RegularFile true (b "a"));
     ("secret.key", RegularFile false (b "k"));
     ("vault", Directory false [("b.txt", RegularFile true (b "b"))])].

(** A directory holding a subdirectory that can be listed but not searched,
    and a readable file after it. *)
Definition closed_tree : node :=
  Directory true
    [("closed", Directory true [("x.txt", Inaccessible false)]);
     ("b.txt", RegularFile true (b "b"))].

Definition srv_root : Path := ["/"; "srv"; "project"].

(** A project directory [/home/user/dev]: a log file and a source
    directory. *)
Definition work_tree : node :=
  Directory true
    [("build.log", RegularFile true (b "ok"));
     ("src", Directory true [("main.py", RegularFile true (b "print(1)"))])].

Definition work_root : Path := ["/"; "home"; "user"; "dev"].

(** A task that fails on the item 3 and doubles every other item. *)
Definition flaky (item : Z) : result Z :=
  if (item =? 3)%Z then Raise (Exception "bad item") else Return (2 * item)%Z.

(** A stand-in for [hashlib] that knows MD5 only and prints a digest of the
    right shape. *)
Definition md5_only : string -> option (list Byte.byte -> string) :=
  fun algo =>
    if String.eqb algo "md5"
    then Some (fun _ => "d41d8cd98f00b204e9800998ecf8427e")
    else None.

(** Two signature entries as a definitions file lists them, and an entry
    without a name. *)
Definition entry_eicar : value :=
  VDict {[ "name" := VStr "EICAR-Test-File";
           "md5" := VStr "44d88612fea8a8f36de82e1278abb02f";
           "type" := VStr "test"; "severity" := VStr "low" ]}.




(** A signature detector that matches every file and a heuristic detector
    that finds every file suspicious. *)
Definition always_detects : Path -> list (string * string) -> gmap string value :=
  fun _ _ => {[ "detected" := VBool true; "name" := VStr "EICAR-Test-File";
                "severity" := VStr "low" ]}.

Definition always_suspicious : Path -> Z -> result (gmap string value) :=
  fun _ _ =>
    Return {[ "suspicious" := VBool true;
              "threats" := VList [VDict {[ "type" := VStr "suspicious_extension";
                                           "name" := VStr "Suspicious file extension";
                                           "severity" := VStr "medium" ]}];
              "confidence" := VInt 0 ]}.

End samples.

(** ** Notions used in the statements *)
Module notions.
Import py.

(** How many levels below [root_path] the path [p] lies. *)
Definition depth_below (root_path p : Path) : Z :=
  (Z.of_nat (length p) - Z.of_nat (length root_path))%Z.

(** The paths a run of the traversal generator yields. *)
Definition yielded (r : list Path * file_traversal.Stats * option exn) : list Path :=
  fst (fst r).

(** The same traversal object with another [max_depth]. *)
Definition with_max_depth (self : file_traversal.FileTraversal) (d : option Z)
    : file_traversal.FileTraversal :=
  {| file_traversal.skip_hidden := file_traversal.skip_hidden self;
     file_traversal.skip_system := file_traversal.skip_system self;
     file_traversal.max_depth := d;
     file_traversal.system_dirs := file_traversal.system_dirs self;
     file_traversal.hidden_prefixes := file_traversal.hidden_prefixes self |}.

(** A progress callback that does not raise (or none at all). *)
Definition quiet (cb : option (nat -> nat -> Path -> option exn)) : Prop :=
  match cb with
  | None => True
  | Some f => forall done total p, f done total p = None
  end.

(** A scan result that carries the two keys the statistics loop reads. *)
Definition well_formed (r : gmap string value) : Prop :=
  is_Some (r !! "status") /\ is_Some (r !! "threats").

(** Whether the statistics loop counts a result as skipped. *)
Definition counts_as_skipped (r : gmap string value) : bool :=
  match r !! "status" with
  | Some s => eq_str s "skipped" || eq_str s "error"
  | None => false
  end.

(** A scan result that reports no threat (or has no [threats] key at all). *)
Definition no_threats (r : gmap string value) : Prop :=
  r !! "threats" = Some (VList []) \/ r !! "threats" = None.

(** A signature store holding one signature, built on an empty database
    with no bundled EICAR definitions. *)
Definition one_signature_store : signature.SignatureDetector :=
  snd (signature.add_signature
         (signature.__init__ signature.empty_db 1700000000 None) 1700000001
         (VStr "Trojan.Sample") (VStr "0123456789abcdef0123456789abcdef")
         VNone VNone (VStr "trojan") (VStr "high") (VStr "sample entry")).

(** The range the heuristic engine documents for each named signal. *)
Definition cap (signal_name : string) : Z :=
  if String.eqb signal_name "entropy" then 30
  else if String.eqb signal_name "extension_mismatch" then 25
  else if String.eqb signal_name "suspicious_strings" then 25
  else if String.eqb signal_name "packer_detected" then 20
  else 0.

Definition in_range (s : advanced_heuristic.Signal) : Prop :=
  (0 <= advanced_heuristic.score s <= cap (advanced_heuristic.name s))%Z.

(** A heuristic result whose scores, as the ML scorer reads them (the
    first signal of each name, 0 without one), lie within those ranges. *)
Definition scores_in_range (hr : advanced_heuristic.Analysis) : Prop :=
  Forall (fun nm =>
            (0 <= ml_scoring.signal_score (advanced_heuristic.signals hr) nm <= cap nm)%Z)
         ["entropy"; "suspicious_strings"; "extension_mismatch"; "packer_detected"].

(** The size feature of the ML scorer: 0.8 for a file below 1 KiB, 0.6 for
    one above 100 MiB, 0 otherwise and when the size cannot be read. *)
Definition size_anomaly (n : node) : R :=
  match st_size n with
  | Return file_size =>
      if (file_size <? 1024)%Z then 0.8%R
      else if (104857600 <? file_size)%Z then 0.6%R else 0%R
  | Raise _ => 0%R
  end.

(** The extension feature: 1 for an extension on the scorer's list of rare
    extensions, letter case aside. *)
Definition rare_extension (p : Path) : R :=
  if bool_decide (lower (suffix p) ∈ ml_scoring.rare_extensions ml_scoring.__init__)
  then 1%R else 0%R.

(** The weighted evidence the ML scorer is documented to add up: each signal
    score divided by the top of its range, the size and extension features,
    with the weights 0.25, 0.20, 0.20, 0.15, 0.10 and 0.10. *)
Definition evidence (p : Path) (n : node) (hr : advanced_heuristic.Analysis) : R :=
  let score nm := IZR (ml_scoring.signal_score (advanced_heuristic.signals hr) nm) in
  (0.25 * (score "entropy" / 30)
   + 0.20 * (score "suspicious_strings" / 25)
   + 0.20 * (score "extension_mismatch" / 25)
   + 0.15 * (score "packer_detected" / 20)
   + 0.10 * size_anomaly n
   + 0.10 * rare_extension p)%R.

(** The file data the heuristic engine analyses: at most the first MiB. *)
Definition analysed (content : list Byte.byte) : list Byte.byte :=
  read_upto (1024 * 1024) content.

(** The weighted sum [_calculate_ml_score] feeds to the sigmoid. *)
Definition weighted_sum (self : ml_scoring.MLThreatScorer)
    (features : list (string * R)) : R :=
  List.fold_left
    (fun score fw => (score + ml_scoring.get features (fst fw) * snd fw)%R)
    (ml_scoring.feature_weights self) 0.0%R.

(** A dictionary that is true and has no [is_malicious] key. *)
Definition verdict_free (r : gmap string value) : Prop :=
  truthy (VDict r) = true /\ r !! "is_malicious" = None.

(** The process-wide cloud client after [enable(show_notice=False)]. *)
Definition enabled_client : cloud_sync.CloudSyncClient :=
  cloud_sync.enable false "" (cloud_sync.get_cloud_client None).


(** *** The verdict of the [scan] command *)



Section Verdict.

Variable findall : string -> list Byte.byte -> list string.
Variables md5 sha1 sha256 : list Byte.byte -> string.
Variable check_file : Path -> node -> result (gmap string value).
Variable heuristic_analyze_file : Path -> node -> result (gmap string value).
Variable fs : node.






End Verdict.

(** *** Traversal *)

(** How a yielded path [p] arises from the entry [nm] of the directory
    being listed: out of the traversal of that entry, a directory, or as the
    entry itself, a readable file that passes the extension filters. *)
Definition arises (self : file_traversal.FileTraversal) (root_path : Path)
    (ef se : option (list string)) (p : Path) (nm : string) (c : node) : Prop :=
  file_traversal._should_skip self (joinpath root_path nm) c (is_dir c) = Return false
  /\ ((is_dir c = true
       /\ file_traversal.within_depth self root_path (joinpath root_path nm) = true
       /\ exists st', In p (yielded (file_traversal.traverse self (joinpath root_path nm) c
                                       (file_traversal.normalize ef)
                                       (file_traversal.normalize se) st')))
      \/ (is_file c = true /\ file_traversal._can_read c = true
          /\ p = joinpath root_path nm
          /\ file_traversal.given (file_traversal.normalize ef)
             && negb (file_traversal.mem (file_traversal.ext_of p)
                        (file_traversal.members (file_traversal.normalize ef))) = false
          /\ file_traversal.given (file_traversal.normalize se)
             && file_traversal.mem (file_traversal.ext_of p)
                  (file_traversal.members (file_traversal.normalize se)) = false)).

(** The entry found below a node by following the names [rel]. *)
Inductive entry_at : node -> list string -> node -> Prop :=
| at_here n : entry_at n [] n
| at_below l es nm c rel n :
    In (nm, c) es -> entry_at c rel n -> entry_at (Directory l es) (nm :: rel) n.

(** A name the traversal treats as hidden. *)
Definition hidden_name (nm : string) : bool :=
  startswith nm "." || startswith nm "$".

(** Whether a path passes the two extension filters. *)
Definition selected (ef se : option (list string)) (p : Path) : bool :=
  (negb (file_traversal.given (file_traversal.normalize ef))
   || file_traversal.mem (file_traversal.ext_of p)
        (file_traversal.members (file_traversal.normalize ef)))
  && negb (file_traversal.given (file_traversal.normalize se)
           && file_traversal.mem (file_traversal.ext_of p)
                (file_traversal.members (file_traversal.normalize se))).

(** A tree in which the status of every entry can be read: no entry, at any
    depth, is out of reach. *)
Fixpoint within_reach (n : node) : bool :=
  match n with
  | Inaccessible _ => false
  | Directory _ es =>
      (fix all (es : list (string * node)) : bool :=
         match es with
         | [] => true
         | (_, c) :: es' => within_reach c && all es'
         end) es
  | _ => true
  end.

(** How the traversal of such a tree ends: normally for a directory that
    can be listed, with the exception the validation or the listing raises
    otherwise. *)
Definition outcome_of (root : node) : option exn :=
  match root with
  | Directory true _ => None
  | Directory false _ | Inaccessible _ => Some PermissionError
  | RegularFile _ _ | Special true => Some (ValueError "Path is not a directory")
  | Special false => Some (FileNotFoundError "Path not found")
  end.

(** *** Thread pool *)


(** What the pool records for an item: the result of the task, [None] when
    it raised. *)
Definition attempt {A B : Type} (func : A -> result B) (item : A) : option B :=
  match func item with
  | Return r => Some r
  | Raise _ => None
  end.

(** A batch callback that does not raise (or none at all). *)
Definition still (callback : option (nat -> nat -> option exn)) : Prop :=
  match callback with
  | None => True
  | Some f => forall processed total, f processed total = None
  end.

(** The tasks accounted for: completed or failed. *)
Definition finished (s : multithreading.Stats) : nat :=
  (multithreading.completed_tasks s + multithreading.failed_tasks s)%nat.

(** *** Hashes *)

Definition is_hex (c : ascii) : bool :=
  existsb (Ascii.eqb c) (list_ascii_of_string "0123456789abcdef").

(** A digest as [hashlib] prints it: lowercase hexadecimal digits only. *)
Definition hex_digest (d : string) : bool := all_chars is_hex d.

(** *** Signatures *)




(** The JSON document [{"signatures": sigs}]. *)
Definition document (sigs : list value) : value :=
  VDict {[ "signatures" := VList sigs ]}.

(** The three hash columns of the [signatures] table. *)
Definition hash_column (algo : string) : bool :=
  String.eqb algo "md5" || String.eqb algo "sha1" || String.eqb algo "sha256".

(** Whether a row holds [hash_value] in the column [algo]. *)
Definition matches (algo hash_value : string) (r : signature.Row) : bool :=
  match signature.column algo r with
  | Return (Some h) => String.eqb h hash_value
  | _ => false
  end.

(** *** Scans *)

(** A scanner with a signature detector and a heuristic detector assigned. *)
Definition with_detectors (self : scanner.HEXAVGScanner)
    (detect : Path -> list (string * string) -> gmap string value)
    (analyze : Path -> Z -> result (gmap string value)) : scanner.HEXAVGScanner :=
  {| scanner.threads := scanner.threads self;
     scanner.enable_heuristics := scanner.enable_heuristics self;
     scanner.enable_yara := scanner.enable_yara self;
     scanner.file_traversal := scanner.file_traversal self;
     scanner.traversal_stats := scanner.traversal_stats self;
     scanner.thread_manager := scanner.thread_manager self;
     scanner.scan_stats := scanner.scan_stats self;
     scanner.signature_detector := Some detect;
     scanner.heuristic_detector := Some analyze;
     scanner.yara_detector := scanner.yara_detector self |}.

(** *** Heuristic signals *)

(** The sum of the scores of a list of signals. *)
Definition total_of (signals : list advanced_heuristic.Signal) : Z :=
  List.fold_right (fun s acc => (advanced_heuristic.score s + acc)%Z) 0%Z signals.

(** Whether a signal is the suspicious-strings signal. *)
Definition from_strings (s : advanced_heuristic.Signal) : bool :=
  String.eqb (advanced_heuristic.name s) "suspicious_strings".

(** *** Cloud cache *)

(** The key under which [query_hash] caches the verdict for a file: its
    SHA-256 digest, or the empty string when the file cannot be read. *)
Definition cache_key (sha256 : list Byte.byte -> string) (n : node) : string :=
  match read_bytes n with
  | Return content => sha256 content
  | Raise _ => ""
  end.

(** The dictionary [_query_cache] returns for a miss. *)
Definition not_found : gmap string value :=
  {[ "status" := VStr "not_found"; "cached" := VBool true;
     "message" := VStr "Hash not found in local cache" ]}.

(** The dictionary [_query_cloud] returns for the digest [k]. *)
Definition cloud_result (k : string) : gmap string value :=
  {[ "status" := VStr "success"; "cloud" := VBool true;
     "result" := VDict (cloud_sync._simulate_cloud_response k) ]}.

(** The client after [_cache_hash] stored the lookup result for [k]; [d] is
    its cache and [h] the [hashes] of the cache before. *)
Definition with_cached (self : cloud_sync.CloudSyncClient) (d h : gmap string value)
    (k : string) : cloud_sync.CloudSyncClient :=
  {| cloud_sync.enabled := cloud_sync.enabled self;
     cloud_sync.offline_mode := cloud_sync.offline_mode self;
     cloud_sync.cache :=
       VDict (<["hashes" := VDict (<[k := VDict (cloud_result k)]> h)]> d) |}.

Definition is_cloud_query (e : cloud_sync.event) : bool :=
  match e with
  | cloud_sync.CloudQuery _ => true
  | _ => false
  end.

(** A cache as [query_hash] fills it: a dictionary with a [last_sync] key
    whose [hashes] are all results of successful lookups. *)
Definition filled_by_lookups (self : cloud_sync.CloudSyncClient) : Prop :=
  exists d h,
    cloud_sync.cache self = VDict d /\ d !! "hashes" = Some (VDict h)
    /\ is_Some (d !! "last_sync")
    /\ map_Forall (fun _ v => exists r, v = VDict r
                                /\ r !! "status" = Some (VStr "success")) h.

End notions.

(* ===================================================================== *)
(** * Part III: properties                                               *)
(* ===================================================================== *)

(** ** The file system *)
Module py_props.
Import py.

(** Induction on the file-system tree, through the entries of a directory. *)
Lemma node_tree_ind (P : node -> Prop) :
  (forall r c, P (RegularFile r c)) ->
  (forall l es, Forall (fun e => P (snd e)) es -> P (Directory l es)) ->
  (forall e, P (Special e)) ->
  (forall d, P (Inaccessible d)) ->
  forall n, P n.
Proof.
  intros Hf Hd Hs Hi.
  fix IH 1. intros [r c | l es | e | d].
  - apply Hf.
  - apply Hd. induction es as [| [nm c] es IHes]; constructor.
    + apply IH.
    + apply IHes.
  - apply Hs.
  - apply Hi.
Qed.

Lemma find_replace_entry x c es e :
  List.find (fun e => String.eqb (fst e) x) es = Some e ->
  List.find (fun e => String.eqb (fst e) x) (replace_entry x c es) = Some (x, c).
Proof.
  induction es as [| [nm d] es IH]; cbn; [discriminate|].
  destruct (String.eqb nm x) eqn:E; cbn.
  - now rewrite String.eqb_refl.
  - rewrite E. exact IH.
Qed.

Lemma find_app_new x (c : node) es :
  List.find (fun e => String.eqb (fst e) x) es = None ->
  List.find (fun e => String.eqb (fst e) x) (es ++ [(x, c)]) = Some (x, c).
Proof.
  induction es as [| [nm d] es IH]; cbn.
  - now rewrite String.eqb_refl.
  - destruct (String.eqb nm x); [discriminate | exact IH].
Qed.

(** After a successful [write_text] the path denotes a regular file holding
    the text. *)
Lemma write_text_resolve rel content :
  forall n n', write_text rel content n = Return n' ->
  exists r, resolve n' rel = Some (RegularFile r content).
Proof.
  induction rel as [| x rel IH]; intros n n' H.
  - destruct n as [r c | l es | e | d]; cbn in H; try discriminate.
    injection H as <-. now exists r.
  - destruct n as [r c | l es | e | d]; cbn in H; try discriminate.
    destruct (List.find (fun e => String.eqb (fst e) x) es) as [[nm c]|] eqn:F.
    + destruct (write_text rel content c) as [c'|err] eqn:W; cbn in H; [|discriminate].
      injection H as <-. cbn [resolve].
      rewrite (find_replace_entry _ c' _ _ F). eapply IH, W.
    + destruct rel as [| y rel']; [|discriminate].
      injection H as <-. cbn [resolve].
      rewrite (find_app_new _ _ _ F). now exists true.
Qed.

End py_props.

(** ** File traversal *)
Module file_traversal_props.
Import py config file_traversal samples notions.

(** An entry of the directory being listed is always one part longer than
    the directory: the guard compares [1] with [max_depth], at every level. *)
Lemma within_depth_child (self : FileTraversal) (root_path : Path) (nm : string) :
  within_depth self root_path (joinpath root_path nm)
  = match max_depth self with
    | None => true
    | Some d => (1 <? d)%Z
    end.
Proof.
  unfold within_depth, joinpath. destruct (max_depth self) as [d|]; [|reflexivity].
  rewrite length_app. cbn [length].
  destruct (Z.ltb_spec 1 d);
    destruct (Z.ltb_spec (Z.of_nat (length root_path + 1))
                         (Z.of_nat (length root_path) + d));
    try reflexivity; lia.
Qed.

Lemma depth_below_child root_path nm :
  depth_below root_path (joinpath root_path nm) = 1%Z.
Proof. unfold depth_below, joinpath. rewrite length_app. cbn [length]. lia. Qed.

(** Claim C4.  With [max_depth = 2] the traversal of [/scan] yields
    [/scan/a/b/c/f.txt], a file four levels below the root: the configured
    depth does not bound the traversal. *)
Theorem traverse_exceeds_max_depth :
  yielded (traverse (__init__ sample_config true true (Some 2%Z))
             scan_root nested_tree None None zero_stats)
    = [["/"; "scan"; "a"; "b"; "c"; "f.txt"]]
  /\ depth_below scan_root ["/"; "scan"; "a"; "b"; "c"; "f.txt"] = 4%Z.
Proof. split; vm_compute; reflexivity. Qed.

(** Any [max_depth] of two or more behaves as no limit at all: the same
    paths, the same counters, the same outcome. *)
Theorem max_depth_two_or_more_is_unbounded (self : FileTraversal) (d : Z) :
  (2 <= d)%Z ->
  forall root root_path ef se st,
    traverse (with_max_depth self (Some d)) root_path root ef se st
    = traverse (with_max_depth self None) root_path root ef se st.
Proof.
  intros Hd root.
  induction root as [r c | l es IH | e | a] using py_props.node_tree_ind;
    intros root_path ef se st; [reflexivity | | reflexivity | reflexivity].
  cbn [traverse]. destruct (negb l); [reflexivity|].
  revert st. induction IH as [| [nm c] es Hc _ IHes]; intros st; [reflexivity|].
  cbn [snd] in Hc.
  change (_should_skip (with_max_depth self (Some d)))
    with (_should_skip (with_max_depth self None)).
  destruct (_should_skip (with_max_depth self None) (joinpath root_path nm) c (is_dir c))
    as [[|] | err]; [apply IHes | | reflexivity].
  destruct (is_dir c).
  - rewrite !within_depth_child. cbn [max_depth with_max_depth].
    replace (1 <? d)%Z with true by (symmetry; apply Z.ltb_lt; lia).
    rewrite Hc.
    destruct (traverse (with_max_depth self None) (joinpath root_path nm) c
                (normalize ef) (normalize se) (inc_dirs_scanned st))
      as [[ys st'] [err|]].
    + destruct (is_OSError err); [rewrite IHes|]; reflexivity.
    + rewrite IHes. reflexivity.
  - destruct (is_file c); [|apply IHes].
    destruct (negb (_can_read c)); [apply IHes|].
    destruct (given (normalize ef)
              && negb (mem (ext_of (joinpath root_path nm)) (members (normalize ef))));
      [apply IHes|].
    destruct (given (normalize se)
              && mem (ext_of (joinpath root_path nm)) (members (normalize se)));
      [apply IHes|].
    rewrite IHes. reflexivity.
Qed.

Lemma max_depth_two_or_more_is_unbounded_witness :
  (2 <= 2)%Z
  /\ traverse (with_max_depth (__init__ sample_config true true None) (Some 2%Z))
       scan_root nested_tree None None zero_stats
     = traverse (with_max_depth (__init__ sample_config true true None) None)
         scan_root nested_tree None None zero_stats.
Proof.
  split; [lia|].
  apply (max_depth_two_or_more_is_unbounded _ 2%Z); lia.
Defined.

(** With a [max_depth] of one or less no directory is entered: every path
    yielded is an entry of the root itself. *)
Theorem max_depth_at_most_one_yields_direct_children
    (self : FileTraversal) (d : Z) root root_path ef se st :
  max_depth self = Some d -> (d <= 1)%Z ->
  Forall (fun p => depth_below root_path p = 1%Z)
         (yielded (traverse self root_path root ef se st)).
Proof.
  intros Hmd Hd. destruct root as [r c | l es | [|] | a]; try (cbn; constructor).
  cbn [traverse]. destruct (negb l); [cbn; constructor|].
  revert st. induction es as [| [nm c] es IH]; intros st; [cbn; constructor|].
  destruct (_should_skip self (joinpath root_path nm) c (is_dir c)) as [[|] | err];
    [apply IH | | destruct (is_OSError err); cbn; constructor].
  destruct (is_dir c).
  - rewrite within_depth_child, Hmd.
    replace (1 <? d)%Z with false by (symmetry; apply Z.ltb_ge; lia).
    apply IH.
  - destruct (is_file c); [|apply IH].
    destruct (negb (_can_read c)); [apply IH|].
    destruct (given (normalize ef)
              && negb (mem (ext_of (joinpath root_path nm)) (members (normalize ef))));
      [apply IH|].
    destruct (given (normalize se)
              && mem (ext_of (joinpath root_path nm)) (members (normalize se)));
      [apply IH|].
    specialize (IH (inc_files_scanned st)). unfold yielded in *.
    destruct ((fix loop (es0 : list (string * node)) (st0 : Stats) {struct es0}
                 : list Path * Stats * option exn := _) es (inc_files_scanned st))
      as [[zs st'] e'].
    cbn [fst] in *. constructor; [apply depth_below_child | exact IH].
Qed.

Lemma max_depth_at_most_one_yields_direct_children_witness :
  max_depth (__init__ sample_config true true (Some 1%Z)) = Some 1%Z
  /\ (1 <= 1)%Z
  /\ yielded (traverse (__init__ sample_config true true (Some 1%Z))
                srv_root work_tree None None zero_stats)
     = [["/"; "srv"; "project"; "build.log"]]
  /\ Forall (fun p => depth_below srv_root p = 1%Z)
       (yielded (traverse (__init__ sample_config true true (Some 1%Z))
                   srv_root work_tree None None zero_stats)).
Proof.
  split; [reflexivity|]. split; [lia|]. split; [vm_compute; reflexivity|].
  apply (max_depth_at_most_one_yields_direct_children _ 1%Z); [reflexivity | lia].
Defined.

(** Without the limit the same traversal enters the source directory. *)
Example traverse_of_work_tree_without_limit :
  yielded (traverse (__init__ sample_config true true None)
             srv_root work_tree None None zero_stats)
  = [["/"; "srv"; "project"; "build.log"]; ["/"; "srv"; "project"; "src"; "main.py"]].
Proof. vm_compute. reflexivity. Qed.

(** *** What the traversal yields, counts and raises *)

(** One step back from a yielded path: it stems from an entry of the
    directory being listed. *)
Lemma yielded_inv self root_path root ef se st p :
  In p (yielded (traverse self root_path root ef se st)) ->
  exists l es nm c,
    root = Directory l es /\ In (nm, c) es /\ arises self root_path ef se p nm c.
Proof.
  destruct root as [r c | l es | [|] | a]; try (cbn; tauto).
  intros H. exists l, es.
  cut (exists nm c, In (nm, c) es /\ arises self root_path ef se p nm c).
  { intros (nm & c & ?). exists nm, c. tauto. }
  revert H. unfold yielded. cbn [traverse]. destruct (negb l); [cbn; tauto|].
  revert st. induction es as [| [nm c] es IH]; intros st; [cbn; tauto|].
  assert (Wk : (exists nm0 c0, In (nm0, c0) es /\ arises self root_path ef se p nm0 c0) ->
    exists nm0 c0, In (nm0, c0) ((nm, c) :: es) /\ arises self root_path ef se p nm0 c0).
  { intros (nm0 & c0 & Hin0 & Hrest). exists nm0, c0. split; [now right | exact Hrest]. }
  pose proof (fun st0 H => Wk (IH st0 H)) as W.
  clear IH.
  destruct (_should_skip self (joinpath root_path nm) c (is_dir c)) as [[|] | err] eqn:Hskip;
    [apply W | | destruct (is_OSError err); cbn; tauto].
  destruct (is_dir c) eqn:Hdir.
  - destruct (within_depth self root_path (joinpath root_path nm)) eqn:Hdepth; [|apply W].
    destruct (traverse self (joinpath root_path nm) c (normalize ef) (normalize se)
                (inc_dirs_scanned st)) as [[ys st'] e] eqn:T.
    assert (Hys : In p ys ->
      exists nm0 c0, In (nm0, c0) ((nm, c) :: es) /\ arises self root_path ef se p nm0 c0).
    { intros Hin. exists nm, c. split; [now left|].
      split; [rewrite Hdir; exact Hskip|]. left.
      split; [exact Hdir|]. split; [exact Hdepth|].
      exists (inc_dirs_scanned st). unfold yielded. rewrite T. exact Hin. }
    destruct e as [err|].
    + destruct (is_OSError err).
      * match goal with |- context [?f es (inc_permission_errors st')] =>
          specialize (W (inc_permission_errors st'));
          destruct (f es (inc_permission_errors st')) as [[zs st''] e'] end.
        cbn [fst] in *. rewrite in_app_iff. intros [Hin | Hin]; auto.
      * cbn [fst]. exact Hys.
    + match goal with |- context [?f es st'] =>
          specialize (W st'); destruct (f es st') as [[zs st''] e'] end.
      cbn [fst] in *. rewrite in_app_iff. intros [Hin | Hin]; auto.
  - destruct (is_file c) eqn:Hfile; [|apply W].
    destruct (_can_read c) eqn:Hread; cbn [negb]; [|apply W].
    destruct (given (normalize ef)
              && negb (mem (ext_of (joinpath root_path nm)) (members (normalize ef))))
      eqn:Hef; [apply W|].
    destruct (given (normalize se)
              && mem (ext_of (joinpath root_path nm)) (members (normalize se)))
      eqn:Hse; [apply W|].
    match goal with |- context [?f es (inc_files_scanned st)] =>
          specialize (W (inc_files_scanned st));
          destruct (f es (inc_files_scanned st)) as [[zs st''] e'] end.
    cbn [fst] in *. intros [<- | Hin]; [|auto].
    exists nm, c. split; [now left|]. split; [rewrite Hdir; exact Hskip|]. right. tauto.
Qed.

(** What a run adds to the [files_scanned] counter, however it ends. *)
Lemma traverse_counts self : forall root root_path ef se st,
  files_scanned (snd (fst (traverse self root_path root ef se st)))
  = (files_scanned st + length (yielded (traverse self root_path root ef se st)))%nat.
Proof.
  unfold yielded.
  induction root as [r c | l es IH | [|] | a] using py_props.node_tree_ind;
    intros root_path ef se st; try (cbn; lia).
  cbn [traverse]. destruct l; cbn [negb]; [|cbn; lia].
  revert st. induction IH as [| [nm c] es Hc _ IHes]; intros st; [cbn; lia|].
  cbn [snd] in Hc.
  destruct (_should_skip self (joinpath root_path nm) c (is_dir c)) as [[|] | err].
  - rewrite (IHes (if is_dir c then inc_dirs_skipped st else inc_files_skipped st)).
    destruct (is_dir c); reflexivity.
  - destruct (is_dir c) eqn:Hdir.
    + destruct (within_depth self root_path (joinpath root_path nm)).
      * pose proof (Hc (joinpath root_path nm) (normalize ef) (normalize se)
                      (inc_dirs_scanned st)) as O.
        destruct (traverse self (joinpath root_path nm) c (normalize ef) (normalize se)
                    (inc_dirs_scanned st)) as [[ys st'] [err|]];
          cbn [fst snd] in O.
        -- destruct (is_OSError err); [|cbn [fst snd]; rewrite O; cbn; lia].
           match goal with |- context [?f es (inc_permission_errors st')] =>
             pose proof (IHes (inc_permission_errors st')) as E;
             destruct (f es (inc_permission_errors st')) as [[zs st''] e'] end.
           cbn [fst snd] in *. rewrite length_app, E. cbn. cbn in O. lia.
        -- match goal with |- context [?f es st'] =>
             pose proof (IHes st') as E; destruct (f es st') as [[zs st''] e'] end.
           cbn [fst snd] in *. rewrite length_app, E, O. cbn. lia.
      * rewrite (IHes (inc_dirs_scanned st)). reflexivity.
    + destruct (is_file c); [|rewrite (IHes (inc_files_skipped st)); reflexivity].
      destruct (negb (_can_read c));
        [rewrite (IHes (inc_files_skipped (inc_permission_errors st))); reflexivity|].
      destruct (given (normalize ef)
                && negb (mem (ext_of (joinpath root_path nm)) (members (normalize ef))));
        [rewrite (IHes (inc_files_skipped st)); reflexivity|].
      destruct (given (normalize se)
                && mem (ext_of (joinpath root_path nm)) (members (normalize se)));
        [rewrite (IHes (inc_files_skipped st)); reflexivity|].
      match goal with |- context [?f es (inc_files_scanned st)] =>
        pose proof (IHes (inc_files_scanned st)) as E;
        destruct (f es (inc_files_scanned st)) as [[zs st''] e'] end.
      cbn [fst snd] in *. rewrite E. cbn. lia.
  - destruct (is_OSError err); cbn; lia.
Qed.

(** Where the status of an entry can be read, the tests on it answer. *)
Lemma exists_within_reach n :
  within_reach n = true -> exists_ n = Return (stat_succeeds n).
Proof. destruct n as [r c | l es | e | a]; [reflexivity.. | discriminate]. Qed.

Lemma should_skip_within_reach self path n d :
  within_reach n = true -> exists skip, _should_skip self path n d = Return skip.
Proof.
  intros Hn. unfold _should_skip.
  destruct (_is_hidden self path); [eauto|].
  destruct (d && _is_system_dir self path); [eauto|].
  rewrite (exists_within_reach n Hn). cbn [bind]. eauto.
Qed.

Lemma within_reach_entries l nm c es :
  within_reach (Directory l ((nm, c) :: es)) = true ->
  within_reach c = true /\ within_reach (Directory l es) = true.
Proof. cbn. intros H. apply andb_true_iff in H. exact H. Qed.

(** How the run over a tree within reach ends: entries below the root
    that cannot be listed or read are counted, not raised. *)
Lemma traverse_outcome self : forall root root_path ef se st,
  within_reach root = true ->
  snd (traverse self root_path root ef se st) = outcome_of root.
Proof.
  induction root as [r c | l es IH | [|] | a] using py_props.node_tree_ind;
    intros root_path ef se st Hr; try reflexivity.
  cbn [traverse outcome_of]. destruct l; cbn [negb]; [|reflexivity].
  revert st. induction IH as [| [nm c] es Hc _ IHes]; intros st; [reflexivity|].
  cbn [snd] in Hc. apply within_reach_entries in Hr as [Hrc Hres].
  specialize (IHes Hres).
  destruct (should_skip_within_reach self (joinpath root_path nm) c (is_dir c) Hrc)
    as [skip ->].
  destruct skip; [apply IHes|].
  destruct (is_dir c) eqn:Hdir.
  - destruct (within_depth self root_path (joinpath root_path nm)); [|apply IHes].
    pose proof (Hc (joinpath root_path nm) (normalize ef) (normalize se)
                  (inc_dirs_scanned st) Hrc) as O.
    destruct (traverse self (joinpath root_path nm) c (normalize ef) (normalize se)
                (inc_dirs_scanned st)) as [[ys st'] e].
    cbn [snd] in O.
    destruct c as [? ? | [|] es' | ? | ?]; try discriminate; cbn [outcome_of] in O; subst e.
    + match goal with |- context [?f es st'] =>
        pose proof (IHes st') as E; destruct (f es st') as [[zs st''] e'] end.
      exact E.
    + cbn [is_OSError].
      match goal with |- context [?f es (inc_permission_errors st')] =>
        pose proof (IHes (inc_permission_errors st')) as E;
        destruct (f es (inc_permission_errors st')) as [[zs st''] e'] end.
      exact E.
  - destruct (is_file c); [|apply IHes].
    destruct (negb (_can_read c)); [apply IHes|].
    destruct (given (normalize ef)
              && negb (mem (ext_of (joinpath root_path nm)) (members (normalize ef))));
      [apply IHes|].
    destruct (given (normalize se)
              && mem (ext_of (joinpath root_path nm)) (members (normalize se)));
      [apply IHes|].
    match goal with |- context [?f es (inc_files_scanned st)] =>
      pose proof (IHes (inc_files_scanned st)) as E;
      destruct (f es (inc_files_scanned st)) as [[zs st''] e'] end.
    exact E.
Qed.

Lemma name_joinpath root_path nm : name (joinpath root_path nm) = nm.
Proof. unfold name, joinpath. apply last_last. Qed.

Lemma lower_ascii_dot c : Ascii.eqb (lower_ascii c) "." = Ascii.eqb c ".".
Proof. destruct c as [[] [] [] [] [] [] [] []]; reflexivity. Qed.

Lemma lower_ascii_idem c : lower_ascii (lower_ascii c) = lower_ascii c.
Proof. destruct c as [[] [] [] [] [] [] [] []]; reflexivity. Qed.

Lemma lower_idem s : lower (lower s) = lower s.
Proof. induction s as [| c s IH]; cbn; [reflexivity|]. now rewrite lower_ascii_idem, IH. Qed.

Lemma lstrip_dot_cons c s :
  lstrip_dot (String c s) = if Ascii.eqb c "." then lstrip_dot s else String c s.
Proof.
  destruct (Ascii.eqb_spec c "."%char) as [-> | Hne]; [reflexivity|].
  destruct c as [[] [] [] [] [] [] [] []]; try reflexivity. congruence.
Qed.

Lemma lstrip_dot_idem s : lstrip_dot (lstrip_dot s) = lstrip_dot s.
Proof.
  induction s as [| c s IH]; [reflexivity|].
  rewrite lstrip_dot_cons. destruct (Ascii.eqb c ".") eqn:E; [exact IH|].
  rewrite lstrip_dot_cons, E. reflexivity.
Qed.

Lemma lower_lstrip_dot s : lower (lstrip_dot s) = lstrip_dot (lower s).
Proof.
  induction s as [| c s IH]; [reflexivity|].
  cbn [lower]. rewrite !lstrip_dot_cons, lower_ascii_dot.
  destruct (Ascii.eqb c "."); [exact IH | reflexivity].
Qed.

(** Normalising the extension lists again, as every level of the recursion
    does, changes nothing. *)
Lemma normalize_idem exts : normalize (normalize exts) = normalize exts.
Proof.
  destruct exts as [[| x l]|]; try reflexivity.
  cbn [normalize List.map]. f_equal. f_equal.
  - now rewrite lower_lstrip_dot, lower_idem, lstrip_dot_idem.
  - rewrite List.map_map. apply List.map_ext. intros a.
    now rewrite lower_lstrip_dot, lower_idem, lstrip_dot_idem.
Qed.

Lemma should_skip_false self path n d :
  _should_skip self path n d = Return false ->
  _is_hidden self path = false /\ d && _is_system_dir self path = false
  /\ exists_ n = Return true.
Proof.
  unfold _should_skip. destruct (_is_hidden self path); [discriminate|].
  destruct (d && _is_system_dir self path); [discriminate|].
  destruct (exists_ n) as [[|] | err]; [auto | discriminate..].
Qed.

(** The shape of every yielded path: the root path extended by the names
    leading to a readable regular file, none of them hidden, and passing the
    filters. *)
Lemma yielded_shape self : forall root root_path ef se st p,
  In p (yielded (traverse self root_path root ef se st)) ->
  exists rel content,
    p = (root_path ++ rel)%list
    /\ entry_at root rel (RegularFile true content)
    /\ Forall (fun nm => _is_hidden self [nm] = false) rel
    /\ selected ef se p = true.
Proof.
  induction root as [r c | l es IH | e | a] using py_props.node_tree_ind;
    intros root_path ef se st p Hin;
    destruct (yielded_inv _ _ _ _ _ _ _ Hin)
      as (l0 & es0 & nm & c0 & Heq & Hes & Hskip & Hcase);
    try discriminate.
  injection Heq as <- <-.
  apply should_skip_false in Hskip as (Hhid & _ & _).
  assert (Hnm : _is_hidden self [nm] = false).
  { revert Hhid. unfold _is_hidden. now rewrite name_joinpath. }
  destruct Hcase as [(Hdir & _ & st' & Hin') | (Hfile & Hread & -> & Hef & Hse)].
  - rewrite Forall_forall in IH.
    assert (Hc0 := IH (nm, c0) ltac:(now apply list_elem_of_In)). cbn [snd] in Hc0.
    destruct (Hc0 _ _ _ _ _ Hin') as (rel & content & -> & Hat & Hvis & Hsel).
    exists (nm :: rel), content. repeat split.
    + unfold joinpath. now rewrite <- app_assoc.
    + econstructor; eassumption.
    + apply Forall_cons; split; assumption.
    + revert Hsel. unfold selected. now rewrite !normalize_idem.
  - destruct c0 as [r content | | |]; try discriminate. cbn in Hread. subst r.
    exists [nm], content. repeat split.
    + econstructor; [eassumption | constructor].
    + apply Forall_cons; split; [assumption | constructor].
    + unfold selected.
      destruct (given (normalize ef)); cbn [andb negb orb] in *.
      * apply negb_false_iff in Hef. rewrite Hef. cbn. now rewrite Hse.
      * now rewrite Hse.
Qed.

Lemma Forall_of_In {X} (P : X -> Prop) (l : list X) :
  (forall x, In x l -> P x) -> Forall P l.
Proof.
  intros H. apply Forall_forall. intros x Hx. apply H. now apply list_elem_of_In.
Qed.

(** The [files_scanned] counter grows by exactly the number of paths the
    traversal yields, whatever the tree, the settings and the outcome. *)
Theorem traverse_counts_every_yielded_file self root_path root ef se st :
  files_scanned (snd (fst (traverse self root_path root ef se st)))
  = (files_scanned st + length (yielded (traverse self root_path root ef se st)))%nat.
Proof. apply traverse_counts. Qed.

(** The traversal of a directory that can be listed, and below which the
    status of every entry can be read, runs to its end: directories below it
    that cannot be listed and files that cannot be read are counted, never
    raised, and [get_files_list] returns the yielded paths. *)
Theorem traverse_of_listable_directory_completes self root_path es ef se st :
  within_reach (Directory true es) = true ->
  snd (traverse self root_path (Directory true es) ef se st) = None
  /\ fst (get_files_list self root_path (Directory true es) ef se st)
     = Return (yielded (traverse self root_path (Directory true es) ef se st)).
Proof.
  intros Hr.
  pose proof (traverse_outcome self (Directory true es) root_path ef se st Hr) as H.
  split; [exact H|]. unfold get_files_list, yielded.
  destruct (traverse self root_path (Directory true es) ef se st) as [[ys st'] e].
  cbn [snd outcome_of] in H. subst e. reflexivity.
Qed.

Lemma traverse_of_listable_directory_completes_witness :
  within_reach guarded_tree = true
  /\ yielded (traverse (__init__ sample_config true true None)
                srv_root guarded_tree None None zero_stats)
     = [["/"; "srv"; "project"; "a.txt"]]
  /\ snd (traverse (__init__ sample_config true true None)
            srv_root guarded_tree None None zero_stats) = None.
Proof.
  split; [reflexivity|]. split; [vm_compute; reflexivity|].
  apply (traverse_of_listable_directory_completes
           (__init__ sample_config true true None) srv_root).
  reflexivity.
Defined.

(** Where an entry is out of reach the run does not complete.  The
    existence test on the entry raises; the listing of its directory counts
    the error and raises it again, the listing above counts it once more and
    goes on.  At the top level the exception ends the traversal. *)
Example traverse_of_closed_directory :
  traverse (__init__ sample_config true true None) srv_root closed_tree
    None None zero_stats
  = ([["/"; "srv"; "project"; "b.txt"]],
     {| files_scanned := 1; files_skipped := 0; dirs_scanned := 1;
        dirs_skipped := 0; permission_errors := 2 |},
     None)
  /\ traverse (__init__ sample_config true true None) srv_root
       (Directory true [("x.txt", Inaccessible false);
                        ("b.txt", RegularFile true (b "b"))])
       None None zero_stats
     = ([],
        {| files_scanned := 0; files_skipped := 0; dirs_scanned := 0;
           dirs_skipped := 0; permission_errors := 1 |},
        Some PermissionError).
Proof. split; vm_compute; reflexivity. Qed.

(** Every yielded path leads from the root to a regular file that can be
    read: directories, unreadable files and other kinds of entries are never
    yielded. *)
Theorem traverse_yields_readable_files_only self root_path root ef se st :
  Forall (fun p => exists rel content,
            p = (root_path ++ rel)%list
            /\ entry_at root rel (RegularFile true content))
         (yielded (traverse self root_path root ef se st)).
Proof.
  apply Forall_of_In. intros p Hin.
  destruct (yielded_shape self root root_path ef se st p Hin)
    as (rel & content & H1 & H2 & _).
  now exists rel, content.
Qed.

(** With [skip_hidden] set, no yielded path has a component below the root
    whose name starts with [.] or [$]; the root path itself is not
    examined. *)
Theorem traverse_skips_hidden_entries cfg skip_system max_depth root_path root ef se st :
  Forall (fun p => exists rel,
            p = (root_path ++ rel)%list
            /\ Forall (fun nm => hidden_name nm = false) rel)
         (yielded (traverse (__init__ cfg true skip_system max_depth)
                     root_path root ef se st)).
Proof.
  apply Forall_of_In. intros p Hin.
  destruct (yielded_shape _ root root_path ef se st p Hin)
    as (rel & content & H1 & _ & H3 & _).
  exists rel. split; [exact H1|].
  eapply Forall_impl; [exact H3|]. intros nm. cbn beta.
  unfold _is_hidden, hidden_name. cbn. now rewrite orb_false_r.
Qed.

(** Every yielded path passes both extension filters, compared without
    regard to letter case or leading dots: its extension is among
    [extensions_filter] when that list is not empty, and not among
    [skip_extensions]. *)
Theorem traverse_honours_extension_filters self root_path root ef se st :
  Forall (fun p => selected ef se p = true)
         (yielded (traverse self root_path root ef se st)).
Proof.
  apply Forall_of_In. intros p Hin.
  destruct (yielded_shape self root root_path ef se st p Hin)
    as (rel & content & _ & _ & _ & H4).
  exact H4.
Qed.

Lemma is_system_dir_joinpath self root_path nm :
  _is_system_dir self root_path = true ->
  _is_system_dir self (joinpath root_path nm) = true.
Proof.
  unfold _is_system_dir, joinpath. destruct (negb (skip_system self)); [discriminate|].
  rewrite existsb_app. now intros ->.
Qed.

(** When a component of the root path itself bears the name of a system
    directory, every directory below the root is skipped: only files that
    are entries of the root are yielded. *)
Theorem traverse_below_a_system_directory self root_path root ef se st :
  _is_system_dir self root_path = true ->
  Forall (fun p => depth_below root_path p = 1%Z)
         (yielded (traverse self root_path root ef se st)).
Proof.
  intros Hsys. apply Forall_of_In. intros p Hin.
  destruct (yielded_inv _ _ _ _ _ _ _ Hin) as (l & es & nm & c & _ & _ & Hskip & Hcase).
  destruct Hcase as [(Hdir & _) | (_ & _ & -> & _)].
  - apply should_skip_false in Hskip as (_ & Hs & _).
    rewrite Hdir, (is_system_dir_joinpath _ _ nm Hsys) in Hs. discriminate.
  - apply depth_below_child.
Qed.

Lemma traverse_below_a_system_directory_witness :
  _is_system_dir (__init__ sample_config true true None) work_root = true
  /\ yielded (traverse (__init__ sample_config true true None)
                work_root work_tree None None zero_stats)
     = [["/"; "home"; "user"; "dev"; "build.log"]]
  /\ Forall (fun p => depth_below work_root p = 1%Z)
       (yielded (traverse (__init__ sample_config true true None)
                   work_root work_tree None None zero_stats)).
Proof.
  split; [reflexivity|]. split; [vm_compute; reflexivity|].
  apply (traverse_below_a_system_directory (__init__ sample_config true true None)).
  reflexivity.
Defined.

End file_traversal_props.

(** ** Thread manager *)
Module multithreading_props.
Import py config multithreading samples notions.

Lemma or_int_nonzero (t d : Z) : t <> 0%Z -> or_int (Some t) d = t.
Proof. intros H. unfold or_int. destruct (Z.eqb_spec t 0); congruence. Qed.

(** Claim C8, as stated, fails for a request of [0]: the pool gets the
    clamped default (4 here), where clamping the request itself gives the
    minimum (1). *)
Lemma pool_size_for_zero_request :
  max_workers (__init__ sample_config (Some 0%Z)) = 4%Z
  /\ Z.max (MIN_THREADS sample_config) (Z.min 0 (MAX_THREADS sample_config)) = 1%Z.
Proof. split; reflexivity. Qed.

(** Claim C8, amended.  For every requested thread count other than [0] the
    pool size is [max(MIN_THREADS, min(T, MAX_THREADS))]; a request of [0],
    like an omitted one, is replaced by [DEFAULT_THREADS] before the clamp. *)
Theorem effective_pool_size (cfg : HEXAVGConfig) (t : Z) :
  t <> 0%Z ->
  max_workers (__init__ cfg (Some t))
    = Z.max (MIN_THREADS cfg) (Z.min t (MAX_THREADS cfg))
  /\ max_workers (__init__ cfg (Some 0%Z))
       = Z.max (MIN_THREADS cfg) (Z.min (DEFAULT_THREADS cfg) (MAX_THREADS cfg))
  /\ max_workers (__init__ cfg None)
       = Z.max (MIN_THREADS cfg) (Z.min (DEFAULT_THREADS cfg) (MAX_THREADS cfg)).
Proof.
  intros Ht. repeat split.
  unfold __init__. cbn [max_workers]. now rewrite or_int_nonzero.
Qed.

Lemma effective_pool_size_witness :
  64%Z <> 0%Z
  /\ max_workers (__init__ sample_config (Some 64%Z)) = 32%Z.
Proof.
  split; [lia|].
  rewrite (proj1 (effective_pool_size sample_config 64%Z ltac:(lia))). reflexivity.
Defined.

(** Whatever is requested, the pool size lies within the configured bounds
    (when these are ordered). *)
Theorem pool_size_within_bounds (cfg : HEXAVGConfig) (t : option Z) :
  (MIN_THREADS cfg <= MAX_THREADS cfg)%Z ->
  (MIN_THREADS cfg <= max_workers (__init__ cfg t) <= MAX_THREADS cfg)%Z.
Proof. intros H. unfold __init__. cbn [max_workers]. lia. Qed.

Lemma pool_size_within_bounds_witness :
  (MIN_THREADS sample_config <= MAX_THREADS sample_config)%Z
  /\ (1 <= max_workers (__init__ sample_config (Some (-3)%Z)) <= 32)%Z.
Proof.
  split; [cbn; lia|].
  apply (pool_size_within_bounds sample_config (Some (-3)%Z)). cbn. lia.
Defined.

Lemma collect_length scan_func cb total completed results scanned st :
  quiet cb ->
  length (fst (collect scan_func cb total completed results scanned st))
  = (length results + length completed)%nat.
Proof.
  intros Hq. revert results scanned st.
  induction completed as [| p rest IH]; intros results scanned st; cbn [collect].
  - cbn. lia.
  - destruct (scan_func p) as [r|e].
    + destruct cb as [f|]; [rewrite (Hq (S scanned) total p)|];
        rewrite IH, length_app; cbn [length]; lia.
    + rewrite IH, length_app. cbn [length]. lia.
Qed.


Lemma collect_keeps scan_func cb total completed results scanned st d :
  In d results ->
  In d (fst (collect scan_func cb total completed results scanned st)).
Proof.
  revert results scanned st.
  induction completed as [| p rest IH]; intros results scanned st Hin; cbn [collect].
  - exact Hin.
  - destruct (scan_func p) as [r|e].
    + destruct cb as [f|]; [destruct (f (S scanned) total p)|];
        apply IH; rewrite ?in_app_iff; auto.
    + apply IH. rewrite in_app_iff. auto.
Qed.

Lemma collect_error scan_func cb total completed results scanned st p e :
  In p completed -> scan_func p = Raise e ->
  In (error_result p e) (fst (collect scan_func cb total completed results scanned st)).
Proof.
  revert results scanned st.
  induction completed as [| q rest IH]; intros results scanned st Hin Hp; [destruct Hin|].
  cbn [collect]. destruct Hin as [-> | Hin].
  - rewrite Hp. apply collect_keeps. rewrite in_app_iff. simpl. auto.
  - destruct (scan_func q) as [r|e'].
    + destruct cb as [f|]; [destruct (f (S scanned) total q)|]; now apply IH.
    + now apply IH.
Qed.

Lemma collect_returned scan_func cb total completed results scanned st p r :
  In p completed -> scan_func p = Return r ->
  In r (fst (collect scan_func cb total completed results scanned st)).
Proof.
  revert results scanned st.
  induction completed as [| q rest IH]; intros results scanned st Hin Hp; [destruct Hin|].
  cbn [collect]. destruct Hin as [-> | Hin].
  - rewrite Hp. destruct cb as [f|]; [destruct (f (S scanned) total p)|];
      apply collect_keeps; rewrite ?in_app_iff; simpl; auto.
  - destruct (scan_func q) as [r'|e'].
    + destruct cb as [f|]; [destruct (f (S scanned) total q)|]; now apply IH.
    + now apply IH.
Qed.

Lemma scan_files_results self file_paths scan_func cb completion :
  fst (scan_files self file_paths scan_func cb completion)
  = fst (collect scan_func cb (length file_paths) completion [] 0
           (set_total (length file_paths) (stats self))).
Proof.
  unfold scan_files.
  destruct (collect scan_func cb (length file_paths) completion [] 0
              (set_total (length file_paths) (stats self))); reflexivity.
Qed.

(** Whatever the order of completion, [scan_files] returns one result per
    submitted path (the progress callback not raising): the synthetic
    [error] result for a path whose task raised, the task's own result
    otherwise. *)
Theorem scan_files_one_result_per_path self file_paths scan_func cb completion :
  Permutation file_paths completion -> quiet cb ->
  length (fst (scan_files self file_paths scan_func cb completion)) = length file_paths
  /\ (forall p e, In p file_paths -> scan_func p = Raise e ->
        In (error_result p e) (fst (scan_files self file_paths scan_func cb completion)))
  /\ (forall p r, In p file_paths -> scan_func p = Return r ->
        In r (fst (scan_files self file_paths scan_func cb completion))).
Proof.
  intros Hperm Hq. rewrite scan_files_results. repeat split.
  - rewrite collect_length by exact Hq. cbn [length].
    symmetry. now apply Permutation_length.
  - intros p e Hin Hp. apply collect_error; [|exact Hp].
    exact (Permutation_in _ Hperm Hin).
  - intros p r Hin Hp. apply collect_returned with (p := p); [|exact Hp].
    exact (Permutation_in _ Hperm Hin).
Qed.

Lemma scan_files_one_result_per_path_witness :
  Permutation [path_a; path_b] [path_b; path_a]
  /\ quiet None
  /\ length (fst (scan_files (__init__ sample_config None) [path_a; path_b]
                    failing_scan None [path_b; path_a])) = 2%nat.
Proof.
  split; [apply perm_swap|]. split; [exact I|].
  apply (scan_files_one_result_per_path (__init__ sample_config None)
           [path_a; path_b] failing_scan None [path_b; path_a]);
    [apply perm_swap | exact I].
Defined.

(** *** Batches *)

Lemma gather_spec {A B} (func : A -> result B) completed : forall results st,
  fst (gather func completed results st)
    = (results ++ List.map (attempt func) completed)%list
  /\ finished (snd (gather func completed results st))
     = (finished st + length completed)%nat.
Proof.
  induction completed as [| x rest IH]; intros results st; cbn [gather List.map].
  - cbn. rewrite app_nil_r. split; [reflexivity | lia].
  - unfold attempt at 1. destruct (func x) as [r|e].
    + destruct (IH (results ++ [Some r])%list (inc_completed st)) as [E1 E2].
      rewrite E1, E2, <- app_assoc. split; [reflexivity|]. unfold finished. cbn. lia.
    + destruct (IH (results ++ [None])%list (inc_failed st)) as [E1 E2].
      rewrite E1, E2, <- app_assoc. split; [reflexivity|]. unfold finished. cbn. lia.
Qed.

(** [map_tasks] returns the outcomes in the order of completion. *)
Lemma map_tasks_spec {A B} self (func : A -> result B) items completion :
  fst (map_tasks self func items completion) = List.map (attempt func) completion
  /\ finished (stats (snd (map_tasks self func items completion)))
     = (finished (stats self) + length completion)%nat.
Proof.
  unfold map_tasks.
  destruct (gather_spec func completion [] (set_total (length items) (stats self)))
    as [E1 E2].
  destruct (gather func completion [] (set_total (length items) (stats self)))
    as [results st]. cbn [fst snd stats] in *. split; [exact E1|].
  rewrite E2. reflexivity.
Qed.

Lemma batch_loop_spec {A B} (func : A -> result B) items total bs cb order :
  still cb -> (forall l, Permutation (order l) l) ->
  forall offsets results processed self,
  exists rs,
    fst (batch_loop func items total bs cb order offsets results processed self)
      = Return (results ++ rs)%list
    /\ Permutation rs
         (List.map (attempt func) (List.flat_map (fun i => slice items i (i + bs)) offsets))
    /\ finished (stats (snd (batch_loop func items total bs cb order offsets
                                results processed self)))
       = (finished (stats self)
          + length (List.flat_map (fun i => slice items i (i + bs)) offsets))%nat.
Proof.
  intros Hcb Hperm.
  induction offsets as [| i rest IH]; intros results processed self;
    cbn [batch_loop List.flat_map].
  - exists []. rewrite app_nil_r. cbn. repeat split; [constructor | lia].
  - set (batch := slice items i (i + bs)).
    destruct (map_tasks_spec self func batch (order batch)) as [M1 M2].
    destruct (map_tasks self func batch (order batch)) as [brs self1].
    cbn [fst snd] in M1, M2.
    set (results1 := (results ++ brs)%list).
    set (processed1 := (processed + length batch)%nat).
    assert (Hgo : exists rs,
      fst (batch_loop func items total bs cb order rest results1 processed1 self1)
        = Return (results ++ rs)%list
      /\ Permutation rs
           (List.map (attempt func)
              (batch ++ List.flat_map (fun i => slice items i (i + bs)) rest))
      /\ finished (stats (snd (batch_loop func items total bs cb order rest
                                  results1 processed1 self1)))
         = (finished (stats self)
            + length (batch ++ List.flat_map (fun i => slice items i (i + bs)) rest))%nat).
    { destruct (IH results1 processed1 self1) as (rs & E1 & E2 & E3).
      exists (brs ++ rs)%list. split; [|split].
      - rewrite E1. subst results1. now rewrite app_assoc.
      - rewrite List.map_app. apply Permutation_app; [|exact E2].
        rewrite M1. apply Permutation_map, Hperm.
      - rewrite E3, M2, length_app.
        rewrite (Permutation_length (Hperm batch)). lia. }
    destruct cb as [f|]; [rewrite (Hcb processed1 total)|]; exact Hgo.
Qed.

Lemma firstn_then_next {A} (l : list A) a b0 :
  (firstn a l ++ firstn b0 (skipn a l))%list = firstn (a + b0) l.
Proof.
  revert l. induction a as [| a IH]; intros l; [reflexivity|].
  destruct l as [| x l]; cbn; [now rewrite firstn_nil | now rewrite IH].
Qed.

Lemma chunks_prefix {A} (items : list A) (bs : Z) (K : nat) :
  (0 < bs)%Z ->
  List.flat_map (fun i => slice items i (i + bs))
    (List.map (fun k => (0 + Z.of_nat k * bs)%Z) (seq 0 K))
  = firstn (K * Z.to_nat bs) items.
Proof.
  intros Hbs. induction K as [| K IH]; [reflexivity|].
  rewrite seq_S, List.map_app, List.flat_map_app, IH. cbn [List.map List.flat_map plus].
  rewrite app_nil_r. unfold slice.
  replace (Z.to_nat (0 + Z.of_nat K * bs + bs - (0 + Z.of_nat K * bs))) with (Z.to_nat bs)
    by (f_equal; lia).
  replace (Z.to_nat (0 + Z.of_nat K * bs)) with (K * Z.to_nat bs)%nat by nia.
  rewrite firstn_then_next. f_equal. lia.
Qed.

(** The batches cut out of the list cover it, in order. *)
Lemma chunks_cover {A} (items : list A) (bs : Z) offsets :
  (0 < bs)%Z ->
  range 0 (Z.of_nat (length items)) bs = Return offsets ->
  List.flat_map (fun i => slice items i (i + bs)) offsets = items.
Proof.
  intros Hbs. unfold range.
  destruct (Z.eqb_spec bs 0); [lia|].
  destruct (Z.ltb_spec 0 bs); [|lia].
  intros Hr. injection Hr as <-.
  rewrite chunks_prefix by exact Hbs.
  apply firstn_all2.
  set (len := Z.of_nat (length items)).
  assert (len <= (len - 0 + bs - 1) / bs * bs)%Z.
  { pose proof (Z.div_mod (len - 0 + bs - 1) bs ltac:(lia)).
    pose proof (Z.mod_pos_bound (len - 0 + bs - 1) bs Hbs). nia. }
  assert (0 <= (len - 0 + bs - 1) / bs)%Z by (apply Z.div_pos; lia).
  nia.
Qed.

(** With a positive batch size (and a callback that does not raise),
    [batch_process] returns one outcome per item, the result of the task or
    [None] where it raised, whatever the order in which the tasks of a batch
    finish; every item is accounted for as completed or failed. *)
Theorem batch_process_one_outcome_per_item {A B} (self : ThreadManager)
    (func : A -> result B) (items : list A) (batch_size : Z)
    (callback : option (nat -> nat -> option exn)) (completion_order : list A -> list A) :
  (0 < batch_size)%Z -> still callback ->
  (forall batch, Permutation (completion_order batch) batch) ->
  exists results,
    fst (batch_process self func items batch_size callback completion_order)
      = Return results
    /\ Permutation results (List.map (attempt func) items)
    /\ length results = length items
    /\ finished (stats (snd (batch_process self func items batch_size callback
                                completion_order)))
       = (finished (stats self) + length items)%nat.
Proof.
  intros Hbs Hcb Hperm. unfold batch_process.
  destruct (range 0 (Z.of_nat (length items)) batch_size) as [offsets|e] eqn:R.
  2:{ unfold range in R. destruct (Z.eqb_spec batch_size 0); [lia | discriminate]. }
  destruct (batch_loop_spec func items (length items) batch_size callback
              completion_order Hcb Hperm offsets [] 0%nat self) as (rs & E1 & E2 & E3).
  rewrite (chunks_cover items batch_size offsets Hbs R) in E2, E3.
  exists rs. split; [exact E1|]. split; [exact E2|]. split; [|exact E3].
  rewrite (Permutation_length E2). apply length_map.
Qed.

Lemma batch_process_one_outcome_per_item_witness :
  (0 < 2)%Z /\ still None
  /\ (forall batch : list Z, Permutation (rev batch) batch)
  /\ fst (batch_process (__init__ sample_config None) flaky [1; 2; 3; 4; 5]%Z 2 None
            (@rev Z))
     = Return [Some 4; Some 2; Some 8; None; Some 10]%Z
  /\ exists results,
       fst (batch_process (__init__ sample_config None) flaky [1; 2; 3; 4; 5]%Z 2 None
              (@rev Z)) = Return results
       /\ length results = 5%nat.
Proof.
  assert (Hrev : forall batch : list Z, Permutation (rev batch) batch)
    by (intros batch; symmetry; apply Permutation_rev).
  split; [lia|]. split; [exact I|]. split; [exact Hrev|].
  split; [vm_compute; reflexivity|].
  destruct (batch_process_one_outcome_per_item (__init__ sample_config None) flaky
              [1; 2; 3; 4; 5]%Z 2 None (@rev Z) ltac:(lia) I Hrev)
    as (results & E & _ & L & _).
  exists results. split; [exact E | exact L].
Defined.

(** Without a positive batch size nothing is processed: a batch size of
    zero raises [ValueError], a negative one returns an empty list, however
    many items were passed; the statistics are left untouched. *)
Theorem batch_process_without_positive_batch_size {A B} (self : ThreadManager)
    (func : A -> result B) (items : list A) (batch_size : Z)
    (callback : option (nat -> nat -> option exn)) (completion_order : list A -> list A) :
  (batch_size <= 0)%Z ->
  batch_process self func items batch_size callback completion_order
  = (if (batch_size =? 0)%Z
     then Raise (ValueError "range() arg 3 must not be zero")
     else Return [], self).
Proof.
  intros Hbs. unfold batch_process, range.
  destruct (Z.eqb_spec batch_size 0); [reflexivity|].
  destruct (Z.ltb_spec 0 batch_size); [lia|].
  replace (Z.to_nat ((0 - Z.of_nat (length items) - batch_size - 1) / - batch_size))
    with 0%nat; [reflexivity|].
  assert ((0 - Z.of_nat (length items) - batch_size - 1) / - batch_size < 1)%Z.
  { apply Z.div_lt_upper_bound; lia. }
  lia.
Qed.

Lemma batch_process_without_positive_batch_size_witness :
  (-2 <= 0)%Z
  /\ batch_process (__init__ sample_config None) flaky [1; 2; 3]%Z (-2) None (fun l => l)
     = (Return [], __init__ sample_config None).
Proof.
  split; [lia|].
  apply (batch_process_without_positive_batch_size (__init__ sample_config None) flaky
           [1; 2; 3]%Z (-2) None (fun l => l)). lia.
Defined.

End multithreading_props.

(** ** File hasher *)
Module hasher_props.
Import py config hasher samples notions.

Lemma is_hex_plain c : is_hex c = true -> lower_ascii c = c /\ is_space c = false.
Proof. destruct c as [[] [] [] [] [] [] [] []]; cbn; intros H; try discriminate; auto. Qed.

Lemma hex_digest_lower d : hex_digest d = true -> lower d = d.
Proof.
  induction d as [| c d IH]; [reflexivity|]. cbn. intros H.
  apply andb_true_iff in H as [Hc Hd].
  now rewrite (proj1 (is_hex_plain c Hc)), IH.
Qed.

Lemma hex_digest_rstrip d : hex_digest d = true -> rstrip d = d.
Proof.
  induction d as [| c d IH]; [reflexivity|]. cbn. intros H.
  apply andb_true_iff in H as [Hc Hd].
  rewrite (IH Hd). destruct d; [|reflexivity].
  now rewrite (proj2 (is_hex_plain c Hc)).
Qed.

(** Normalising a digest of the library changes nothing. *)
Lemma hex_digest_strip d : hex_digest d = true -> strip d = d.
Proof.
  intros H. unfold strip.
  replace (lstrip d) with d; [now apply hex_digest_rstrip|].
  destruct d as [| c d]; [reflexivity|]. cbn in *.
  apply andb_true_iff in H as [Hc _]. now rewrite (proj2 (is_hex_plain c Hc)).
Qed.

Section FileHasher.

Variable hashlib_new : string -> option (list Byte.byte -> string).

Lemma hash_file_single_readable cfg p content algorithm h :
  hashlib_new algorithm = Some h ->
  hash_file_single hashlib_new cfg p (RegularFile true content) algorithm
  = Return (h content).
Proof.
  intros Hh. unfold hash_file_single, hash_file. cbn. rewrite Hh. cbn.
  unfold digest_of. cbn. now rewrite String.eqb_refl.
Qed.

(** For a readable file and an algorithm the library knows, whose digest
    has the length the table expects, [verify_file_integrity] answers [True]
    exactly when the expected hash is the digest of the content, letter case
    and surrounding whitespace aside. *)
Theorem verify_file_integrity_accepts_the_digest cfg p content expected algorithm h :
  hashlib_new algorithm = Some h ->
  hex_digest (h content) = true ->
  (forall len, expected_lengths algorithm = Some len -> String.length (h content) = len) ->
  verify_file_integrity hashlib_new cfg p (RegularFile true content) expected algorithm
    = true
  <-> strip (lower expected) = h content.
Proof.
  intros Hh Hhex Hlen. unfold verify_file_integrity.
  rewrite (hash_file_single_readable _ _ _ _ _ Hh). unfold compare_hashes.
  rewrite (hex_digest_lower _ Hhex), (hex_digest_strip _ Hhex).
  destruct (expected_lengths algorithm) as [len|] eqn:E.
  - rewrite (Hlen len eq_refl), Nat.eqb_refl. cbn [negb orb].
    destruct (Nat.eqb_spec (String.length (strip (lower expected))) len) as [El | Nl];
      cbn [negb].
    + rewrite String.eqb_eq. split; congruence.
    + split; [discriminate|]. intros Heq. rewrite Heq in Nl.
      now rewrite (Hlen len eq_refl) in Nl.
  - rewrite String.eqb_eq. split; congruence.
Qed.

End FileHasher.

Lemma verify_file_integrity_accepts_the_digest_witness :
  md5_only "md5" = Some (fun _ => "d41d8cd98f00b204e9800998ecf8427e")
  /\ hex_digest "d41d8cd98f00b204e9800998ecf8427e" = true
  /\ strip (lower "  D41D8CD98F00B204E9800998ECF8427E ") = "d41d8cd98f00b204e9800998ecf8427e"
  /\ verify_file_integrity md5_only sample_config notes (RegularFile true [])
       "  D41D8CD98F00B204E9800998ECF8427E " "md5" = true.
Proof.
  split; [reflexivity|]. split; [reflexivity|]. split; [reflexivity|].
  apply (verify_file_integrity_accepts_the_digest md5_only sample_config notes []
           "  D41D8CD98F00B204E9800998ECF8427E " "md5"
           (fun _ => "d41d8cd98f00b204e9800998ecf8427e")).
  - reflexivity.
  - reflexivity.
  - intros len H. injection H as <-. reflexivity.
  - reflexivity.
Defined.

End hasher_props.

(** ** Scan orchestrator *)
Module scanner_props.
Import py config scanner samples notions.

Lemma error_result_has_no_threats p e :
  getitem (multithreading.error_result p e) "threats" = Raise (KeyError "threats").
Proof. reflexivity. Qed.

Lemma error_result_status p e :
  getitem (multithreading.error_result p e) "status" = Return (VStr "error").
Proof. reflexivity. Qed.


(** The loop raises whenever a synthetic error result is among the results. *)
Lemma process_results_raises_on_error_result results p e st :
  In (multithreading.error_result p e) results ->
  exists err, snd (_process_scan_results results st) = Some err.
Proof.
  revert st. induction results as [| r rest IH]; intros st Hin; [destruct Hin|].
  cbn [_process_scan_results].
  destruct Hin as [-> | Hin].
  - rewrite error_result_status, error_result_has_no_threats. eauto.
  - destruct (getitem r "status") as [s|err]; [|eauto].
    destruct (getitem r "threats") as [ts|err]; [|eauto].
    now apply IH.
Qed.

(** On results that all carry [status] and [threats] the loop runs to its
    end, counts every result as scanned and every [skipped] or [error]
    result as skipped. *)
Theorem process_results_counts_skipped results st :
  Forall well_formed results ->
  snd (_process_scan_results results st) = None
  /\ files_skipped (fst (_process_scan_results results st))
     = (files_skipped st + length (List.filter counts_as_skipped results))%nat
  /\ files_scanned (fst (_process_scan_results results st))
     = (files_scanned st + length results)%nat.
Proof.
  intros H. revert st. induction H as [| r rest [[s Hs] [t Ht]] _ IH]; intros st.
  - cbn. repeat split; lia.
  - cbn [_process_scan_results List.filter]. unfold getitem.
    replace (counts_as_skipped r) with (eq_str s "skipped" || eq_str s "error")
      by (unfold counts_as_skipped; now rewrite Hs).
    rewrite Hs, Ht.
    set (st1 := if eq_str s "skipped" || eq_str s "error"
                then inc_files_skipped (inc_files_scanned st)
                else inc_files_scanned st).
    set (st2 := if truthy t then add_threat r st1 else st1).
    destruct (IH st2) as (E1 & E2 & E3).
    assert (files_skipped st2
            = (files_skipped st
               + if eq_str s "skipped" || eq_str s "error" then 1 else 0)%nat
            /\ files_scanned st2 = S (files_scanned st)) as [F1 F2].
    { subst st2 st1. destruct (truthy t), (eq_str s "skipped" || eq_str s "error");
        cbn; split; lia. }
    repeat split; [exact E1 | rewrite E2, F1 | rewrite E3, F2].
    + destruct (eq_str s "skipped" || eq_str s "error"); cbn [length]; lia.
    + cbn [length]. lia.
Qed.

Lemma process_results_counts_skipped_witness :
  Forall well_formed
    [ ({[ "status" := VStr "skipped"; "threats" := VList [] ]} : gmap string value);
      ({[ "status" := VStr "clean"; "threats" := VList [] ]} : gmap string value) ]
  /\ files_skipped
       (fst (_process_scan_results
               [ ({[ "status" := VStr "skipped"; "threats" := VList [] ]}
                  : gmap string value);
                 ({[ "status" := VStr "clean"; "threats" := VList [] ]}
                  : gmap string value) ]
               zero_stats)) = 1%nat.
Proof.
  assert (H : Forall well_formed
    [ ({[ "status" := VStr "skipped"; "threats" := VList [] ]} : gmap string value);
      ({[ "status" := VStr "clean"; "threats" := VList [] ]} : gmap string value) ]).
  { repeat (apply Forall_cons; split); try (split; eexists; reflexivity). constructor. }
  split; [exact H|].
  rewrite (proj1 (proj2 (process_results_counts_skipped _ zero_stats H))). reflexivity.
Defined.

Section Scan.

Variable cfg : HEXAVGConfig.
Variable hashlib_new : string -> option (list Byte.byte -> string).
Variable fs : node.
Variable now : string.
Variable completion_order : list Path -> list Path.

(** With no detector assigned, [_scan_file] reports no threat. *)
Lemma scan_file_no_detectors self file_path :
  signature_detector self = None -> heuristic_detector self = None ->
  yara_detector self = None ->
  _scan_file cfg hashlib_new fs now self file_path !! "threats" = Some (VList []).
Proof.
  intros Hs Hh Hy. unfold _scan_file.
  destruct (st_size (lookup fs file_path)) as [sz|e]; [|reflexivity].
  destruct (MAX_SCAN_FILE_SIZE cfg <? sz)%Z; [reflexivity|].
  destruct (hasher.hash_file hashlib_new cfg file_path (lookup fs file_path) None)
    as [hs|e]; [|reflexivity].
  unfold signature_step, heuristic_step, yara_step. rewrite Hs, Hh, Hy.
  destruct (enable_heuristics self), (enable_yara self); reflexivity.
Qed.

Lemma process_no_threats results st :
  Forall no_threats results ->
  threats_found (fst (_process_scan_results results st)) = threats_found st.
Proof.
  intros H. revert st. induction H as [| r rest Hr _ IH]; intros st; [reflexivity|].
  cbn [_process_scan_results].
  destruct (getitem r "status") as [s|e]; [|reflexivity].
  unfold getitem. destruct Hr as [-> | ->].
  - cbn [truthy]. rewrite IH.
    destruct (eq_str s "skipped" || eq_str s "error"); reflexivity.
  - cbn [fst]. destruct (eq_str s "skipped" || eq_str s "error"); reflexivity.
Qed.

Lemma collect_no_threats scan_func cb total completed results scanned st :
  (forall p r, scan_func p = Return r -> no_threats r) ->
  Forall no_threats results ->
  Forall no_threats
    (fst (multithreading.collect scan_func cb total completed results scanned st)).
Proof.
  intros Hf. revert results scanned st.
  assert (Herr : forall p e, no_threats (multithreading.error_result p e))
    by (intros; now right).
  induction completed as [| p rest IH]; intros results scanned st Hall; [exact Hall|].
  cbn [multithreading.collect].
  destruct (scan_func p) as [r|e] eqn:E.
  - assert (Hr : Forall no_threats (results ++ [r])).
    { apply Forall_app; split; [exact Hall |].
      apply Forall_cons; split; [eapply Hf, E | constructor]. }
    destruct cb as [f|]; [destruct (f (S scanned) total p)|]; apply IH; try exact Hr.
    apply Forall_app; split; [exact Hr |].
    apply Forall_cons; split; [apply Herr | constructor].
  - apply IH. apply Forall_app; split; [exact Hall |].
    apply Forall_cons; split; [apply Herr | constructor].
Qed.

(** A scanner whose detector slots are empty, which is how [__init__]
    leaves them, never adds to [threats_found]. *)
Theorem scan_without_detectors self scan_path quick cb st :
  signature_detector self = None -> heuristic_detector self = None ->
  yara_detector self = None ->
  fst (scan cfg hashlib_new fs now completion_order self scan_path quick cb) = Return st ->
  threats_found st = threats_found (scan_stats self).
Proof.
  intros Hs Hh Hy. unfold scan.
  destruct (exists_ (lookup fs scan_path)) as [[|] | err]; [| discriminate..].
  destruct (file_traversal.get_files_list _ _ _ _ _ _) as [[paths|e] ts]; [|discriminate].
  set (self1 := set_traversal_stats self ts).
  set (sf := multithreading.scan_files _ _ _ _ _).
  assert (Hres : Forall no_threats (fst sf)).
  { subst sf. unfold multithreading.scan_files.
    destruct (multithreading.collect _ _ _ _ _ _ _) as [rs st2] eqn:C.
    cbn [fst]. change rs with (fst (rs, st2)). rewrite <- C.
    apply collect_no_threats; [|constructor].
    intros p r Hr. injection Hr as <-. left. apply scan_file_no_detectors; assumption. }
  destruct sf as [results tm]. cbn [fst] in Hres.
  pose proof (process_no_threats results (scan_stats (set_thread_manager self1 tm)) Hres)
    as HP.
  destruct (_process_scan_results results (scan_stats (set_thread_manager self1 tm)))
    as [st' e].
  destruct e; [discriminate|]. cbn [fst]. intros H; injection H as <-.
  exact HP.
Qed.

End Scan.

Lemma scan_without_detectors_witness :
  fst (scan sample_config sample_hashlib home_tree "2024-01-01T00:00:00" (fun l => l)
         (__init__ sample_config None true false) ["/"; "home"; "user"] false None)
    = Return {| files_scanned := 1; files_skipped := 0; threats_found := 0;
                threats := [] |}
  /\ threats_found {| files_scanned := 1; files_skipped := 0; threats_found := 0;
                      threats := [] |} = 0%nat.
Proof.
  assert (H : fst (scan sample_config sample_hashlib home_tree "2024-01-01T00:00:00"
                     (fun l => l) (__init__ sample_config None true false)
                     ["/"; "home"; "user"] false None)
              = Return {| files_scanned := 1; files_skipped := 0; threats_found := 0;
                          threats := [] |})
    by (vm_compute; reflexivity).
  split; [exact H|].
  exact (scan_without_detectors sample_config sample_hashlib home_tree
           "2024-01-01T00:00:00" (fun l => l) (__init__ sample_config None true false)
           ["/"; "home"; "user"] false None _ eq_refl eq_refl eq_refl H).
Defined.

(** The same abort is reachable through [scan] itself: a progress callback
    that raises makes [scan_files] add a synthetic error result, and the
    scan of a clean directory ends with [KeyError]. *)
Example scan_aborts_when_progress_callback_raises :
  fst (scan sample_config sample_hashlib home_tree "2024-01-01T00:00:00" (fun l => l)
         (__init__ sample_config None true false) ["/"; "home"; "user"] false
         (Some (fun _ _ _ => Some (Exception "display closed"))))
  = Raise (KeyError "threats").
Proof. vm_compute. reflexivity. Qed.

(** *** What a scan returns *)

Lemma well_formed_insert (r : gmap string value) k v :
  well_formed r -> well_formed (<[k := v]> r).
Proof.
  intros [[s Hs] [t Ht]]. split.
  - destruct (decide (k = "status")) as [-> | Hne];
      [rewrite lookup_insert_eq | rewrite lookup_insert_ne by exact Hne]; eauto.
  - destruct (decide (k = "threats")) as [-> | Hne];
      [rewrite lookup_insert_eq | rewrite lookup_insert_ne by exact Hne]; eauto.
Qed.

Lemma well_formed_extend r xs : well_formed r -> well_formed (extend_threats r xs).
Proof.
  intros H. unfold extend_threats.
  destruct (r !! "threats") as [[]|]; try exact H. now apply well_formed_insert.
Qed.

Lemma well_formed_failed r e : well_formed r -> well_formed (failed r e).
Proof. intros H. unfold failed. now do 2 apply well_formed_insert. Qed.

Lemma signature_step_well_formed self p hashes r :
  well_formed r -> well_formed (fst (signature_step self p hashes r)).
Proof.
  intros H. unfold signature_step.
  destruct (signature_detector self) as [det|]; [|exact H].
  destruct (getitem (det p hashes) "detected") as [d|e]; [|exact H].
  destruct (truthy d); [|exact H].
  destruct (getitem (det p hashes) "name") as [nm|e];
    destruct (getitem (det p hashes) "severity") as [sv|e'];
    cbn [fst]; try (now apply well_formed_insert).
  now apply well_formed_extend, well_formed_insert.
Qed.

Lemma heuristic_step_well_formed self p sz r :
  well_formed r -> well_formed (fst (heuristic_step self p sz r)).
Proof.
  intros H. unfold heuristic_step.
  destruct (enable_heuristics self); [|exact H].
  destruct (heuristic_detector self) as [an|]; [|exact H].
  destruct (an p sz) as [hr|e]; [|exact H].
  destruct (getitem hr "suspicious") as [s|e]; [|exact H].
  destruct (truthy s); [|exact H].
  destruct (getitem hr "threats") as [[]|e]; cbn [fst];
    try (now apply well_formed_insert).
  now apply well_formed_extend, well_formed_insert.
Qed.

Lemma yara_threats_well_formed ms : forall r,
  well_formed r -> well_formed (fst (yara_threats ms r)).
Proof.
  induction ms as [| m ms IH]; intros r H; [exact H|].
  cbn [yara_threats]. destruct m; try exact H.
  destruct (getitem d "rule"); [|exact H].
  now apply IH, well_formed_extend.
Qed.

Lemma yara_step_well_formed self p r :
  well_formed r -> well_formed (fst (yara_step self p r)).
Proof.
  intros H. unfold yara_step.
  destruct (enable_yara self); [|exact H].
  destruct (yara_detector self) as [sc|]; [|exact H].
  destruct (sc p) as [yr|e]; [|exact H].
  destruct (getitem yr "matches") as [m|e]; [|exact H].
  destruct (truthy m); [|exact H].
  destruct m; cbn [fst]; try (now apply well_formed_insert).
  now apply yara_threats_well_formed, well_formed_insert.
Qed.

Lemma collect_well_formed scan_func cb total completed : forall results scanned st,
  quiet cb ->
  (forall p, exists r, scan_func p = Return r /\ well_formed r) ->
  Forall well_formed results ->
  Forall well_formed
    (fst (multithreading.collect scan_func cb total completed results scanned st)).
Proof.
  induction completed as [| p rest IH]; intros results scanned st Hq Hf Hall; [exact Hall|].
  cbn [multithreading.collect].
  destruct (Hf p) as (r & -> & Hr).
  assert (Forall well_formed (results ++ [r])).
  { apply Forall_app; split; [exact Hall|]. apply Forall_cons; split; [exact Hr | constructor]. }
  destruct cb as [f|]; [rewrite (Hq (S scanned) total p)|]; now apply IH.
Qed.

(** The statistics loop on results that all carry [status] and [threats]:
    no exception, every result counted, and as many entries added to
    [threats] as [threats_found] grows. *)
Lemma process_well_formed results : forall st,
  Forall well_formed results ->
  exists k,
    _process_scan_results results st
    = ({| files_scanned := files_scanned st + length results;
          files_skipped := files_skipped st
                           + length (List.filter counts_as_skipped results);
          threats_found := threats_found st + k;
          threats := threats (fst (_process_scan_results results st)) |}, None)
    /\ length (threats (fst (_process_scan_results results st)))
       = (length (threats st) + k)%nat.
Proof.
  induction results as [| r rest IH]; intros st Hall.
  - exists 0%nat. cbn. rewrite !Nat.add_0_r. destruct st; split; reflexivity.
  - apply Forall_cons_1 in Hall as [[[s Hs] [t Ht]] Hrest].
    cbn [_process_scan_results List.filter]. unfold getitem.
    replace (counts_as_skipped r) with (eq_str s "skipped" || eq_str s "error")
      by (unfold counts_as_skipped; now rewrite Hs).
    rewrite Hs, Ht.
    set (st1 := if eq_str s "skipped" || eq_str s "error"
                then inc_files_skipped (inc_files_scanned st)
                else inc_files_scanned st).
    set (st2 := if truthy t then add_threat r st1 else st1).
    destruct (IH st2 Hrest) as (k & E & L).
    exists ((if truthy t then 1 else 0) + k)%nat.
    rewrite E at 1. cbn [fst threats]. rewrite L. split.
    + f_equal. subst st2 st1.
      destruct (truthy t), (eq_str s "skipped" || eq_str s "error"); cbn;
        f_equal; lia.
    + subst st2 st1.
      destruct (truthy t), (eq_str s "skipped" || eq_str s "error"); cbn;
        rewrite ?length_app; cbn; lia.
Qed.

Lemma extend_threats_list (r : gmap string value) l xs :
  r !! "threats" = Some (VList l) ->
  extend_threats r xs = <["threats" := VList (l ++ xs)]> r.
Proof. intros H. unfold extend_threats. now rewrite H. Qed.

Section Results.

Variable cfg : HEXAVGConfig.
Variable hashlib_new : string -> option (list Byte.byte -> string).
Variable fs : node.
Variable now : string.
Variable completion_order : list Path -> list Path.

(** Whatever the detectors do, [_scan_file] returns a dictionary with a
    [status] and a [threats] key. *)
Lemma scan_file_well_formed self file_path :
  well_formed (_scan_file cfg hashlib_new fs now self file_path).
Proof.
  unfold _scan_file.
  set (r0 := ({[ "file_path" := VStr (str_path file_path);
                 "status" := VStr "clean"; "threats" := VList [];
                 "hashes" := VDict ∅; "timestamp" := VStr now ]} : gmap string value)).
  assert (H0 : well_formed r0) by (split; eexists; reflexivity).
  destruct (st_size (lookup fs file_path)) as [sz|e]; [|now apply well_formed_failed].
  destruct (MAX_SCAN_FILE_SIZE cfg <? sz)%Z; [now do 2 apply well_formed_insert|].
  destruct (hasher.hash_file hashlib_new cfg file_path (lookup fs file_path) None)
    as [hs|e]; [|now apply well_formed_failed].
  pose proof (signature_step_well_formed self file_path hs _
                (well_formed_insert r0 "hashes" (hashes_dict hs) H0)) as H1.
  destruct (signature_step self file_path hs (<["hashes":=hashes_dict hs]> r0))
    as [r1 [e|]]; cbn [fst] in H1; [now apply well_formed_failed|].
  pose proof (heuristic_step_well_formed self file_path sz r1 H1) as H2.
  destruct (heuristic_step self file_path sz r1) as [r2 [e|]]; cbn [fst] in H2;
    [now apply well_formed_failed|].
  pose proof (yara_step_well_formed self file_path r2 H2) as H3.
  destruct (yara_step self file_path r2) as [r3 [e|]]; cbn [fst] in H3;
    [now apply well_formed_failed | exact H3].
Qed.

(** The results [scan] hands to the statistics loop never abort it (the
    progress callback not raising): [_scan_file] reports its own failures
    as results that carry both keys the loop reads.  Every submitted path is
    counted in [files_scanned], no more of them in [files_skipped], and
    [threats] gains one entry for each unit of [threats_found]. *)
Theorem results_of_scan_file_are_all_counted self tm file_paths cb completion st :
  Permutation file_paths completion ->
  quiet cb ->
  exists st',
    _process_scan_results
      (fst (multithreading.scan_files tm file_paths
              (fun p => Return (_scan_file cfg hashlib_new fs now self p)) cb completion))
      st = (st', None)
    /\ files_scanned st' = (files_scanned st + length file_paths)%nat
    /\ (files_skipped st' <= files_skipped st + length file_paths)%nat
    /\ (threats_found st' + length (threats st)
        = threats_found st + length (threats st'))%nat.
Proof.
  intros Hperm Hq.
  set (sf := multithreading.scan_files _ _ _ _ _).
  assert (Hres : Forall well_formed (fst sf) /\ length (fst sf) = length file_paths).
  { subst sf. rewrite multithreading_props.scan_files_results. split.
    - apply collect_well_formed; [exact Hq | | constructor].
      intros p. eexists. split; [reflexivity | apply scan_file_well_formed].
    - rewrite multithreading_props.collect_length by exact Hq. cbn [length].
      symmetry. apply Permutation_length, Hperm. }
  destruct sf as [results tm']. cbn [fst] in *. destruct Hres as [Hwf Hlen].
  destruct (process_well_formed results st Hwf) as (k & E & L).
  rewrite E. eexists. split; [reflexivity|].
  cbn [files_scanned files_skipped threats_found threats].
  unfold multithreading.Dict in *.
  pose proof (List.filter_length_le counts_as_skipped results).
  split; [lia|]. split; lia.
Qed.


(** A heuristic finding replaces the status a signature match has set: a
    file that matches a signature and is also found suspicious is reported
    with status [suspicious], its threats being the signature threat
    followed by the heuristic ones. *)
Theorem heuristic_finding_replaces_infected_status self file_path file_size hashes
    detect analyze signature_result heuristic_result name severity ts :
  st_size (lookup fs file_path) = Return file_size ->
  (file_size <= MAX_SCAN_FILE_SIZE cfg)%Z ->
  hasher.hash_file hashlib_new cfg file_path (lookup fs file_path) None = Return hashes ->
  signature_detector self = Some detect ->
  detect file_path hashes = signature_result ->
  signature_result !! "detected" = Some (VBool true) ->
  signature_result !! "name" = Some name ->
  signature_result !! "severity" = Some severity ->
  enable_heuristics self = true ->
  heuristic_detector self = Some analyze ->
  analyze file_path file_size = Return heuristic_result ->
  heuristic_result !! "suspicious" = Some (VBool true) ->
  heuristic_result !! "threats" = Some (VList ts) ->
  enable_yara self = false ->
  _scan_file cfg hashlib_new fs now self file_path !! "status" = Some (VStr "suspicious")
  /\ _scan_file cfg hashlib_new fs now self file_path !! "threats"
     = Some (VList (VDict {[ "type" := VStr "signature"; "name" := name;
                             "severity" := severity ]} :: ts)).
Proof.
  intros Hsz Hmax Hh Hd Hdet Hdd Hdn Hds He Ha Han Hs Ht Hy.
  unfold _scan_file. rewrite Hsz.
  replace (MAX_SCAN_FILE_SIZE cfg <? file_size)%Z with false
    by (symmetry; apply Z.ltb_ge; lia).
  rewrite Hh.
  set (r0 := <["hashes" := hashes_dict hashes]> _).
  assert (T0 : r0 !! "threats" = Some (VList [])) by reflexivity.
  unfold signature_step. rewrite Hd, Hdet. unfold getitem.
  rewrite Hdd, Hdn, Hds. cbn [truthy].
  set (r1 := <["status" := VStr "infected"]> r0).
  assert (T1 : r1 !! "threats" = Some (VList []))
    by (subst r1; now rewrite lookup_insert_ne).
  rewrite (extend_threats_list r1 [] _ T1). cbn [app].
  set (r2 := <["threats" := _]> r1).
  unfold heuristic_step. rewrite He, Ha, Han. unfold getitem. rewrite Hs, Ht. cbn [truthy].
  set (r3 := <["status" := VStr "suspicious"]> r2).
  assert (T3 : r3 !! "threats"
               = Some (VList [VDict {[ "type" := VStr "signature"; "name" := name;
                                       "severity" := severity ]}])).
  { subst r3 r2. rewrite lookup_insert_ne by discriminate. now rewrite lookup_insert_eq. }
  rewrite (extend_threats_list r3 _ ts T3). cbn [app].
  unfold yara_step. rewrite Hy.
  split.
  - rewrite lookup_insert_ne by discriminate. subst r3. now rewrite lookup_insert_eq.
  - now rewrite lookup_insert_eq.
Qed.

(** A scan whose detector slots are empty leaves [threats_found] as it
    was. *)
Lemma scan_no_detectors_no_new_threats self scan_path quick cb st :
  signature_detector self = None -> heuristic_detector self = None ->
  yara_detector self = None ->
  fst (scan cfg hashlib_new fs now completion_order self scan_path quick cb) = Return st ->
  threats_found st = threats_found (scan_stats self).
Proof.
  intros Hs Hh Hy. unfold scan.
  destruct (exists_ (lookup fs scan_path)) as [[|] | err]; [| discriminate..].
  destruct (file_traversal.get_files_list _ _ _ _ _ _) as [[paths|e] ts]; [|discriminate].
  set (self1 := set_traversal_stats self ts).
  set (sf := multithreading.scan_files _ _ _ _ _).
  assert (Hres : Forall no_threats (fst sf)).
  { subst sf. rewrite multithreading_props.scan_files_results.
    apply collect_no_threats; [|constructor].
    intros p r Hr. injection Hr as <-. left.
    apply scan_file_no_detectors; assumption. }
  destruct sf as [results tm]. cbn [fst] in Hres.
  pose proof (process_no_threats results
                (scan_stats (set_thread_manager self1 tm)) Hres) as HP.
  destruct (_process_scan_results results (scan_stats (set_thread_manager self1 tm)))
    as [st' e].
  destruct e; [discriminate|]. cbn [fst]. intros H; injection H as <-.
  exact HP.
Qed.

End Results.


Lemma results_of_scan_file_are_all_counted_witness :
  Permutation [notes; ["/"; "nowhere"]] [["/"; "nowhere"]; notes]
  /\ quiet None
  /\ _process_scan_results
       (fst (multithreading.scan_files (multithreading.__init__ sample_config None)
               [notes; ["/"; "nowhere"]]
               (fun p => Return (_scan_file sample_config sample_hashlib home_tree
                                   "2024-01-01T00:00:00"
                                   (with_detectors (__init__ sample_config None true false)
                                      always_detects always_suspicious) p))
               None [["/"; "nowhere"]; notes]))
       zero_stats
     = ({| files_scanned := 2; files_skipped := 1; threats_found := 1;
           threats :=
             [_scan_file sample_config sample_hashlib home_tree "2024-01-01T00:00:00"
                (with_detectors (__init__ sample_config None true false)
                   always_detects always_suspicious) notes] |}, None)
  /\ exists st',
       _process_scan_results
         (fst (multithreading.scan_files (multithreading.__init__ sample_config None)
                 [notes; ["/"; "nowhere"]]
                 (fun p => Return (_scan_file sample_config sample_hashlib home_tree
                                     "2024-01-01T00:00:00"
                                     (with_detectors (__init__ sample_config None true false)
                                        always_detects always_suspicious) p))
                 None [["/"; "nowhere"]; notes]))
         zero_stats = (st', None)
       /\ files_scanned st' = 2%nat.
Proof.
  split; [apply perm_swap|]. split; [exact I|]. split; [vm_compute; reflexivity|].
  destruct (results_of_scan_file_are_all_counted sample_config sample_hashlib home_tree
              "2024-01-01T00:00:00"
              (with_detectors (__init__ sample_config None true false)
                 always_detects always_suspicious)
              (multithreading.__init__ sample_config None)
              [notes; ["/"; "nowhere"]] None [["/"; "nowhere"]; notes] zero_stats
              (perm_swap _ _ _) I) as (st' & E & F & _).
  exists st'. split; [exact E | exact F].
Defined.

Lemma heuristic_finding_replaces_infected_status_witness :
  always_detects notes [("md5", "md5:digest"); ("sha1", "sha1:digest");
                        ("sha256", "sha256:digest")]
    !! "detected" = Some (VBool true)
  /\ _scan_file sample_config sample_hashlib home_tree "2024-01-01T00:00:00"
       (with_detectors (__init__ sample_config None true false)
          always_detects always_suspicious) notes
     !! "status" = Some (VStr "suspicious").
Proof.
  split; [reflexivity|].
  refine (proj1 (heuristic_finding_replaces_infected_status sample_config sample_hashlib
                   home_tree "2024-01-01T00:00:00"
                   (with_detectors (__init__ sample_config None true false)
                      always_detects always_suspicious)
                   notes 5%Z
                   [("md5", "md5:digest"); ("sha1", "sha1:digest");
                    ("sha256", "sha256:digest")]
                   always_detects always_suspicious _ _ (VStr "EICAR-Test-File")
                   (VStr "low") _ _ _ _ _ _ _ _ _ _ _ _ _ _ _));
    try reflexivity.
  cbn. lia.
Defined.

End scanner_props.

(** ** The commands of [hex_avg.py] *)
Module hex_avg_props.
Import py config hex_avg samples.

Lemma scan_of_regular_file_raises cfg hashlib_new fs now order self scan_path quick cb r c :
  lookup fs scan_path = RegularFile r c ->
  fst (scanner.scan cfg hashlib_new fs now order self scan_path quick cb)
  = Raise (ValueError "Path is not a directory").
Proof.
  intros H. unfold scanner.scan. rewrite H. reflexivity.
Qed.

(** Claim C1.  [benchmark --test-eicar] never gets statistics back from the
    scan: in every configuration and on every file system the command ends
    with an exception.  Where the EICAR file could be written, the scan is
    handed that file, and the traversal rejects a path that is not a
    directory. *)
Theorem benchmark_eicar_test_raises cfg hashlib_new now order fs :
  exists e, fst (benchmark cfg hashlib_new now order fs true) = Raise e.
Proof.
  unfold benchmark.
  destruct (write_text (relative (joinpath (BASE_DIR cfg) "eicar.txt"))
              (list_byte_of_string EICAR_STRING) fs) as [fs'|e] eqn:W.
  - destruct (py_props.write_text_resolve _ _ _ _ W) as [r Hr].
    rewrite (scan_of_regular_file_raises _ _ _ _ _ _ _ _ _ r
               (list_byte_of_string EICAR_STRING)).
    + eauto.
    + unfold lookup. now rewrite Hr.
  - eauto.
Qed.

(** On a file system where the base directory exists, the exception is the
    traversal's [ValueError], and the EICAR file is left behind. *)
Example benchmark_on_home_tree hashlib_new now order :
  fst (benchmark sample_config hashlib_new now order home_tree true)
    = Raise (ValueError "Path is not a directory")
  /\ is_file (lookup (snd (benchmark sample_config hashlib_new now order home_tree true))
                ["/"; "home"; "user"; "hex-avg"; "eicar.txt"]) = true.
Proof. split; vm_compute; reflexivity. Qed.

(** The canonical test string is 68 bytes long. *)
Example eicar_string_length : String.length EICAR_STRING = 68%nat.
Proof. reflexivity. Qed.

(** Scanning the directory that holds the EICAR file does return
    statistics, and they report no threat: no detector is assigned. *)
Example scan_of_eicar_directory_finds_nothing :
  fst (scanner.scan sample_config sample_hashlib
         (snd (benchmark sample_config sample_hashlib "2024-01-01T00:00:00"
                 (fun l => l) home_tree true))
         "2024-01-01T00:00:00" (fun l => l)
         (scanner.__init__ sample_config None true false)
         ["/"; "home"; "user"; "hex-avg"] false None)
  = Return {| scanner.files_scanned := 1; scanner.files_skipped := 0;
              scanner.threats_found := 0; scanner.threats := [] |}.
Proof. vm_compute. reflexivity. Qed.

(** The [scan] command never ends with the threats-found exit code: the
    scanner it builds has no detector assigned, so the statistics of a scan
    that returns count no threat. *)
Theorem scan_command_never_reports_threats cfg hashlib_new now completion_order fs
    path quick full heuristic yara threads :
  In (scan cfg hashlib_new now completion_order fs path quick full heuristic yara threads)
     [EXIT_SUCCESS; EXIT_ERROR; UsageError].
Proof.
  unfold scan.
  destruct (negb (stat_succeeds (lookup fs path))); [cbn; auto|].
  set (sc := scanner.__init__ cfg threads (heuristic || true) yara).
  assert (H : forall q r,
    fst (scanner.scan cfg hashlib_new fs now completion_order sc path q None) = r ->
    In (match r with
        | Return results =>
            if (0 <? scanner.threats_found results)%nat
            then EXIT_THREATS_FOUND else EXIT_SUCCESS
        | Raise _ => EXIT_ERROR
        end) [EXIT_SUCCESS; EXIT_ERROR; UsageError]).
  { intros q [st|e] Hr; [|cbn; auto].
    rewrite (scanner_props.scan_no_detectors_no_new_threats cfg hashlib_new fs now
               completion_order sc path q None st eq_refl eq_refl eq_refl Hr).
    cbn. auto. }
  unfold scanner.quick_scan, scanner.full_scan.
  destruct quick; [|destruct full].
  - exact (H true _ eq_refl).
  - exact (H false _ eq_refl).
  - exact (H false _ eq_refl).
Qed.

(** The command on a directory that holds a copy of the EICAR test file. *)
Example scan_command_on_eicar_directory :
  scan sample_config sample_hashlib "2024-01-01T00:00:00" (fun l => l)
    (snd (benchmark sample_config sample_hashlib "2024-01-01T00:00:00"
            (fun l => l) home_tree true))
    ["/"; "home"; "user"; "hex-avg"] false false true false None
  = EXIT_SUCCESS.
Proof. vm_compute. reflexivity. Qed.

End hex_avg_props.

(** ** Signature store *)
Module signature_props.
Import py config signature samples notions.

(** The export asks for the listing with [limit=None]; the query fails and
    the document lists no signature, whatever the store holds. *)
Lemma export_lists_no_signatures (cfg : HEXAVGConfig) (self : SignatureDetector) :
  export_signatures cfg self
  = (true, VDict {[ "signatures" := VList []; "count" := VInt 0;
                    "exported_at" := VStr (VERSION cfg) ]}).
Proof. reflexivity. Qed.

Lemma import_of_export_adds_nothing (cfg : HEXAVGConfig)
    (self target : SignatureDetector) (now : Z) :
  import_signatures target now (snd (export_signatures cfg self)) = (true, target).
Proof. reflexivity. Qed.

(** Claim C9.  A store with one signature is exported and the document
    imported into a freshly initialised store: the count is 0, not 1. *)
Theorem round_trip_loses_signatures :
  get_signature_count one_signature_store = 1%Z
  /\ get_signature_count
       (snd (import_signatures (__init__ empty_db 1700000002 None) 1700000002
               (snd (export_signatures sample_config one_signature_store)))) = 0%Z.
Proof. split; vm_compute; reflexivity. Qed.

(** In general the round trip yields the count of the freshly initialised
    store, not that of the exported one. *)
Theorem round_trip_count_is_the_fresh_count (cfg : HEXAVGConfig)
    (self db : SignatureDetector) (now : Z) (eicar_json : option value) :
  get_signature_count
    (snd (import_signatures (__init__ db now eicar_json) now
            (snd (export_signatures cfg self))))
  = get_signature_count (__init__ db now eicar_json).
Proof. rewrite import_of_export_adds_nothing. reflexivity. Qed.

(** Each successful [add_signature] adds one row. *)
Lemma add_signature_count (self : SignatureDetector) now n m s1 s2 t sv d :
  get_signature_count (snd (add_signature self now n m s1 s2 t sv d))
  = (get_signature_count self
     + (if fst (add_signature self now n m s1 s2 t sv d) then 1 else 0))%Z.
Proof.
  unfold add_signature.
  destruct (insert self now n m s1 s2 t sv d) as [s'|e] eqn:E; cbn [fst snd]; [|lia].
  unfold insert in E.
  repeat match type of E with
         | bind ?x _ = _ => destruct x; cbn [bind] in E; [|discriminate]
         end.
  destruct a; [|discriminate]. injection E as <-. unfold get_signature_count. cbn [rows].
  rewrite length_app. cbn [length]. lia.
Qed.

(** *** Loading, importing and detecting *)


(** An integer beyond 64 bits is not stored: the driver refuses to bind it
    and [add_signature] answers [False]. *)
Example add_signature_refuses_large_integer :
  add_signature empty_db 1700000000 (VStr "Trojan.Sample") VNone VNone VNone
    VNone (VInt (2 ^ 63)) VNone = (false, empty_db)
  /\ fst (add_signature empty_db 1700000000 (VStr "Trojan.Sample") VNone VNone VNone
            VNone (VInt (2 ^ 63 - 1)) VNone) = true.
Proof. split; reflexivity. Qed.

(** A successful [INSERT] appends one row holding the bound values. *)
Lemma insert_rows self now n m s1 s2 t sv d self' :
  insert self now n m s1 s2 t sv d = Return self' ->
  exists r, rows self' = (rows self ++ [r])%list
    /\ bind_text n = Return (Some (name r)) /\ bind_text m = Return (md5 r).
Proof.
  unfold insert. intros E.
  repeat match type of E with
         | bind ?x _ = _ => destruct x eqn:?; cbn [bind] in E; [|discriminate]
         end.
  destruct a; [|discriminate]. injection E as <-. cbn [rows].
  eexists. split; [reflexivity|]. cbn. split; reflexivity.
Qed.








(** An entry with an integer beyond 64 bits is not stored, and the import
    goes on to the next entry and still answers [True]. *)
Example import_signatures_skips_unstorable_entry :
  import_signatures empty_db 1700000003
    (document [VDict {[ "name" := VStr "Worm.Sample"; "severity" := VInt (2 ^ 63) ]};
               entry_eicar])
  = (true,
     snd (import_signatures empty_db 1700000003 (document [entry_eicar]))).
Proof. vm_compute. reflexivity. Qed.





Lemma select_by_hash_column self algo hv :
  hash_column algo = true ->
  select_by self algo hv = Return (List.find (matches algo hv) (rows self)).
Proof. unfold select_by, hash_column. intros ->. reflexivity. Qed.

Lemma detect_loop_undetected self hashes :
  Forall (fun ah => hash_column (fst ah) = true) hashes ->
  detect_loop self hashes !! "detected" = Some (VBool false) ->
  Forall (fun ah => snd ah <> "" -> List.find (matches (fst ah) (snd ah)) (rows self) = None)
         hashes.
Proof.
  induction 1 as [| [algo hv] rest Hcol _ IH]; intros Hd; constructor.
  - cbn [fst snd] in *. intros Hne. cbn [detect_loop] in Hd.
    destruct (String.eqb_spec hv ""); [congruence|].
    rewrite (select_by_hash_column _ _ _ Hcol) in Hd.
    destruct (List.find (matches algo hv) (rows self)); [discriminate | reflexivity].
  - apply IH. cbn [detect_loop] in Hd. cbn [fst] in Hcol.
    destruct (String.eqb hv ""); [exact Hd|].
    rewrite (select_by_hash_column _ _ _ Hcol) in Hd.
    destruct (List.find (matches algo hv) (rows self)); [discriminate | exact Hd].
Qed.

Lemma find_app_none {X} (f : X -> bool) l x :
  List.find f l = None -> List.find f (l ++ [x]) = if f x then Some x else None.
Proof.
  induction l as [| y l IH]; cbn; [reflexivity|].
  destruct (f y); [discriminate | exact IH].
Qed.

(** A signature added with an MD5 hash is found again: where [detect]
    reported nothing for a set of hashes that includes this MD5 value, it
    reports a detection under the added name once the signature is stored. *)
Theorem added_signature_is_detected self now nm h s1 s256 ty sev desc p hashes :
  fst (add_signature self now (VStr nm) (VStr h) s1 s256 ty sev desc) = true ->
  Forall (fun ah => hash_column (fst ah) = true) hashes ->
  In ("md5", h) hashes -> h <> "" ->
  detect self p hashes !! "detected" = Some (VBool false) ->
  detect (snd (add_signature self now (VStr nm) (VStr h) s1 s256 ty sev desc)) p hashes
    !! "detected" = Some (VBool true)
  /\ detect (snd (add_signature self now (VStr nm) (VStr h) s1 s256 ty sev desc)) p hashes
    !! "name" = Some (VStr nm).
Proof.
  unfold add_signature, detect.
  destruct (insert self now (VStr nm) (VStr h) s1 s256 ty sev desc) as [self'|e] eqn:E;
    cbn [fst snd]; [intros _ | discriminate].
  destruct (insert_rows _ _ _ _ _ _ _ _ _ _ E) as (r & Hrows & Hn & Hm).
  cbn in Hn, Hm. injection Hn as Hn. injection Hm as Hm.
  intros Hcols Hin Hne Hund.
  pose proof (detect_loop_undetected self hashes Hcols Hund) as Hnone.
  clear Hund E.
  induction hashes as [| [algo hv] rest IH]; [destruct Hin|].
  apply Forall_cons_1 in Hcols as [Hcol Hcols].
  apply Forall_cons_1 in Hnone as [Hn0 Hnone]. cbn [fst snd] in *.
  cbn [detect_loop].
  destruct (String.eqb_spec hv "") as [-> | Hhv].
  { destruct Hin as [Heq | Hin]; [congruence | now apply IH]. }
  rewrite (select_by_hash_column _ _ _ Hcol), Hrows, (find_app_none _ _ _ (Hn0 Hhv)).
  destruct (matches algo hv r) eqn:Hmatch.
  - rewrite <- Hn. split; reflexivity.
  - destruct Hin as [Heq | Hin]; [|now apply IH].
    injection Heq as -> ->. unfold matches in Hmatch. cbn in Hmatch.
    rewrite <- Hm in Hmatch. now rewrite String.eqb_refl in Hmatch.
Qed.

Lemma added_signature_is_detected_witness :
  detect empty_db notes
    [("md5", "44d88612fea8a8f36de82e1278abb02f"); ("sha1", "no-such-digest")]
    !! "detected" = Some (VBool false)
  /\ detect (snd (add_signature empty_db 1700000000 (VStr "EICAR-Test-File")
                    (VStr "44d88612fea8a8f36de82e1278abb02f") VNone VNone
                    (VStr "test") (VStr "low") (VStr ""))) notes
       [("md5", "44d88612fea8a8f36de82e1278abb02f"); ("sha1", "no-such-digest")]
     !! "name" = Some (VStr "EICAR-Test-File").
Proof.
  split; [reflexivity|].
  apply (added_signature_is_detected empty_db 1700000000 "EICAR-Test-File"
           "44d88612fea8a8f36de82e1278abb02f" VNone VNone
           (VStr "test") (VStr "low") (VStr "") notes
           [("md5", "44d88612fea8a8f36de82e1278abb02f"); ("sha1", "no-such-digest")]).
  - reflexivity.
  - repeat (apply Forall_cons; split; [reflexivity|]). constructor.
  - now left.
  - discriminate.
  - reflexivity.
Defined.

End signature_props.

(** ** Advanced heuristic engine *)
Module advanced_heuristic_props.
Import py advanced_heuristic samples notions.

Lemma entropy_in_range data :
  in_range (_analyze_entropy data) /\ name (_analyze_entropy data) = "entropy".
Proof.
  unfold _analyze_entropy, in_range.
  destruct (length data <? 256)%nat; [cbn; split; [lia|reflexivity]|].
  repeat (destruct (Rle_dec _ _)); cbn; split; try lia; reflexivity.
Qed.

Lemma mismatch_in_range p data :
  in_range (_check_extension_mismatch p data)
  /\ name (_check_extension_mismatch p data) = "extension_mismatch".
Proof.
  unfold _check_extension_mismatch, in_range.
  destruct (actual_type_of data); [|cbn; split; [lia|reflexivity]].
  repeat match goal with |- context [if ?c then _ else _] => destruct c end;
    cbn; split; try lia; reflexivity.
Qed.

Lemma packer_in_range data :
  in_range (_detect_packer data) /\ name (_detect_packer data) = "packer_detected".
Proof.
  unfold _detect_packer, in_range.
  destruct (List.find _ _); [cbn; split; [lia|reflexivity]|].
  destruct (20 <=? _)%Z; cbn; split; try lia; reflexivity.
Qed.

Section Engine.

Variable findall : string -> list Byte.byte -> list string.

(** The suspicious-strings signal is only ever returned for a buffer
    without a match; any match makes building the signal raise. *)
Lemma strings_returns_iff_no_match data :
  (collect_matches findall data = [] ->
     _detect_suspicious_strings findall data
     = Return {| score := 0; name := "suspicious_strings"; level := None |})
  /\ (collect_matches findall data <> [] ->
     _detect_suspicious_strings findall data
     = Raise (TypeError "'set' object is not subscriptable")).
Proof.
  unfold _detect_suspicious_strings.
  destruct (collect_matches findall data) as [| m ms]; split; intros H;
    try reflexivity; try congruence.
  repeat match goal with |- context [if ?c then _ else _] => destruct c end; reflexivity.
Qed.

Lemma analyze_file_readable p content :
  analyze_file findall p (RegularFile true content)
  = bind (_detect_suspicious_strings findall (analysed content)) (fun strings_result =>
      let acc :=
        record_signal (_detect_packer (analysed content))
          (record_signal strings_result
             (record_signal (_check_extension_mismatch p (analysed content))
                (record_signal (_analyze_entropy (analysed content)) ([], 0%Z)))) in
      Return {| risk_score := Z.min (snd acc) 100; signals := fst acc |}).
Proof. reflexivity. Qed.

(** Claim C6.  A readable file in whose first MiB one of the suspicious
    patterns matches gets no risk score: [analyze_file] raises [TypeError]
    while it formats the suspicious-strings signal. *)
Theorem analyze_file_raises_on_suspicious_strings p content :
  collect_matches findall (analysed content) <> [] ->
  analyze_file findall p (RegularFile true content)
  = Raise (TypeError "'set' object is not subscriptable").
Proof.
  intros H. rewrite analyze_file_readable.
  now rewrite (proj2 (strings_returns_iff_no_match _) H).
Qed.

(** What [analyze_file] returns, when it returns: signals within their
    documented ranges and a risk score that is their sum capped at 100. *)
Lemma analyze_file_result_shape p n a :
  analyze_file findall p n = Return a ->
  Forall in_range (signals a)
  /\ (0 <= risk_score a <= 100)%Z
  /\ risk_score a
     = Z.min (List.fold_right (fun s acc => score s + acc) 0 (signals a))%Z 100.
Proof.
  destruct n as [[|] c | l es | [|] | d]; try (intros H; discriminate H);
    try (intros H; injection H as <-; cbn; repeat split; (constructor || lia)).
  rewrite analyze_file_readable.
  destruct (collect_matches findall (analysed c)) as [| m ms] eqn:E.
  - rewrite (proj1 (strings_returns_iff_no_match _) E). cbn [bind].
    intros H. injection H as <-. cbn [risk_score signals].
    destruct (entropy_in_range (analysed c)) as [He Hne].
    destruct (mismatch_in_range p (analysed c)) as [Hm Hnm].
    destruct (packer_in_range (analysed c)) as [Hp Hnp].
    set (e := _analyze_entropy (analysed c)) in *.
    set (m := _check_extension_mismatch p (analysed c)) in *.
    set (k := _detect_packer (analysed c)) in *.
    assert (He' : (score e <= 30)%Z).
    { unfold in_range in He. rewrite Hne in He. cbn in He. lia. }
    assert (Hm' : (score m <= 25)%Z).
    { unfold in_range in Hm. rewrite Hnm in Hm. cbn in Hm. lia. }
    assert (Hp' : (score k <= 20)%Z).
    { unfold in_range in Hp. rewrite Hnp in Hp. cbn in Hp. lia. }
    unfold in_range in He, Hm, Hp.
    unfold record_signal. cbn [score fst snd Z.ltb Z.compare].
    destruct (Z.ltb_spec 0 (score e)); destruct (Z.ltb_spec 0 (score m));
      destruct (Z.ltb_spec 0 (score k)); cbn [fst snd app fold_right];
      (split; [repeat constructor; unfold in_range; tauto | split; lia]).
  - rewrite (proj2 (strings_returns_iff_no_match (analysed c))); [discriminate|].
    rewrite E. discriminate.
Qed.

(** Whenever [analyze_file] returns, the reported risk score is the sum of
    the signal scores capped at 100 and lies in [0, 100]. *)
Theorem analyze_file_risk_score_is_capped_sum p n a :
  analyze_file findall p n = Return a ->
  risk_score a
    = Z.min (List.fold_right (fun s acc => score s + acc) 0 (signals a))%Z 100
  /\ (0 <= risk_score a <= 100)%Z
  /\ Forall in_range (signals a).
Proof.
  intros H. destruct (analyze_file_result_shape p n a H) as (H1 & H2 & H3).
  repeat split; assumption || apply H2.
Qed.

(** What the signals of a returned analysis are: none stems from the
    suspicious-strings check, and their scores add up to the risk score,
    which stays below the cap. *)
Lemma analyze_file_signals p n a :
  analyze_file findall p n = Return a ->
  existsb from_strings (signals a) = false
  /\ risk_score a = total_of (signals a)
  /\ (0 <= risk_score a <= 75)%Z.
Proof.
  destruct n as [[|] c | l es | [|] | d]; try (intros H; discriminate H);
    try (intros H; injection H as <-; cbn; repeat split; lia).
  rewrite analyze_file_readable.
  destruct (collect_matches findall (analysed c)) as [| m ms] eqn:E.
  2:{ rewrite (proj2 (strings_returns_iff_no_match (analysed c)));
        [discriminate | rewrite E; discriminate]. }
  rewrite (proj1 (strings_returns_iff_no_match _) E). cbn [bind].
  intros H. injection H as <-. cbn [risk_score signals].
  destruct (entropy_in_range (analysed c)) as [He Hne].
  destruct (mismatch_in_range p (analysed c)) as [Hm Hnm].
  destruct (packer_in_range (analysed c)) as [Hp Hnp].
  set (e := _analyze_entropy (analysed c)) in *.
  set (m := _check_extension_mismatch p (analysed c)) in *.
  set (k := _detect_packer (analysed c)) in *.
  unfold in_range in He, Hm, Hp. rewrite Hne in He. rewrite Hnm in Hm. rewrite Hnp in Hp.
  cbn in He, Hm, Hp.
  unfold record_signal. cbn [score fst snd Z.ltb Z.compare].
  destruct (Z.ltb_spec 0 (score e)); destruct (Z.ltb_spec 0 (score m));
    destruct (Z.ltb_spec 0 (score k)); cbn [fst snd app existsb fold_right total_of];
    unfold from_strings; rewrite ?Hne, ?Hnm, ?Hnp; cbn; repeat split; lia.
Qed.

(** Whenever [analyze_file] returns, the risk score is the plain sum of the
    signal scores and at most 75: no suspicious-strings signal is ever among
    the signals, so the cap of 100 is never reached. *)
Theorem analyze_file_never_reaches_the_cap p n a :
  analyze_file findall p n = Return a ->
  existsb from_strings (signals a) = false
  /\ risk_score a = total_of (signals a)
  /\ (0 <= risk_score a <= 75)%Z.
Proof. apply analyze_file_signals. Qed.

End Engine.

Lemma analyze_file_raises_on_suspicious_strings_witness :
  collect_matches literal_findall (analysed (b "import base64")) <> []
  /\ analyze_file literal_findall ["/"; "tmp"; "loader.py"]
       (RegularFile true (b "import base64"))
     = Raise (TypeError "'set' object is not subscriptable").
Proof.
  assert (H : collect_matches literal_findall (analysed (b "import base64")) <> [])
    by (vm_compute; discriminate).
  split; [exact H|].
  exact (analyze_file_raises_on_suspicious_strings literal_findall
           ["/"; "tmp"; "loader.py"] (b "import base64") H).
Defined.

Lemma analyze_file_risk_score_is_capped_sum_witness :
  analyze_file literal_findall ["/"; "tmp"; "readme.txt"]
    (RegularFile true (x7f :: b "ELF"))
    = Return {| risk_score := 25;
                signals := [ {| score := 25; name := "extension_mismatch";
                                level := Some "CRITICAL" |} ] |}
  /\ (0 <= 25 <= 100)%Z.
Proof.
  assert (H : analyze_file literal_findall ["/"; "tmp"; "readme.txt"]
                (RegularFile true (x7f :: b "ELF"))
              = Return {| risk_score := 25;
                          signals := [ {| score := 25; name := "extension_mismatch";
                                          level := Some "CRITICAL" |} ] |})
    by (vm_compute; reflexivity).
  split; [exact H|].
  exact (proj1 (proj2 (analyze_file_risk_score_is_capped_sum literal_findall
                         ["/"; "tmp"; "readme.txt"]
                         (RegularFile true (x7f :: b "ELF")) _ H))).
Defined.

Lemma analyze_file_never_reaches_the_cap_witness :
  analyze_file literal_findall ["/"; "tmp"; "photo.jpg"] (RegularFile true (b "MZ-UPX"))
    = Return {| risk_score := 45;
                signals := [ {| score := 25; name := "extension_mismatch";
                                level := Some "CRITICAL" |};
                             {| score := 20; name := "packer_detected";
                                level := Some "HIGH" |} ] |}
  /\ (0 <= 45 <= 75)%Z.
Proof.
  assert (H : analyze_file literal_findall ["/"; "tmp"; "photo.jpg"]
                (RegularFile true (b "MZ-UPX"))
              = Return {| risk_score := 45;
                          signals := [ {| score := 25; name := "extension_mismatch";
                                          level := Some "CRITICAL" |};
                                       {| score := 20; name := "packer_detected";
                                          level := Some "HIGH" |} ] |})
    by (vm_compute; reflexivity).
  split; [exact H|].
  exact (proj2 (proj2 (analyze_file_never_reaches_the_cap literal_findall
                         ["/"; "tmp"; "photo.jpg"] (RegularFile true (b "MZ-UPX")) _ H))).
Defined.

End advanced_heuristic_props.

(** ** ML threat scorer *)
Module ml_scoring_props.
Import py advanced_heuristic ml_scoring advanced_heuristic_props samples notions.
Local Open Scope R_scope.

Lemma exp_monotone (x y : R) : x <= y -> exp x <= exp y.
Proof.
  intros [Hlt | ->]; [left; now apply exp_increasing | apply Rle_refl].
Qed.

Lemma sigmoid_bounds (x : R) :
  0 <= x <= 1 -> 1 / 2 <= _sigmoid x <= 1 / (1 + exp (- 1)).
Proof.
  intros [H0 H1]. unfold _sigmoid.
  assert (Hpos : 0 < exp (- x)) by apply exp_pos.
  assert (Hle1 : exp (- x) <= 1).
  { rewrite <- exp_0. apply exp_monotone. lra. }
  assert (Hge : exp (- 1) <= exp (- x)) by (apply exp_monotone; lra).
  assert (Hpos1 : 0 < exp (- 1)) by apply exp_pos.
  replace 1.0 with 1 by lra.
  split.
  - apply Rmult_le_reg_r with (1 + exp (- x)); [lra|].
    replace (1 / (1 + exp (- x)) * (1 + exp (- x))) with 1 by (field; lra).
    lra.
  - unfold Rdiv. rewrite !Rmult_1_l.
    apply Rinv_le_contravar; lra.
Qed.

(** [1 / (1 + e^-1) < 0.8], from [e <= 3]. *)
Lemma sigmoid_one_below_malicious : 1 / (1 + exp (- 1)) < 0.8.
Proof.
  assert (H3 : exp 1 <= 3) by apply exp_le_3.
  assert (Hp : 0 < exp 1) by apply exp_pos.
  assert (Hinv : exp (- 1) = / exp 1) by apply exp_Ropp.
  assert (Hge : / 3 <= / exp 1) by (apply Rinv_le_contravar; lra).
  assert (Hq : 0 < / exp 1) by (apply Rinv_0_lt_compat; lra).
  apply Rmult_lt_reg_r with (1 + exp (- 1)); [rewrite Hinv; lra|].
  replace (1 / (1 + exp (- 1)) * (1 + exp (- 1))) with 1
    by (field; rewrite Hinv; lra).
  rewrite Hinv. lra.
Qed.

Lemma signal_score_in_range signals nm :
  Forall in_range signals ->
  (0 <= cap nm)%Z ->
  (0 <= signal_score signals nm <= cap nm)%Z.
Proof.
  intros Hall Hcap. unfold signal_score.
  destruct (List.find _ signals) as [s|] eqn:F; [|lia].
  apply List.find_some in F as [Hin Hnm].
  apply String.eqb_eq in Hnm.
  rewrite Forall_forall in Hall. specialize (Hall s).
  unfold in_range in Hall. rewrite Hnm in Hall. apply Hall.
  now apply list_elem_of_In.
Qed.

Lemma normalized_feature (z c : Z) :
  (0 <= z <= c)%Z -> (0 < c)%Z -> 0 <= IZR z / IZR c <= 1.
Proof.
  intros [Hz Hc] Hpos.
  assert (H0 : 0 <= IZR z) by (apply (IZR_le 0); lia).
  assert (H1 : IZR z <= IZR c) by (apply IZR_le; lia).
  assert (H2 : 0 < IZR c) by (apply (IZR_lt 0); lia).
  split.
  - apply Rmult_le_reg_r with (IZR c); [lra|].
    replace (IZR z / IZR c * IZR c) with (IZR z) by (field; lra). lra.
  - apply Rmult_le_reg_r with (IZR c); [lra|].
    replace (IZR z / IZR c * IZR c) with (IZR z) by (field; lra). lra.
Qed.

Lemma in_range_scores hr : Forall in_range (signals hr) -> scores_in_range hr.
Proof.
  intros H. unfold scores_in_range.
  repeat (apply Forall_cons; split;
          [apply signal_score_in_range; [exact H | cbn; lia] |]).
  constructor.
Qed.

Lemma scores_in_range_inv hr :
  scores_in_range hr ->
  (0 <= signal_score (signals hr) "entropy" <= 30)%Z
  /\ (0 <= signal_score (signals hr) "suspicious_strings" <= 25)%Z
  /\ (0 <= signal_score (signals hr) "extension_mismatch" <= 25)%Z
  /\ (0 <= signal_score (signals hr) "packer_detected" <= 20)%Z.
Proof.
  unfold scores_in_range. intros H.
  repeat (apply Forall_cons_1 in H as [? H]).
  repeat split; assumption || (cbn in *; lia).
Qed.

Lemma size_anomaly_bounds n : 0 <= size_anomaly n <= 0.8.
Proof.
  unfold size_anomaly. destruct (st_size n) as [sz|]; [|lra].
  destruct (sz <? _)%Z; [lra|]. destruct (_ <? sz)%Z; lra.
Qed.

Lemma rare_extension_bounds p : 0 <= rare_extension p <= 1.
Proof. unfold rare_extension. destruct (bool_decide _); lra. Qed.

(** The weighted sum the code accumulates over its table of weights is the
    documented evidence. *)
Lemma weighted_sum_is_evidence p n hr :
  weighted_sum __init__ (_extract_features __init__ p n hr) = evidence p n hr.
Proof.
  unfold weighted_sum, _extract_features, evidence, size_anomaly, rare_extension.
  cbn [feature_weights __init__ List.fold_left fst snd small_executable_threshold
       large_executable_threshold rare_extensions].
  unfold get. cbn [List.find fst snd String.eqb Ascii.eqb Bool.eqb].
  destruct (st_size n) as [sz|];
    [destruct (sz <? 1024)%Z; [|destruct (_ <? sz)%Z] |];
    destruct (bool_decide _); lra.
Qed.

Lemma evidence_in_unit_interval p n hr :
  scores_in_range hr -> 0 <= evidence p n hr <= 1.
Proof.
  intros H. destruct (scores_in_range_inv hr H) as (He & Hs & Hm & Hp).
  apply normalized_feature in He; [|lia].
  apply normalized_feature in Hs; [|lia].
  apply normalized_feature in Hm; [|lia].
  apply normalized_feature in Hp; [|lia].
  pose proof (size_anomaly_bounds n). pose proof (rare_extension_bounds p).
  unfold evidence. lra.
Qed.

Lemma extracted_features_in_unit_interval p n hr :
  scores_in_range hr ->
  Forall (fun kv => 0 <= snd kv <= 1) (_extract_features __init__ p n hr).
Proof.
  intros H. destruct (scores_in_range_inv hr H) as (He & Hs & Hm & Hp).
  apply normalized_feature in He; [|lia].
  apply normalized_feature in Hs; [|lia].
  apply normalized_feature in Hm; [|lia].
  apply normalized_feature in Hp; [|lia].
  pose proof (size_anomaly_bounds n) as Hsz. pose proof (rare_extension_bounds p) as Hr.
  unfold size_anomaly in Hsz. unfold rare_extension in Hr.
  unfold _extract_features.
  repeat (apply Forall_cons; split); cbn [snd];
    try apply Forall_nil; try assumption; try lra.
  - destruct (st_size n) as [sz|]; [|lra].
    destruct (sz <? _)%Z; [lra|]. destruct (_ <? sz)%Z; lra.
  - destruct (bool_decide _); lra.
Qed.

Lemma weights_sum_to_one :
  List.fold_right (fun fw acc => snd fw + acc) 0 (feature_weights __init__) = 1.
Proof. cbn. lra. Qed.

Lemma classify_label (s : R) features :
  fst (_classify __init__ s features)
  = if Rle_dec 0.8 s then "malicious"
    else if Rle_dec 0.3 s then "suspicious" else "benign".
Proof.
  unfold _classify. cbn [thresholds __init__ malicious suspicious benign].
  destruct (Rle_dec 0.8 s); [reflexivity|].
  destruct (Rle_dec 0.6 s).
  - destruct (Rle_dec 0.3 s); [reflexivity | lra].
  - destruct (Rle_dec 0.3 s); reflexivity.
Qed.

Lemma classify_confidence (s : R) features :
  0 <= snd (_classify __init__ s features) <= 1.
Proof.
  unfold _classify.
  destruct (if Rle_dec _ _ then _ else _) as [c conf]. cbn [snd].
  split.
  - replace 0 with 0.0 by lra. apply Rmax_l.
  - apply Rmax_lub; [lra|]. replace 1 with 1.0 by lra. apply Rmin_l.
Qed.

(** Claim C7.  For a score in [0, 1] the label is [malicious] exactly from
    0.8 up, [suspicious] exactly on [0.3, 0.8), [benign] exactly below 0.3,
    and the confidence lies in [0, 1]. *)
Theorem classify_bands (s : R) features :
  0 <= s <= 1 ->
  (fst (_classify __init__ s features) = "malicious" <-> 0.8 <= s)
  /\ (fst (_classify __init__ s features) = "suspicious" <-> 0.3 <= s < 0.8)
  /\ (fst (_classify __init__ s features) = "benign" <-> s < 0.3)
  /\ 0 <= snd (_classify __init__ s features) <= 1.
Proof.
  intros _. rewrite classify_label.
  repeat split; try apply classify_confidence;
    destruct (Rle_dec 0.8 s); destruct (Rle_dec 0.3 s);
    intros; try discriminate; try reflexivity; lra.
Qed.

Lemma classify_bands_witness :
  0 <= 0.5 <= 1 /\ fst (_classify __init__ 0.5 []) = "suspicious".
Proof.
  split; [lra|].
  apply (proj1 (proj2 (classify_bands 0.5 [] ltac:(lra)))). lra.
Defined.

(** What [score_file] returns for a file that exists: the sigmoid of the
    evidence, labelled by [_classify]. *)
Lemma score_file_existing p n hr :
  stat_succeeds n = true ->
  score_file __init__ p n hr
  = Return
      {| ml_score := _sigmoid (evidence p n hr);
         classification :=
           fst (_classify __init__ (_sigmoid (evidence p n hr))
                  (_extract_features __init__ p n hr));
         confidence :=
           snd (_classify __init__ (_sigmoid (evidence p n hr))
                  (_extract_features __init__ p n hr));
         experimental := true;
         features := Some (_extract_features __init__ p n hr) |}.
Proof.
  intros Hex. unfold score_file.
  replace (exists_ n) with (Return true : result bool)
    by (destruct n as [r c | l es | [|] | d]; cbn in *; congruence).
  cbn [bind negb]. unfold _calculate_ml_score.
  change (List.fold_left _ (feature_weights __init__) 0.0)
    with (weighted_sum __init__ (_extract_features __init__ p n hr)).
  rewrite weighted_sum_is_evidence.
  destruct (_classify __init__ (_sigmoid (evidence p n hr))
              (_extract_features __init__ p n hr)); reflexivity.
Qed.

(** What it returns where nothing is there. *)
Lemma score_file_missing p n hr :
  exists_ n = Return false ->
  score_file __init__ p n hr
  = Return {| ml_score := 0.0; classification := "unknown"; confidence := 0.0;
              experimental := true; features := None |}.
Proof. intros H. unfold score_file. rewrite H. reflexivity. Qed.

(** From an evidence of 3 on, the sigmoid is at least 0.8 and beyond
    [1/(1 + e^-1)]. *)
Lemma sigmoid_of_large_evidence (x : R) :
  3 <= x -> 0.8 <= _sigmoid x /\ 1 / (1 + exp (- 1)) < _sigmoid x.
Proof.
  intros Hx. unfold _sigmoid. replace 1.0 with 1 by lra.
  pose proof (exp_ineq1_le x) as Hlow.
  assert (Hinv : exp (- x) = / exp x) by apply exp_Ropp.
  assert (Hsmall : exp (- x) <= / 4).
  { rewrite Hinv. apply Rinv_le_contravar; lra. }
  assert (Hpos : 0 < exp (- x)) by apply exp_pos.
  assert (Hone : / 3 <= exp (- 1)).
  { pose proof exp_le_3 as H3. pose proof (exp_pos 1) as Hp1.
    replace (exp (- 1)) with (/ exp 1) by (symmetry; apply exp_Ropp).
    apply Rinv_le_contravar; lra. }
  split.
  - apply Rmult_le_reg_r with (1 + exp (- x)); [lra|].
    replace (1 / (1 + exp (- x)) * (1 + exp (- x))) with 1 by (field; lra).
    lra.
  - unfold Rdiv. rewrite !Rmult_1_l. apply Rinv_lt_contravar; [|lra].
    apply Rmult_lt_0_compat; lra.
Qed.

(** Claim C3, as stated, fails for a heuristic result the engine would not
    produce: an entropy score of 600 takes the ML score of an existing file
    above [1/(1 + e^-1)], and the file is classified [malicious]. *)
Lemma score_file_with_score_beyond_range :
  stat_succeeds (RegularFile true (b "hello")) = true
  /\ exists r,
       score_file __init__ notes (RegularFile true (b "hello")) inflated_analysis
       = Return r
       /\ classification r = "malicious"%string
       /\ 1 / (1 + exp (- 1)) < ml_score r.
Proof.
  split; [reflexivity|]. eexists. split; [apply score_file_existing; reflexivity|].
  cbn [classification ml_score].
  assert (Hev : evidence notes (RegularFile true (b "hello")) inflated_analysis = 5.08).
  { unfold evidence.
    replace (size_anomaly (RegularFile true (b "hello"))) with 0.8
      by (unfold size_anomaly; cbn [st_size];
          destruct (_ <? 1024)%Z eqn:E; [reflexivity | vm_compute in E; discriminate]).
    replace (rare_extension notes) with 0
      by (unfold rare_extension;
          destruct (bool_decide _) eqn:E; [vm_compute in E; discriminate | reflexivity]).
    cbn. lra. }
  rewrite Hev.
  destruct (sigmoid_of_large_evidence 5.08 ltac:(lra)) as [Hsig Hbeyond].
  split; [|exact Hbeyond].
  rewrite classify_label. destruct (Rle_dec 0.8 (_sigmoid 5.08)); [reflexivity | lra].
Qed.

(** Claim C3, amended.  For a file that exists and a heuristic result whose
    scores lie within the ranges of the heuristic engine: [score_file]
    returns; the six features it extracted lie in [0, 1]; the six weights
    sum to 1; the score is the sigmoid of the weighted evidence, which lies
    in [0, 1], so the score lies in [1/2, 1/(1 + e^-1)]; and the
    classification is [suspicious]. *)
Theorem score_file_on_scores_in_range p n hr :
  stat_succeeds n = true ->
  scores_in_range hr ->
  exists r fs,
    score_file __init__ p n hr = Return r
    /\ features r = Some fs
    /\ List.map fst fs = List.map fst (feature_weights __init__)
    /\ Forall (fun kv => 0 <= snd kv <= 1) fs
    /\ List.fold_right (fun fw acc => snd fw + acc) 0 (feature_weights __init__) = 1
    /\ 0 <= evidence p n hr <= 1
    /\ ml_score r = 1 / (1 + exp (- evidence p n hr))
    /\ 1 / 2 <= ml_score r <= 1 / (1 + exp (- 1))
    /\ classification r = "suspicious"%string.
Proof.
  intros Hex Hin.
  pose proof (evidence_in_unit_interval p n hr Hin) as Hev.
  pose proof (sigmoid_bounds _ Hev) as Hsig.
  eexists. exists (_extract_features __init__ p n hr).
  split; [apply score_file_existing; exact Hex|].
  cbn [features ml_score classification].
  split; [reflexivity|]. split; [reflexivity|].
  split; [now apply extracted_features_in_unit_interval|].
  split; [apply weights_sum_to_one|].
  split; [exact Hev|].
  split; [unfold _sigmoid; f_equal; lra|].
  split; [exact Hsig|].
  pose proof sigmoid_one_below_malicious.
  rewrite classify_label.
  destruct (Rle_dec 0.8 (_sigmoid (evidence p n hr))); [lra|].
  destruct (Rle_dec 0.3 (_sigmoid (evidence p n hr))); [reflexivity | lra].
Qed.

Lemma score_file_on_scores_in_range_witness :
  stat_succeeds (RegularFile true (b "MZ-UPX")) = true
  /\ scores_in_range disguised_analysis
  /\ exists r,
       score_file __init__ ["/"; "tmp"; "photo.jpg"] (RegularFile true (b "MZ-UPX"))
         disguised_analysis = Return r
       /\ ml_score r = 1 / (1 + exp (- 0.43))
       /\ classification r = "suspicious"%string.
Proof.
  assert (Hin : scores_in_range disguised_analysis).
  { unfold scores_in_range. repeat (apply Forall_cons; split; [cbn; lia|]). constructor. }
  split; [reflexivity|]. split; [exact Hin|].
  destruct (score_file_on_scores_in_range ["/"; "tmp"; "photo.jpg"]
              (RegularFile true (b "MZ-UPX")) disguised_analysis eq_refl Hin)
    as (r & fs & E & _ & _ & _ & _ & _ & Hs & _ & Hc).
  exists r. split; [exact E|]. split; [|exact Hc].
  rewrite Hs. do 3 f_equal. unfold evidence.
  replace (size_anomaly (RegularFile true (b "MZ-UPX"))) with 0.8
    by (unfold size_anomaly; cbn [st_size];
        destruct (_ <? 1024)%Z eqn:Q; [reflexivity | vm_compute in Q; discriminate]).
  replace (rare_extension ["/"; "tmp"; "photo.jpg"]) with 0
    by (unfold rare_extension;
        destruct (bool_decide _) eqn:Q; [vm_compute in Q; discriminate | reflexivity]).
  cbn. lra.
Defined.

(** *** The score and the threshold of the [scan] command *)

(** [3/7 < e^-0.78], from [1 + x <= e^x] at [x = -0.78/8]. *)
Lemma exp_lower_bound : 3 / 7 < exp (- 0.78).
Proof.
  pose proof (exp_ineq1_le (- 0.0975)) as H1.
  set (a := exp (- 0.0975)) in *.
  assert (H2 : exp (- 0.195) = a * a).
  { unfold a. rewrite <- exp_plus. f_equal. lra. }
  assert (H4 : exp (- 0.39) = exp (- 0.195) * exp (- 0.195)).
  { rewrite <- exp_plus. f_equal. lra. }
  assert (H8 : exp (- 0.78) = exp (- 0.39) * exp (- 0.39)).
  { rewrite <- exp_plus. f_equal. lra. }
  assert (Ha : 0.9025 <= a) by lra.
  assert (Hb : 0.8145 <= a * a) by nra.
  rewrite H8, H4, H2.
  set (b := a * a) in *.
  assert (Hc : 0.6634 <= b * b) by nra.
  set (c := b * b) in *.
  nra.
Qed.

Lemma sigmoid_below_flagging_threshold (x : R) : x <= 0.78 -> _sigmoid x < 0.7.
Proof.
  intros Hx. unfold _sigmoid.
  assert (Hge : exp (- 0.78) <= exp (- x)) by (apply exp_monotone; lra).
  pose proof exp_lower_bound as Hlb.
  replace 1.0 with 1 by lra.
  apply Rmult_lt_reg_r with (1 + exp (- x)); [lra|].
  replace (1 / (1 + exp (- x)) * (1 + exp (- x))) with 1 by (field; lra).
  lra.
Qed.

Lemma signal_score_absent signals :
  existsb from_strings signals = false ->
  signal_score signals "suspicious_strings" = 0%Z.
Proof.
  intros H. unfold signal_score.
  destruct (List.find _ signals) as [s|] eqn:F; [|reflexivity].
  apply List.find_some in F as [Hin Hnm].
  assert (existsb from_strings signals = true)
    by (apply List.existsb_exists; exists s; split; assumption).
  congruence.
Qed.

(** Without a suspicious-strings signal the evidence cannot exceed
    0.25 + 0.20 + 0.15 + 0.08 + 0.10. *)
Lemma evidence_without_strings p n hr :
  scores_in_range hr ->
  existsb from_strings (signals hr) = false ->
  evidence p n hr <= 0.78.
Proof.
  intros Hin Hno. destruct (scores_in_range_inv hr Hin) as (He & _ & Hm & Hp).
  apply normalized_feature in He; [|lia].
  apply normalized_feature in Hm; [|lia].
  apply normalized_feature in Hp; [|lia].
  pose proof (size_anomaly_bounds n). pose proof (rare_extension_bounds p).
  unfold evidence. rewrite (signal_score_absent _ Hno). lra.
Qed.

(** Scored on the result the heuristic engine returned for it, every file
    gets an ML result, and none reaches an ML score of 0.7. *)
Lemma ml_score_below_threshold findall p n hr :
  analyze_file findall p n = Return hr ->
  exists r, score_file __init__ p n hr = Return r /\ ml_score r < 0.7.
Proof.
  intros Hhr.
  destruct (analyze_file_result_shape findall p n hr Hhr) as (Hall & _).
  destruct (analyze_file_signals findall p n hr Hhr) as (Hno & _).
  destruct (stat_succeeds n) eqn:Hex.
  - eexists. split; [apply score_file_existing; exact Hex|]. cbn [ml_score].
    apply sigmoid_below_flagging_threshold, evidence_without_strings;
      [apply in_range_scores, Hall | exact Hno].
  - eexists. split; [apply score_file_missing|cbn [ml_score]; lra].
    destruct n as [r c | l es | [|] | d]; cbn in *; congruence.
Qed.


End ml_scoring_props.

(** ** Cloud client *)
Module cloud_sync_props.
Import py cloud_sync samples notions.

Section Client.

Variables md5 sha1 sha256 : list Byte.byte -> string.

(** Claim C10.  A client constructed by default is disabled, and on a
    disabled client [query_hash] returns the [disabled] result with its
    guidance message, leaves the client as it was and does nothing else: no
    file is read, no digest computed, the cache neither consulted nor
    written, the lookup service not queried. *)
Theorem query_hash_while_disabled cache_file (self : CloudSyncClient)
    (file_path : Path) (n : node) :
  is_enabled self = false ->
  is_enabled (get_cloud_client cache_file) = false
  /\ query_hash md5 sha1 sha256 file_path n self = (Return disabled_result, self, [])
  /\ disabled_result !! "status" = Some (VStr "disabled")
  /\ is_Some (disabled_result !! "message").
Proof.
  intros H. unfold is_enabled in H.
  split; [reflexivity|].
  split; [|split; [reflexivity | eexists; reflexivity]].
  unfold query_hash, mbind, M_bind, this. rewrite H. reflexivity.
Qed.

Lemma query_cache_verdict_free k self r self' t :
  _query_cache k self = (Return r, self', t) -> verdict_free r.
Proof.
  unfold _query_cache, mbind, M_bind, emit, this, lift. cbn.
  destruct (cache_hashes self) as [h|e]; cbn; [|discriminate].
  destruct k as [hv | p].
  - destruct (h !! hv); cbn; intros H; injection H as <- _ _; split; reflexivity.
  - cbn. intros H; injection H as <- _ _; split; reflexivity.
Qed.

Lemma query_cloud_verdict_free hashes self r self' t :
  _query_cloud hashes self = (Return r, self', t) ->
  verdict_free r /\ r !! "status" = Some (VStr "success").
Proof.
  destruct hashes as [[h5 h1] h256].
  unfold _query_cloud, mbind, M_bind, emit. cbn.
  intros H; injection H as <- _ _. repeat split; reflexivity.
Qed.

(** Whatever an enabled client returns from [query_hash], found in the
    cache or fetched, the dictionary has no [is_malicious] key. *)
Lemma query_hash_enabled_verdict_free file_path n self r self' t :
  is_enabled self = true ->
  query_hash md5 sha1 sha256 file_path n self = (Return r, self', t) ->
  verdict_free r.
Proof.
  unfold is_enabled. intros He.
  unfold query_hash. unfold mbind at 1. unfold M_bind at 1. unfold this at 1.
  cbn iota beta. rewrite He. cbn [negb].
  destruct (offline_mode self).
  { destruct (_query_cache (KPath file_path) self) as [[[r0|e0] s0] t0] eqn:Q;
      intros H; [|discriminate].
    injection H as <- _ _. eapply query_cache_verdict_free, Q. }
  unfold mbind at 1. unfold M_bind at 1.
  destruct (_calculate_hashes md5 sha1 sha256 file_path n self)
    as [[[[[h5 h1] h256]|e0] s0] t0]; [|discriminate].
  unfold mbind at 1. unfold M_bind at 1.
  destruct (_query_cache (KStr h256) s0) as [[[cr|e1] s1] t1] eqn:Q; [|discriminate].
  pose proof (query_cache_verdict_free _ _ _ _ _ Q) as Hcr.
  unfold mbind at 1. unfold M_bind at 1. unfold lift at 1.
  destruct (getitem cr "status") as [st|e2]; [|discriminate].
  destruct (eq_str st "found").
  { cbn. intros H. injection H as <- _ _. exact Hcr. }
  unfold mbind at 1. unfold M_bind at 1.
  destruct (_query_cloud (h5, h1, h256) s1) as [[[cl|e3] s2] t2] eqn:C; [|discriminate].
  destruct (query_cloud_verdict_free _ _ _ _ _ C) as [Hcl Hst].
  unfold mbind at 1. unfold M_bind at 1. unfold lift at 1.
  unfold getitem. rewrite Hst. cbn [eq_str String.eqb Ascii.eqb Bool.eqb].
  unfold mbind at 1. unfold M_bind at 1.
  destruct (_cache_hash h256 cl s2) as [[[u|e4] s3] t3]; [|discriminate].
  cbn. intros H. injection H as <- _ _. exact Hcl.
Qed.

(** *** Offline mode, the cache and its statistics *)

Lemma query_hash_disabled file_path n self :
  enabled self = false ->
  query_hash md5 sha1 sha256 file_path n self = (Return disabled_result, self, []).
Proof.
  intros H. unfold query_hash, mbind, M_bind, this. rewrite H. reflexivity.
Qed.

Lemma query_hash_offline file_path n self h :
  is_enabled self = true -> offline_mode self = true ->
  cache_hashes self = Return h ->
  query_hash md5 sha1 sha256 file_path n self = (Return not_found, self, [CacheLookup]).
Proof.
  unfold is_enabled. intros He Ho Hc.
  unfold query_hash, _query_cache, mbind, M_bind, this, emit, lift, mret, M_ret.
  rewrite He, Ho. cbn. rewrite Hc. reflexivity.
Qed.

(** In offline mode an enabled client finds nothing, whatever its cache
    holds: [query_hash] looks the [Path] up among the digests the cache is
    keyed by, reports [not_found], and neither reads the file nor queries
    the lookup service. *)
Theorem query_hash_offline_finds_nothing file_path n self h :
  is_enabled self = true -> offline_mode self = true ->
  cache_hashes self = Return h ->
  query_hash md5 sha1 sha256 file_path n self = (Return not_found, self, [CacheLookup]).
Proof. apply query_hash_offline. Qed.

(** The digests are computed without a query to the lookup service; the
    third one is the cache key. *)
Lemma calculate_hashes_key file_path n self :
  exists h5 h1 t,
    _calculate_hashes md5 sha1 sha256 file_path n self
    = (Return (h5, h1, cache_key sha256 n), self, t)
    /\ existsb is_cloud_query t = false.
Proof.
  unfold _calculate_hashes, try_except, cache_key, mbind, M_bind, emit, lift, mret, M_ret.
  destruct (read_bytes n) as [c|e]; cbn; eauto 6.
Qed.

Lemma query_cache_result k self h :
  cache_hashes self = Return h ->
  _query_cache (KStr k) self
  = (Return (match h !! k with
             | Some r => {[ "status" := VStr "found"; "cached" := VBool true;
                            "result" := r ]}
             | None => not_found
             end), self, [CacheLookup]).
Proof.
  intros Hc. unfold _query_cache, mbind, M_bind, this, emit, lift, mret, M_ret.
  cbn. rewrite Hc. destruct (h !! k); reflexivity.
Qed.

Lemma query_cloud_result h5 h1 k self :
  _query_cloud (h5, h1, k) self = (Return (cloud_result k), self, [CloudQuery k]).
Proof. reflexivity. Qed.

Lemma cache_hash_result k r self d h :
  cache self = VDict d -> d !! "hashes" = Some (VDict h) ->
  _cache_hash k r self
  = (Return tt,
     {| enabled := enabled self; offline_mode := offline_mode self;
        cache := VDict (<["hashes" := VDict (<[k := VDict r]> h)]> d) |},
     [CacheStore k; CacheSave]).
Proof.
  intros Hd Hh. unfold _cache_hash.
  unfold mbind at 1. unfold M_bind at 1. unfold this at 1. cbn iota beta.
  unfold mbind at 1. unfold M_bind at 1. unfold lift at 1. unfold cache_hashes.
  rewrite Hd, Hh. cbn iota beta.
  unfold mbind, M_bind, emit, update. cbn. rewrite Hd. reflexivity.
Qed.

(** What an enabled client does online: a cached entry is returned as
    found; otherwise the service is queried and its answer cached. *)
Lemma query_hash_online file_path n self d h :
  is_enabled self = true -> offline_mode self = false ->
  cache self = VDict d -> d !! "hashes" = Some (VDict h) ->
  exists t,
    query_hash md5 sha1 sha256 file_path n self
    = match h !! cache_key sha256 n with
      | Some r => (Return {[ "status" := VStr "found"; "cached" := VBool true;
                             "result" := r ]}, self, t)
      | None => (Return (cloud_result (cache_key sha256 n)),
                 with_cached self d h (cache_key sha256 n),
                 t ++ [CloudQuery (cache_key sha256 n);
                       CacheStore (cache_key sha256 n); CacheSave])%list
      end
    /\ existsb is_cloud_query t = false.
Proof.
  unfold is_enabled. intros He Ho Hd Hh.
  assert (Hc : cache_hashes self = Return h) by (unfold cache_hashes; now rewrite Hd, Hh).
  destruct (calculate_hashes_key file_path n self) as (h5 & h1 & t & Hcalc & Ht).
  exists (t ++ [CacheLookup])%list. split.
  2:{ rewrite existsb_app, Ht. reflexivity. }
  unfold query_hash. unfold mbind at 1. unfold M_bind at 1. unfold this at 1.
  cbn iota beta. rewrite He, Ho. cbn [negb].
  unfold mbind at 1. unfold M_bind at 1. rewrite Hcalc.
  unfold mbind at 1. unfold M_bind at 1. rewrite (query_cache_result _ _ _ Hc).
  destruct (h !! cache_key sha256 n) as [r|] eqn:Hk.
  - assert (G : getitem ({[ "status" := VStr "found"; "cached" := VBool true;
                             "result" := r ]} : gmap string value) "status"
                 = Return (VStr "found")) by reflexivity.
    unfold mbind, M_bind, lift, mret, M_ret. rewrite G. cbn. reflexivity.
  - assert (G : getitem not_found "status" = Return (VStr "not_found")) by reflexivity.
    unfold mbind at 1. unfold M_bind at 1. unfold lift at 1. rewrite G.
    cbn [eq_str String.eqb Ascii.eqb Bool.eqb].
    unfold mbind at 1. unfold M_bind at 1. rewrite query_cloud_result.
    assert (G2 : getitem (cloud_result (cache_key sha256 n)) "status"
                 = Return (VStr "success")) by reflexivity.
    unfold mbind at 1. unfold M_bind at 1. unfold lift at 1. rewrite G2.
    cbn [eq_str String.eqb Ascii.eqb Bool.eqb].
    unfold mbind at 1. unfold M_bind at 1.
    rewrite (cache_hash_result _ _ _ _ _ Hd Hh).
    unfold mret, M_ret, with_cached. cbn [app].
    rewrite <- !app_assoc. cbn [app]. reflexivity.
Qed.

(** A verdict fetched from the lookup service is cached under the digest:
    the next query for a file with the same cache key (the same content, or
    another file that cannot be read) is answered from the cache, with the
    first answer as its [result] and without a query to the service. *)
Theorem second_query_is_served_from_cache file_path n file_path2 n2 self d h :
  is_enabled self = true -> offline_mode self = false ->
  cache self = VDict d -> d !! "hashes" = Some (VDict h) ->
  h !! cache_key sha256 n = None ->
  cache_key sha256 n2 = cache_key sha256 n ->
  exists r1 self1 t1 t2,
    query_hash md5 sha1 sha256 file_path n self = (Return r1, self1, t1)
    /\ r1 !! "status" = Some (VStr "success")
    /\ existsb is_cloud_query t1 = true
    /\ query_hash md5 sha1 sha256 file_path2 n2 self1
       = (Return {[ "status" := VStr "found"; "cached" := VBool true;
                    "result" := VDict r1 ]}, self1, t2)
    /\ existsb is_cloud_query t2 = false.
Proof.
  intros He Ho Hd Hh Hnew Hkey.
  destruct (query_hash_online file_path n self d h He Ho Hd Hh) as (t & Hq & Ht).
  rewrite Hnew in Hq.
  set (k := cache_key sha256 n) in *.
  destruct (query_hash_online file_path2 n2 (with_cached self d h k)
              (<["hashes" := VDict (<[k := VDict (cloud_result k)]> h)]> d)
              (<[k := VDict (cloud_result k)]> h) He Ho eq_refl
              ltac:(now rewrite lookup_insert_eq)) as (t2 & Hq2 & Ht2).
  rewrite Hkey in Hq2. fold k in Hq2. rewrite lookup_insert_eq in Hq2.
  exists (cloud_result k), (with_cached self d h k),
    (t ++ [CloudQuery k; CacheStore k; CacheSave])%list, t2.
  split; [exact Hq|]. split; [reflexivity|]. split.
  - rewrite existsb_app. cbn. now rewrite orb_true_r.
  - split; [exact Hq2 | exact Ht2].
Qed.

Lemma filter_none {X} (f : X -> bool) l :
  (forall x, In x l -> f x = false) -> List.filter f l = [].
Proof.
  induction l as [| y l IH]; intros H; [reflexivity|].
  cbn. rewrite (H y (or_introl eq_refl)). apply IH. intros x Hx. apply H. now right.
Qed.

Lemma count_status_filled (h : gmap string value) status :
  map_Forall (fun _ v => exists r, v = VDict r
                           /\ r !! "status" = Some (VStr "success")) h ->
  eq_str (VStr "success") status = false ->
  count_status h status = 0%Z.
Proof.
  intros Hall Hne. unfold count_status.
  rewrite filter_none; [reflexivity|].
  intros [k v] Hin. apply list_elem_of_In, elem_of_map_to_list in Hin.
  destruct (Hall k v Hin) as (r & -> & Hr). cbn [snd]. now rewrite Hr.
Qed.

Lemma filled_with_cached self d h k :
  cache self = VDict d -> d !! "hashes" = Some (VDict h) ->
  is_Some (d !! "last_sync") ->
  map_Forall (fun _ v => exists r, v = VDict r
                           /\ r !! "status" = Some (VStr "success")) h ->
  filled_by_lookups (with_cached self d h k).
Proof.
  intros Hd Hh Hls Hall.
  exists (<["hashes" := VDict (<[k := VDict (cloud_result k)]> h)]> d),
         (<[k := VDict (cloud_result k)]> h).
  split; [reflexivity|]. split; [now rewrite lookup_insert_eq|].
  split; [now rewrite lookup_insert_ne|].
  apply map_Forall_insert_2; [|exact Hall].
  exists (cloud_result k). split; reflexivity.
Qed.

Lemma query_hash_keeps_filled file_path n self r self' t :
  filled_by_lookups self ->
  query_hash md5 sha1 sha256 file_path n self = (r, self', t) ->
  filled_by_lookups self'.
Proof.
  intros Hfilled Hq. pose proof Hfilled as (d & h & Hd & Hh & Hls & Hall).
  assert (Hc : cache_hashes self = Return h)
    by (unfold cache_hashes; now rewrite Hd, Hh).
  destruct (enabled self) eqn:He.
  2:{ rewrite (query_hash_disabled _ _ _ He) in Hq. now injection Hq as _ <- _. }
  destruct (offline_mode self) eqn:Ho.
  { rewrite (query_hash_offline _ _ _ h He Ho Hc) in Hq.
    now injection Hq as _ <- _. }
  destruct (query_hash_online file_path n self d h He Ho Hd Hh) as (t0 & Hq0 & _).
  rewrite Hq0 in Hq.
  destruct (h !! cache_key sha256 n); injection Hq as _ <- _; [exact Hfilled|].
  now apply filled_with_cached.
Qed.

Lemma filled_stats self :
  filled_by_lookups self ->
  exists total last_sync,
    get_cache_stats self
    = Return {[ "total_cached_hashes" := VInt total;
                "malicious_hashes" := VInt 0;
                "benign_hashes" := VInt 0;
                "unknown_hashes" := VInt 0;
                "last_sync" := last_sync ]}.
Proof.
  intros (d & h & Hd & Hh & [ls Hls] & Hall).
  exists (Z.of_nat (size h)), ls. unfold get_cache_stats. rewrite Hd, Hh, Hls.
  now rewrite !(count_status_filled h _ Hall).
Qed.

(** [query_hash] stores every verdict wrapped in a result of status
    [success]; a cache filled that way stays so, and [get_cache_stats]
    counts no malicious, benign or unknown hash in it, whatever verdicts the
    lookup service returned. *)
Theorem cache_statistics_classify_nothing file_path n self r self' t :
  filled_by_lookups self ->
  query_hash md5 sha1 sha256 file_path n self = (r, self', t) ->
  filled_by_lookups self'
  /\ exists total last_sync,
       get_cache_stats self'
       = Return {[ "total_cached_hashes" := VInt total;
                   "malicious_hashes" := VInt 0;
                   "benign_hashes" := VInt 0;
                   "unknown_hashes" := VInt 0;
                   "last_sync" := last_sync ]}.
Proof.
  intros Hfilled Hq.
  pose proof (query_hash_keeps_filled _ _ _ _ _ _ Hfilled Hq) as Hkeep.
  split; [exact Hkeep | now apply filled_stats].
Qed.

End Client.

Lemma query_hash_while_disabled_witness :
  is_enabled (get_cloud_client None) = false
  /\ query_hash (fun _ => "md5") (fun _ => "sha1") (fun _ => known_bad_digest)
       notes (lookup home_tree notes) (get_cloud_client None)
     = (Return disabled_result, get_cloud_client None, []).
Proof.
  split; [reflexivity|].
  exact (proj1 (proj2
           (query_hash_while_disabled (fun _ => "md5") (fun _ => "sha1")
              (fun _ => known_bad_digest) None (get_cloud_client None)
              notes (lookup home_tree notes) eq_refl))).
Defined.

Lemma filled_default : filled_by_lookups enabled_client.
Proof.
  eexists _, ∅. split; [reflexivity|]. split; [reflexivity|].
  split; [eexists; reflexivity | apply map_Forall_empty].
Qed.

Lemma query_hash_offline_finds_nothing_witness :
  is_enabled primed_client = true
  /\ offline_mode primed_client = true
  /\ (exists h, cache_hashes primed_client = Return h
                /\ is_Some (h !! cache_key (fun _ => known_bad_digest)
                                  (lookup home_tree notes)))
  /\ query_hash (fun _ => "md5") (fun _ => "sha1") (fun _ => known_bad_digest)
       notes (lookup home_tree notes) primed_client
     = (Return not_found, primed_client, [CacheLookup]).
Proof.
  split; [reflexivity|]. split; [reflexivity|].
  split; [eexists; split; [reflexivity | eexists; reflexivity]|].
  eapply (query_hash_offline_finds_nothing (fun _ => "md5") (fun _ => "sha1")
            (fun _ => known_bad_digest) notes (lookup home_tree notes)
            primed_client); reflexivity.
Defined.

Lemma second_query_is_served_from_cache_witness :
  is_enabled enabled_client = true
  /\ cache_key (fun _ => known_bad_digest) (lookup home_tree ["/"; "nowhere"])
     = cache_key (fun _ => known_bad_digest) (lookup home_tree ["/"; "home"])
  /\ exists r1 self1 t1 t2,
       query_hash (fun _ => "md5") (fun _ => "sha1") (fun _ => known_bad_digest)
         ["/"; "home"] (lookup home_tree ["/"; "home"]) enabled_client
       = (Return r1, self1, t1)
       /\ query_hash (fun _ => "md5") (fun _ => "sha1") (fun _ => known_bad_digest)
            ["/"; "nowhere"] (lookup home_tree ["/"; "nowhere"]) self1
          = (Return {[ "status" := VStr "found"; "cached" := VBool true;
                       "result" := VDict r1 ]}, self1, t2).
Proof.
  split; [reflexivity|]. split; [reflexivity|].
  destruct (second_query_is_served_from_cache (fun _ => "md5") (fun _ => "sha1")
              (fun _ => known_bad_digest)
              ["/"; "home"] (lookup home_tree ["/"; "home"])
              ["/"; "nowhere"] (lookup home_tree ["/"; "nowhere"])
              enabled_client _ ∅ eq_refl eq_refl eq_refl eq_refl eq_refl eq_refl)
    as (r1 & self1 & t1 & t2 & E1 & _ & _ & E2 & _).
  exists r1, self1, t1, t2. split; [exact E1 | exact E2].
Defined.

Lemma cache_statistics_classify_nothing_witness :
  filled_by_lookups enabled_client
  /\ exists r self' t,
       query_hash (fun _ => "md5") (fun _ => "sha1") (fun _ => known_bad_digest)
         notes (lookup home_tree notes) enabled_client = (r, self', t)
       /\ exists total last_sync,
            get_cache_stats self'
            = Return {[ "total_cached_hashes" := VInt total;
                        "malicious_hashes" := VInt 0;
                        "benign_hashes" := VInt 0;
                        "unknown_hashes" := VInt 0;
                        "last_sync" := last_sync ]}.
Proof.
  split; [exact filled_default|].
  destruct (query_hash (fun _ => "md5") (fun _ => "sha1") (fun _ => known_bad_digest)
              notes (lookup home_tree notes) enabled_client) as [[r self'] t] eqn:Q.
  exists r, self', t. split; [reflexivity|].
  exact (proj2 (cache_statistics_classify_nothing (fun _ => "md5") (fun _ => "sha1")
                  (fun _ => known_bad_digest) notes (lookup home_tree notes)
                  enabled_client r self' t filled_default Q)).
Defined.

(** The verdict for the digest the simulated service lists as malicious is
    cached, and the statistics still count no malicious hash. *)
Example cache_statistics_after_a_malicious_verdict :
  let '(_, self', _) :=
    query_hash (fun _ => "md5") (fun _ => "sha1") (fun _ => known_bad_digest)
      notes (lookup home_tree notes) enabled_client in
  get_cache_stats self'
  = Return {[ "total_cached_hashes" := VInt 1;
              "malicious_hashes" := VInt 0;
              "benign_hashes" := VInt 0;
              "unknown_hashes" := VInt 0;
              "last_sync" := VNone ]}.
Proof. vm_compute. reflexivity. Qed.

End cloud_sync_props.

(** ** The [scan] command *)
Module cli_props.
Import py cloud_sync cli cloud_sync_props samples notions.


Section Scan.

Variable findall : string -> list Byte.byte -> list string.
Variables md5 sha1 sha256 : list Byte.byte -> string.
Variable check_file : Path -> node -> result (gmap string value).
Variable heuristic_analyze_file : Path -> node -> result (gmap string value).
Variable fs : node.






End Scan.



(** The ML criterion of the [scan] command never fires: scored on the
    result the heuristic engine returned for the file, the ML score stays
    below 0.7, so [--ml] does not change which files are flagged. *)
Theorem ml_scoring_never_flags_a_file (findall : string -> list Byte.byte -> list string)
    p n hr signature_result cloud_result :
  advanced_heuristic.analyze_file findall p n = Return hr ->
  exists scored,
    ml_scoring.score_file ml_scoring.__init__ p n hr = Return scored
    /\ (ml_scoring.ml_score scored < 0.7)%R
    /\ is_threat signature_result hr (Some scored) cloud_result
       = is_threat signature_result hr None cloud_result.
Proof.
  intros Hhr.
  destruct (ml_scoring_props.ml_score_below_threshold findall p n hr Hhr)
    as (scored & Hm & Hlt).
  exists scored. split; [exact Hm|]. split; [exact Hlt|]. unfold is_threat.
  destruct (Rle_dec 0.7 (ml_scoring.ml_score scored)); [lra | reflexivity].
Qed.

Lemma ml_scoring_never_flags_a_file_witness :
  advanced_heuristic.analyze_file literal_findall ["/"; "tmp"; "photo.jpg"]
    (RegularFile true (b "MZ-UPX")) = Return disguised_analysis
  /\ exists scored,
       ml_scoring.score_file ml_scoring.__init__ ["/"; "tmp"; "photo.jpg"]
         (RegularFile true (b "MZ-UPX")) disguised_analysis = Return scored
       /\ (ml_scoring.ml_score scored < 0.7)%R.
Proof.
  assert (H : advanced_heuristic.analyze_file literal_findall ["/"; "tmp"; "photo.jpg"]
                (RegularFile true (b "MZ-UPX")) = Return disguised_analysis)
    by (vm_compute; reflexivity).
  split; [exact H|].
  destruct (ml_scoring_never_flags_a_file literal_findall ["/"; "tmp"; "photo.jpg"]
              (RegularFile true (b "MZ-UPX")) _ ∅ None H) as (scored & Hm & Hlt & _).
  exists scored. split; [exact Hm | exact Hlt].
Defined.

End cli_props.
